(** * ModelicaRes: script writer, simulator stubs and experiment generator

    A shallow embedding of [modelicares/exps/simulators.py] (the
    [dymola_script], [dymosim] and [fmi] context managers) together with
    the experiment generator that [examples/ChuaCircuit/sim_and_plot.py]
    calls, and with that example's own short model names and its block
    that drives Dymola.

    Conventions of the embedding:
    - Python [str] is [string]; Python [int] is [Z] (unbounded).
    - A Python [dict] whose iteration order matters is an association
      list in insertion order, with unique keys.
    - List objects that may be aliased live in a heap indexed by
      locations; the writer stores a location, not a copy.
    - File handles write through an event trace.  The trace records the
      order of the [open], [write], [close] and [print] calls; what a
      file holds and whether it is closed are views of the trace.
    - Methods are computations in a small state-and-exception monad, so
      that the effects of a call that raises are kept up to the raise. *)

From Stdlib Require Import ZArith Ascii String DecimalString DecimalPos DecimalZ.
From stdpp Require Import base list strings gmap.

Local Open Scope string_scope.
Local Open Scope Z_scope.

(** ** Strings *)

Module Str.

Definition of_char (c : ascii) : string := String c EmptyString.

(** The characters that Python writes with an escape. *)
Definition tab : string := of_char "009"%char.
Definition nl : string := of_char "010"%char.
Definition dquote : string := of_char "034"%char.
Definition backslash : string := of_char "092"%char.

(** [str(n)], ['%i' % n] and ['%s' % n] for an [int]. *)
Definition of_int (n : Z) : string := NilZero.string_of_int (Z.to_int n).

(** [sep.join(parts)] *)
Definition join (sep : string) (parts : list string) : string :=
  String.concat sep parts.

(** [s.endswith(suffix)] *)
Definition endswith (s suffix : string) : bool :=
  String.prefix (String.rev suffix) (String.rev s).

Fixpoint drop_last (s : string) : string :=
  match s with
  | EmptyString => EmptyString
  | String c EmptyString => EmptyString
  | String c r => String c (drop_last r)
  end.

(** [s[1:-1]]: all but the first and the last character; empty when
    [s] has fewer than three characters. *)
Definition strip_ends (s : string) : string :=
  match s with
  | EmptyString => EmptyString
  | String _ r => drop_last r
  end.

(** [s.replace(old, new)] for a non-empty [old]: every occurrence,
    left to right, without overlap.  [skip] counts the characters of
    a matched occurrence that are still to be passed over. *)
Fixpoint replace_from (skip : nat) (old new s : string) : string :=
  match s with
  | EmptyString => EmptyString
  | String c r =>
      match skip with
      | S k => replace_from k old new r
      | O =>
          if String.prefix old s
          then new +:+ replace_from (Nat.pred (String.length old)) old new r
          else String c (replace_from O old new r)
      end
  end.

Definition replace (old new s : string) : string := replace_from O old new s.

(** The pieces of a format string, put together. *)
Definition cat (parts : list string) : string := String.concat EmptyString parts.

(** ['"%s"' % s] *)
Definition quoted (s : string) : string := cat [dquote; s; dquote].

End Str.

(** ** Values and dictionaries *)

(** The values that parameters and command options take.  A nested
    dictionary is a value; [VNone] is Python's [None]. *)
#[warnings="-register-all"]
Inductive value : Type :=
| VNone
| VInt (n : Z)
| VStr (s : string)
| VDict (items : list (string * value)).

Abbreviation dict := (list (string * value)).

(** Induction on a value together with the values nested in it. *)
Section ValueInduction.
Variable P : value → Prop.
Hypothesis HNone : P VNone.
Hypothesis HInt : ∀ n, P (VInt n).
Hypothesis HStr : ∀ s, P (VStr s).
Hypothesis HDict : ∀ items, Forall (fun kv => P (snd kv)) items → P (VDict items).

Fixpoint value_nested_ind (v : value) : P v :=
  match v with
  | VNone => HNone
  | VInt n => HInt n
  | VStr s => HStr s
  | VDict items =>
      HDict items
        ((fix go (l : dict) : Forall (fun kv => P (snd kv)) l :=
            match l with
            | [] => List.Forall_nil _
            | (k, v') :: r =>
                List.Forall_cons _ (k, v') r (value_nested_ind v') (go r)
            end) items)
  end.
End ValueInduction.

Module Dict.

(** [d[k]], [None] standing for a [KeyError]. *)
Fixpoint get (d : dict) (k : string) : option value :=
  match d with
  | [] => None
  | (k', v) :: r => if String.eqb k' k then Some v else get r k
  end.

(** [d[k] = v]: an existing key keeps its place, a new key goes last. *)
Fixpoint set (d : dict) (k : string) (v : value) : dict :=
  match d with
  | [] => [(k, v)]
  | (k', v') :: r =>
      if String.eqb k' k then (k', v) :: r else (k', v') :: set r k v
  end.

End Dict.

(** ** Serialization of a parameter dictionary *)

Module ParamDict.

(** [ParamDict] and its [__str__] are defined in
    [modelicares/exps/__init__.py], which is not among the sources;
    [simulators.py] only calls them. *)

(** The dotted key of an entry of a nested mapping. *)
Definition dotted (prefix key : string) : string := prefix +:+ "." +:+ key.

(** Modelled from the spec: the entries that [ParamDict.__str__]
    serializes.  The spec: a mapping from hierarchical parameter name
    to a scalar value; nested mappings flatten to dotted keys; entries
    with an absent value are omitted; key order is insertion order.
    The text of a string value is the string itself, as [run] needs
    for its [problem] entry, which carries its own quotes. *)
Fixpoint flatten (name : string) (v : value) : list (string * string) :=
  match v with
  | VNone => []
  | VInt n => [(name, Str.of_int n)]
  | VStr s => [(name, s)]
  | VDict items =>
      (fix go (l : dict) : list (string * string) :=
         match l with
         | [] => []
         | (k, v') :: r => (flatten (dotted name k) v' ++ go r)%list
         end) items
  end.

Definition flatten_dict (d : dict) : list (string * string) :=
  flat_map (fun kv => flatten (fst kv) (snd kv)) d.

Definition element (kv : string * string) : string :=
  fst kv +:+ "=" +:+ snd kv.

Definition elements (d : dict) : list string := map element (flatten_dict d).

(** Modelled from the spec: [ParamDict.__str__].  The spec: it
    serializes by joining "key=value" pairs.  The enclosing parentheses
    and the empty text for a dictionary without entries are what the
    call sites in [simulators.py] rely on: [run] appends the text to
    the command name and to the model name, and strips one character
    from each end of it for the run log. *)
Definition str (d : dict) : string :=
  match elements d with
  | [] => EmptyString
  | es => "(" +:+ Str.join ", " es +:+ ")"
  end.

(** The dictionary without its absent entries, at every level of
    nesting. *)
Fixpoint drop_None_value (v : value) : value :=
  match v with
  | VDict items =>
      VDict ((fix go (l : dict) : dict :=
                match l with
                | [] => []
                | (k, VNone) :: r => go r
                | (k, v') :: r => (k, drop_None_value v') :: go r
                end) items)
  | _ => v
  end.

Definition drop_None (d : dict) : dict :=
  match drop_None_value (VDict d) with
  | VDict d' => d'
  | _ => []
  end.

End ParamDict.

(** ** The host: operating system, clock and path functions *)

(** What the code reads from its host.  [expand_path] is
    [modelicares.util.expand_path], which is not among the sources; the
    other functions are those of [os] and [os.path].
    [dirname_None_TypeError] tells which error [os.path.dirname(None)]
    raises: a [TypeError] (Python 3, and [ntpath] under Python 2) or an
    [AttributeError] ([posixpath] under Python 2).  [object_attrs] are
    the attribute names that every instance of [object] resolves
    without the class's help ([__class__], [__dict__], ...).  Opening
    and writing files never fails on the host. *)
Class Env : Type := {
  os_name : string;
  getcwd : string;
  today_isoformat : string;
  expand_path : string -> string;
  path_dirname : string -> string;
  path_basename : string -> string;
  path_normpath : string -> string;
  path_join : string -> string -> string;
  dirname_None_TypeError : bool;
  object_attrs : list string;
}.

(** [os.path.sep]: [os.path] is [ntpath] exactly when [os.name] is
    ['nt']. *)
Definition path_sep `{Env} : string :=
  if String.eqb os_name "nt" then Str.backslash else "/".

(** ** Effects *)

Definition handle := nat.
Definition loc := nat.

Inductive event : Type :=
| EOpen (h : handle) (path : string)
| EWrite (h : handle) (text : string)
| EClose (h : handle)
| EPrint (text : string).

Record world : Type := World {
  trace : list event;
  heap : gmap loc (list string);
}.

(** The exceptions.  [Untyped] is not one of Python's: it flags a
    store that would give an internal field a value outside its type
    in this embedding. *)
Inductive exn : Type :=
| KeyError (key : string)
| ValueError (msg : string)
| TypeError
| AttributeError
| NotImplementedError (msg : string)
| Untyped (attr : string).

Inductive result (A : Type) : Type :=
| Ok (a : A)
| Raise (e : exn).
Arguments Ok {A} a.
Arguments Raise {A} e.

(** A computation over a state [S]: it ends normally with a value or
    raises, and in both cases leaves a state behind. *)
Definition M (S A : Type) : Type := S -> result A * S.

Definition ret {S A} (a : A) : M S A := fun s => (Ok a, s).

Definition bind {S A B} (m : M S A) (k : A -> M S B) : M S B :=
  fun s => match m s with
           | (Ok a, s') => k a s'
           | (Raise e, s') => (Raise e, s')
           end.

Definition raise {S A} (e : exn) : M S A := fun s => (Raise e, s).

#[global] Instance M_ret {S} : MRet (M S) := fun _ a => ret a.
#[global] Instance M_bind {S} : MBind (M S) := fun _ _ k m => bind m k.

(** [for x in xs: body(x)] *)
Fixpoint for_each {S A} (xs : list A) (body : A -> M S unit) : M S unit :=
  match xs with
  | [] => ret tt
  | x :: r => bind (body x) (fun _ => for_each r body)
  end.

Module IO.

Definition emit (e : event) : M world unit :=
  fun w => (Ok tt, World (trace w ++ [e])%list (heap w)).

Definition is_open_event (e : event) : bool :=
  match e with EOpen _ _ => true | _ => false end.

(** Handles are numbered in the order of the [open] calls. *)
Definition fresh (t : list event) : handle :=
  length (filter (fun e => is_open_event e = true) t).

Definition closed (h : handle) (t : list event) : bool :=
  existsb (fun e => match e with EClose h' => Nat.eqb h h' | _ => false end) t.

(** The texts written through [h], in order. *)
Definition written (h : handle) (t : list event) : list string :=
  omap (fun e => match e with
                 | EWrite h' s => if Nat.eqb h h' then Some s else None
                 | _ => None
                 end) t.

(** [open(path, 'w')], which is taken to succeed.  What the path held
    before is not kept anywhere: [written] is what went through one
    handle, and [EOpen] records that the path was opened, and so
    emptied. *)
Definition open (path : string) : M world handle :=
  fun w => let h := fresh (trace w) in
           (Ok h, World (trace w ++ [EOpen h path])%list (heap w)).

(** [f.write(text)]: a closed file refuses the write. *)
Definition write (h : handle) (text : string) : M world unit :=
  fun w => if closed h (trace w)
           then (Raise (ValueError "I/O operation on closed file"), w)
           else emit (EWrite h text) w.

(** [f.close()] *)
Definition close (h : handle) : M world unit := emit (EClose h).

(** [print(text)] *)
Definition print (text : string) : M world unit := emit (EPrint text).

(** The list object at [l]. *)
Definition deref (l : loc) : M world (list string) :=
  fun w => (Ok (default [] (heap w !! l)), w).

(** [xs[i] = x] on the list object at [l]. *)
Definition setitem (l : loc) (i : nat) (x : string) : M world unit :=
  fun w =>
    (Ok tt,
     World (trace w) (<[l := <[i := x]> (default [] (heap w !! l))]> (heap w))).

End IO.

(** ** The result-file list *)

(** [exe = '.exe' if os.name == 'nt' else ''] *)
Definition exe `{Env} : string :=
  if String.eqb os_name "nt" then ".exe" else EmptyString.

(** [for i, result in enumerate(results):
       results[i] = result.replace('%x', exe)]
    on the list object itself: each step reads the list as it is then
    and stores into it. *)
Definition substitute_exe `{Env} (results : loc) : M world unit :=
  fun w =>
    for_each (seq 0 (length (default [] (heap w !! results))))
      (fun i =>
         bind (IO.deref results) (fun cur =>
         match cur !! i with
         | Some result => IO.setitem results i (Str.replace "%x" exe result)
         | None => ret tt
         end)) w.

(** ** The script writer *)

(** What an attribute read can give: a data value, a list object, a
    file object, a method of the class, or an attribute that [object]
    provides. *)
Inductive pyobj : Type :=
| PData (v : value)
| PList (l : loc)
| PFile (h : handle)
| PMethod (name : string)
| PBuiltin (name : string).

Module dymola_script.

(** The instance: its six internal fields. *)
Record t : Type := Self {
  _results : loc;
  _command : string;
  _options : dict;
  _mos : handle;
  _run_log : handle;
  n_runs : Z;
}.

Definition set_options (d : dict) (self : t) : t :=
  Self (_results self) (_command self) d (_mos self) (_run_log self) (n_runs self).

Definition set_n_runs (n : Z) (self : t) : t :=
  Self (_results self) (_command self) (_options self) (_mos self) (_run_log self) n.

(** A method runs on the instance and the world. *)
Definition Meth (A : Type) : Type := M (t * world) A.

Definition get_self : Meth t := fun st => (Ok (fst st), st).

Definition put_self (self : t) : Meth unit := fun st => (Ok tt, (self, snd st)).

Definition io {A} (m : M world A) : Meth A :=
  fun st => match m (snd st) with (r, w') => (r, (fst st, w')) end.

(** The defaults of [__init__].  The default of [results] is one list
    object, made when the class is defined. *)
Definition default_fname : string := "run_sims.mos".
Definition default_command : string := "simulateModel".
Definition default_results : loc := 0%nat.
Definition default_results_value : list string :=
  ["dsin.txt"; "dslog.txt"; "dsres.mat"; "dymolalg.txt"; "dymosim%x"].

Definition log_header : string :=
  Str.cat ["Run #"; Str.tab; "Command"; Str.tab; "Options"; Str.tab;
           "Model & parameters"; Str.nl].

Definition write_package `{Env} (mos : handle) (working_dir package : string)
  : M world unit :=
  if Str.endswith package ".mos" then
    IO.write mos (Str.cat ["cd("; Str.quoted (path_dirname package); ");"; Str.nl]);;
    IO.write mos (Str.cat ["RunScript("; Str.quoted (path_basename package); ");"; Str.nl])
  else
    (if Str.endswith package ".mo" then
       IO.write mos (Str.cat ["openModel("; Str.quoted package; ");"; Str.nl])
     else
       IO.write mos (Str.cat ["openModel(";
                              Str.quoted (path_join package "package.mo");
                              ");"; Str.nl]));;
    IO.write mos (Str.cat ["cd("; Str.quoted working_dir; ");"; Str.nl]).

Definition __init__ `{Env} (fname command : string) (working_dir : option string)
    (results : loc) (packages : list string) (options : dict) : M world t :=
  let fname := expand_path fname in
  let working_dir :=
    match working_dir with
    | None => getcwd
    | Some d => expand_path d
    end in
  let results_dir := path_dirname fname in
  substitute_exe results;;
  IO.print "Starting to write the Dymola script...";;
  mos ← IO.open fname;
  IO.write mos (Str.cat ["// Dymola script written by ModelicaRes ";
                         today_isoformat; Str.nl]);;
  IO.write mos (Str.cat ["import Modelica.Utilities.Files.copy;"; Str.nl]);;
  IO.write mos (Str.cat ["import Modelica.Utilities.Files.createDirectory;"; Str.nl]);;
  IO.write mos (Str.cat ["Advanced.TranslationInCommandLog = true ";
                         Str.quoted "Also include translation log in command log";
                         ";"; Str.nl]);;
  IO.write mos (Str.cat ["cd("; Str.quoted working_dir; ");"; Str.nl]);;
  for_each packages (write_package mos working_dir);;
  IO.write mos (Str.cat ["destination = ";
                         Str.quoted (path_normpath results_dir +:+ path_sep);
                         ";"; Str.nl; Str.nl]);;
  run_log ← IO.open (path_join results_dir "runs.tsv");
  IO.write run_log log_header;;
  mret (Self results command options mos run_log 0).

(** [self._options[attr]] *)
Definition __getattr__ (attr : string) : Meth value :=
  self ← get_self;
  match Dict.get (_options self) attr with
  | Some v => mret v
  | None => raise (KeyError attr)
  end.

Definition known : list string :=
  ["_command"; "_run_log"; "_mos"; "_options"; "_results"; "n_runs"].

Definition is_known (attr : string) : bool :=
  existsb (String.eqb attr) known.

(** [object.__setattr__(self, attr, value)] where the value has the
    type of the field.  Another value would leave the typed instance;
    such a store is flagged and no claim below is about it. *)
Definition object_setattr (attr : string) (x : pyobj) : Meth unit :=
  self ← get_self;
  match x with
  | PData (VStr s) =>
      if String.eqb attr "_command"
      then put_self (Self (_results self) s (_options self) (_mos self)
                          (_run_log self) (n_runs self))
      else raise (Untyped attr)
  | PData (VDict d) =>
      if String.eqb attr "_options" then put_self (set_options d self)
      else raise (Untyped attr)
  | PData (VInt n) =>
      if String.eqb attr "n_runs" then put_self (set_n_runs n self)
      else raise (Untyped attr)
  | PList l =>
      if String.eqb attr "_results"
      then put_self (Self l (_command self) (_options self) (_mos self)
                          (_run_log self) (n_runs self))
      else raise (Untyped attr)
  | PFile h =>
      if String.eqb attr "_mos"
      then put_self (Self (_results self) (_command self) (_options self) h
                          (_run_log self) (n_runs self))
      else if String.eqb attr "_run_log"
      then put_self (Self (_results self) (_command self) (_options self)
                          (_mos self) h (n_runs self))
      else raise (Untyped attr)
  | _ => raise (Untyped attr)
  end.

Definition __setattr__ (attr : string) (x : pyobj) : Meth unit :=
  if is_known attr then object_setattr attr x
  else
    self ← get_self;
    match x with
    | PData v => put_self (set_options (Dict.set (_options self) attr v) self)
    | _ => raise (Untyped attr)
    end.

Definition __enter__ : Meth t := get_self.

(** The return value [None] does not suppress the exception that
    [exc_details] describes. *)
Definition __exit__ (exc_details : option exn) : Meth unit :=
  self ← get_self;
  io (IO.write (_mos self) (Str.cat ["exit();"; Str.nl]));;
  io (IO.close (_mos self));;
  io (IO.close (_run_log self));;
  io (IO.print "Finished writing the Dymola script.").

(** ['"%s%s"' % (model, ParamDict(params)) if model else None]:
    [None] and the empty string are false. *)
Definition problem_of (model : option string) (params : dict) : option string :=
  match model with
  | Some (String c m) => Some (Str.quoted (String c m +:+ ParamDict.str params))
  | _ => None
  end.

Definition value_of (problem : option string) : value :=
  match problem with
  | Some p => VStr p
  | None => VNone
  end.

(** ['%s%s' % (command, ParamDict(options, problem=problem))] *)
Definition call_of (command : string) (options : dict) (problem : option string)
  : string :=
  command +:+ ParamDict.str (Dict.set options "problem" (value_of problem)).

Definition log_line (n : Z) (command : string) (options : dict)
    (problem : option string) : string :=
  Str.join Str.tab
    [Str.of_int n;
     command;
     Str.strip_ends (ParamDict.str options);
     match problem with
     | Some p => Str.strip_ends p
     | None => EmptyString
     end] +:+ Str.nl.

Definition copy_line (result : string) : string :=
  Str.cat ["    copy("; Str.quoted result; ", dest + "; Str.quoted result;
           ", true);"; Str.nl].

Definition dest_line `{Env} (n : Z) : string :=
  Str.cat ["    dest = destination + "; Str.quoted (Str.of_int n +:+ path_sep);
           ";"; Str.nl].

Definition run `{Env} (model : option string) (params : dict) : Meth unit :=
  self ← get_self;
  __setattr__ "n_runs" (PData (VInt (n_runs self + 1)));;
  self ← get_self;
  let n_runs := n_runs self in
  let mos := _mos self in
  let command := _command self in
  let options := _options self in
  io (IO.write mos (Str.cat ["// Run "; Str.of_int n_runs; Str.nl]));;
  let problem := problem_of model params in
  let call := call_of command options problem in
  io (IO.write mos (Str.cat ["ok = "; call; ";"; Str.nl]));;
  io (IO.write mos (Str.cat ["if ok then"; Str.nl]));;
  io (IO.write mos (Str.cat ["    savelog();"; Str.nl]));;
  io (IO.write mos (dest_line n_runs));;
  io (IO.write mos (Str.cat ["    createDirectory(dest);"; Str.nl]));;
  results ← io (IO.deref (_results self));
  for_each results (fun result => io (IO.write mos (copy_line result)));;
  io (IO.write mos (Str.cat ["end if;"; Str.nl]));;
  io (IO.write mos (Str.cat ["clearlog();"; Str.nl; Str.nl]));;
  io (IO.write (_run_log self) (log_line n_runs command options problem));;
  io (IO.print (Str.cat ["Run "; Str.of_int n_runs; ":  "; call])).

(** *** Reading an attribute

    [self.attr] looks in the instance, then in the class and in
    [object]; [__getattr__] is called only when all of these fail. *)

Definition instance_dict (self : t) : list (string * pyobj) :=
  [("_results", PList (_results self));
   ("_command", PData (VStr (_command self)));
   ("_options", PData (VDict (_options self)));
   ("_mos", PFile (_mos self));
   ("_run_log", PFile (_run_log self));
   ("n_runs", PData (VInt (n_runs self)))].

(** The names that the class body binds. *)
Definition class_attrs : list string :=
  ["__doc__"; "__init__"; "__getattr__"; "__setattr__"; "__enter__";
   "__exit__"; "run"].

Fixpoint assoc {A} (k : string) (l : list (string * A)) : option A :=
  match l with
  | [] => None
  | (k', a) :: r => if String.eqb k' k then Some a else assoc k r
  end.

Definition getattr `{Env} (attr : string) : Meth pyobj :=
  self ← get_self;
  match assoc attr (instance_dict self) with
  | Some x => mret x
  | None =>
      if existsb (String.eqb attr) class_attrs then mret (PMethod attr)
      else if existsb (String.eqb attr) object_attrs then mret (PBuiltin attr)
      else v ← __getattr__ attr; mret (PData v)
  end.

(** *** The [with] statement

    The statements of a [with] body: the three uses of the writer,
    and [Raising e] for any other statement that raises [e] and
    leaves the writer alone. *)
Inductive stmt : Type :=
| Run (model : option string) (params : dict)
| Assign (attr : string) (x : pyobj)
| Read (attr : string)
| Raising (e : exn).

Definition exec `{Env} (s : stmt) : Meth unit :=
  match s with
  | Run model params => run model params
  | Assign attr x => __setattr__ attr x
  | Read attr => _ ← getattr attr; mret tt
  | Raising e => raise e
  end.

Definition block `{Env} (body : list stmt) : Meth unit := for_each body exec.

(** [with ctor as simulator: body]: the body runs on what
    [__enter__] returns; [__exit__] is called when the body ends and
    when it raises; an exception of the body goes on to the caller
    afterwards. *)
Definition with_ (ctor : M world t) (body : Meth unit) : M world unit :=
  fun w =>
    match ctor w with
    | (Raise e, w1) => (Raise e, w1)
    | (Ok self, w1) =>
        match __enter__ (self, w1) with
        | (Raise e, st1) => (Raise e, snd st1)
        | (Ok simulator, st1) =>
            match body (simulator, snd st1) with
            | (Ok _, st2) =>
                match __exit__ None st2 with
                | (Ok _, st3) => (Ok tt, snd st3)
                | (Raise e', st3) => (Raise e', snd st3)
                end
            | (Raise e, st2) =>
                match __exit__ (Some e) st2 with
                | (Ok _, st3) => (Raise e, snd st3)
                | (Raise e', st3) => (Raise e', snd st3)
                end
            end
        end
    end.

(** A statement that leaves the internal fields alone. *)
Definition plain (s : stmt) : bool :=
  match s with
  | Run _ _ => true
  | Assign attr (PData _) => negb (is_known attr)
  | Assign _ _ => false
  | Read _ => true
  | Raising _ => true
  end.

(** A plain statement that cannot raise: a run or the assignment of
    an option. *)
Definition quiet (s : stmt) : bool :=
  match s with
  | Run _ _ => true
  | Assign attr (PData _) => negb (is_known attr)
  | _ => false
  end.

End dymola_script.

(** ** The simulators that are not implemented *)

Module dymosim.

Record t : Type := Self {
  _results : loc;
  _working_dir : string;
  _results_dir : string;
}.

Definition default_results : loc := 1%nat.
Definition default_results_value : list string :=
  ["dsin.txt"; "dslog.txt"; "dsres.mat"; "dymosim%x"; "dymolalg.txt"].

(** [os.path.dirname(p)], where [p] may be [None]. *)
Definition dirname_opt `{Env} (p : option string) : M world string :=
  match p with
  | Some s => mret (path_dirname s)
  | None => raise (if dirname_None_TypeError then TypeError else AttributeError)
  end.

Definition __init__ `{Env} (working_dir results_dir : option string)
    (results : loc) (options : dict) : M world t :=
  let working_dir :=
    match working_dir with
    | None => getcwd
    | Some d => expand_path d
    end in
  results_dir ← dirname_opt results_dir;
  substitute_exe results;;
  let self := Self results working_dir results_dir in
  raise (NotImplementedError
           "The dymosim context manager has not yet been implemented.").

End dymosim.

Module fmi.

Definition __init__ (args : list pyobj) (kwargs : list (string * pyobj))
  : M world unit :=
  raise (NotImplementedError
           "The FMI context manager hasn't been implemented yet.").

End fmi.

(** What the module holds once it is loaded: the two default lists. *)
Definition loaded : world :=
  World [] (<[dymola_script.default_results := dymola_script.default_results_value]>
            (<[dymosim.default_results := dymosim.default_results_value]> ∅)).

(** ** The experiment generator *)

Module Exps.

Record Experiment : Type := mkExperiment {
  model : string;
  params : list (string * value);
  args : list (string * value);
}.

(** What a key of the parameter mapping or of the option mapping
    holds: one scalar or a sequence of candidates. *)
Inductive candidates : Type :=
| Scalar (v : value)
| Listed (vs : list value).

Definition values_of (c : candidates) : list value :=
  match c with
  | Scalar v => [v]
  | Listed vs => vs
  end.

Definition space : Type := list (string * candidates).

(** Every choice of one candidate per key; the first key of the
    mapping is the outermost loop. *)
Fixpoint product (sp : space) : list (list (string * value)) :=
  match sp with
  | [] => [[]]
  | (k, c) :: r =>
      flat_map (fun v => map (cons (k, v)) (product r)) (values_of c)
  end.

Definition has_empty (sp : space) : bool :=
  existsb (fun kc => match values_of (snd kc) with [] => true | _ => false end) sp.

(** Modelled from the spec: [gen_experiments], defined in
    [modelicares/exps/__init__.py], which is not among the sources
    (only its call in [examples/ChuaCircuit/sim_and_plot.py] is).
    The spec: given model names and a mapping from parameter name to
    an ordered sequence of candidate values (or a single scalar,
    treated as a one-element sequence), produce the Experiment values
    covering every combination, paired with every listed model and
    every combination of scalar or listed run options; no
    de-duplication; the order of the outer product matches the
    iteration order of the input mapping; it fails if a parameter
    value sequence is empty.  [None] is that failure. *)
Definition gen_experiments (models : list string) (params args : space)
  : option (list Experiment) :=
  if has_empty params then None
  else Some (flat_map (fun m =>
               flat_map (fun p =>
                 map (fun a => mkExperiment m p a) (product args))
                 (product params))
               models).

(** The number of candidates of each key, multiplied. *)
Definition combinations (sp : space) : nat :=
  foldr (fun kc n => (length (values_of (snd kc)) * n)%nat) 1%nat sp.

End Exps.

(** ** Two hosts to evaluate on *)

Module Host.

(** The text up to the last [sep] of [s], without that [sep]; the
    text after it. *)
Fixpoint split_last (sep : ascii) (s : string) : option (string * string) :=
  match s with
  | EmptyString => None
  | String c r =>
      match split_last sep r with
      | Some (d, b) => Some (String c d, b)
      | None => if Ascii.eqb c sep then Some (EmptyString, r) else None
      end
  end.

Definition dirname (sep : ascii) (p : string) : string :=
  match split_last sep p with
  | Some (EmptyString, _) => Str.of_char sep
  | Some (d, _) => d
  | None => EmptyString
  end.

Definition basename (sep : ascii) (p : string) : string :=
  match split_last sep p with
  | Some (_, b) => b
  | None => p
  end.

Definition join (sep : ascii) (a b : string) : string :=
  if String.prefix (Str.of_char sep) b then b
  else if String.eqb a EmptyString then b
  else if Str.endswith a (Str.of_char sep) then a +:+ b
  else a +:+ Str.of_char sep +:+ b.

Definition absolute (sep : ascii) (cwd p : string) : string :=
  if String.prefix (Str.of_char sep) p then p else join sep cwd p.

(** A POSIX host.  Its path functions are those of [posixpath] on
    paths that are already normal; paths are made absolute from the
    working directory. *)
Definition posix : Env := {|
  os_name := "posix";
  getcwd := "/home/user";
  today_isoformat := "2012-10-11";
  expand_path := absolute "/" "/home/user";
  path_dirname := dirname "/";
  path_basename := basename "/";
  path_normpath := fun p => p;
  path_join := join "/";
  dirname_None_TypeError := true;
  object_attrs := ["__class__"; "__dict__"; "__module__"; "__repr__"; "__str__"];
|}.

(** A Windows host, on paths written with backslashes and without a
    drive. *)
Definition nt : Env := {|
  os_name := "nt";
  getcwd := Str.cat [Str.backslash; "Users"; Str.backslash; "user"];
  today_isoformat := "2012-10-11";
  expand_path :=
    absolute "092" (Str.cat [Str.backslash; "Users"; Str.backslash; "user"]);
  path_dirname := dirname "092";
  path_basename := basename "092";
  path_normpath := fun p => p;
  path_join := join "092";
  dirname_None_TypeError := true;
  object_attrs := ["__class__"; "__dict__"; "__module__"; "__repr__"; "__str__"];
|}.

End Host.

(** The two runs of the Chua circuit example, as a [with] body. *)
Definition chua : string := "Modelica.Electrical.Analog.Examples.ChuaCircuit".

Definition two_runs : list dymola_script.stmt :=
  [dymola_script.Run (Some "ModelX") [("L.L", VInt 21)];
   dymola_script.Run (Some "ModelX") [("L.L", VInt 15)]].

(** [with dymola_script(...) as simulator: body], where only keyword
    options are given and the other arguments have their defaults. *)
Definition session `{Env} (options : dict) (body : list dymola_script.stmt)
  : M world unit :=
  dymola_script.with_
    (dymola_script.__init__ dymola_script.default_fname
       dymola_script.default_command None dymola_script.default_results []
       options)
    (dymola_script.block body).

(** The writer and the world right after
    [dymola_script()] in a freshly loaded module. *)
Definition fresh_writer : dymola_script.t :=
  dymola_script.Self dymola_script.default_results dymola_script.default_command
    [] 0%nat 1%nat 0.

Definition started `{Env} : dymola_script.t * world :=
  match dymola_script.__init__ dymola_script.default_fname
          dymola_script.default_command None dymola_script.default_results [] []
          loaded with
  | (_, w) => (fresh_writer, w)
  end.

(** ** What the writer's files are expected to hold *)

Module Script.

Import dymola_script.

(** No event of the trace is on a handle that [open] has still to
    give out. *)
Definition wf (t : list event) : Prop :=
  ∀ h, (IO.fresh t ≤ h)%nat → IO.closed h t = false ∧ IO.written h t = [].

(** The lines of the header up to the packages. *)
Definition header_lines `{Env} (working_dir : string) : list string :=
  [Str.cat ["// Dymola script written by ModelicaRes "; today_isoformat; Str.nl];
   Str.cat ["import Modelica.Utilities.Files.copy;"; Str.nl];
   Str.cat ["import Modelica.Utilities.Files.createDirectory;"; Str.nl];
   Str.cat ["Advanced.TranslationInCommandLog = true ";
            Str.quoted "Also include translation log in command log";
            ";"; Str.nl];
   Str.cat ["cd("; Str.quoted working_dir; ");"; Str.nl]].

Definition package_lines `{Env} (working_dir package : string) : list string :=
  if Str.endswith package ".mos" then
    [Str.cat ["cd("; Str.quoted (path_dirname package); ");"; Str.nl];
     Str.cat ["RunScript("; Str.quoted (path_basename package); ");"; Str.nl]]
  else
    [Str.cat ["openModel(";
              Str.quoted (if Str.endswith package ".mo" then package
                          else path_join package "package.mo");
              ");"; Str.nl];
     Str.cat ["cd("; Str.quoted working_dir; ");"; Str.nl]].

Definition destination_line `{Env} (results_dir : string) : string :=
  Str.cat ["destination = "; Str.quoted (path_normpath results_dir +:+ path_sep);
           ";"; Str.nl; Str.nl].

Definition exit_line : string := Str.cat ["exit();"; Str.nl].

(** The lines of run [n]. *)
Definition run_block `{Env} (n : Z) (command : string) (options : dict)
    (problem : option string) (results : list string) : list string :=
  ([Str.cat ["// Run "; Str.of_int n; Str.nl];
    Str.cat ["ok = "; call_of command options problem; ";"; Str.nl];
    Str.cat ["if ok then"; Str.nl];
    Str.cat ["    savelog();"; Str.nl];
    Str.cat ["    dest = destination + "; Str.quoted (Str.of_int n +:+ path_sep);
             ";"; Str.nl];
    Str.cat ["    createDirectory(dest);"; Str.nl]]
   ++ map copy_line results
   ++ [Str.cat ["end if;"; Str.nl];
       Str.cat ["clearlog();"; Str.nl; Str.nl]])%list.

(** The events of run [n], in the order of the calls. *)
Definition run_events `{Env} (self : t) (n : Z) (problem : option string)
    (results : list string) : list event :=
  (map (EWrite (_mos self))
       (run_block n (_command self) (_options self) problem results)
   ++ [EWrite (_run_log self) (log_line n (_command self) (_options self) problem);
       EPrint (Str.cat ["Run "; Str.of_int n; ":  ";
                        call_of (_command self) (_options self) problem])])%list.

(** The events of [__init__] when [open] gives out [k] next. *)
Definition init_events `{Env} (k : handle) (fname : string)
    (working_dir : option string) (packages : list string) : list event :=
  let working_dir :=
    match working_dir with
    | None => getcwd
    | Some d => expand_path d
    end in
  let results_dir := path_dirname (expand_path fname) in
  ([EPrint "Starting to write the Dymola script...";
    EOpen k (expand_path fname)]
   ++ map (EWrite k)
        (header_lines working_dir
         ++ flat_map (package_lines working_dir) packages
         ++ [destination_line results_dir])
   ++ [EOpen (S k) (path_join results_dir "runs.tsv");
       EWrite (S k) log_header])%list.

(** The list that [substitute_exe] leaves at [results]. *)
Definition substituted `{Env} (results : loc) (hp : gmap loc (list string))
  : gmap loc (list string) :=
  match hp !! results with
  | Some rs => <[results := map (Str.replace "%x" exe) rs]> hp
  | None => hp
  end.

(** The instance after the quiet statements of a body. *)
Fixpoint after (self : t) (body : list stmt) : t :=
  match body with
  | [] => self
  | Run _ _ :: r => after (set_n_runs (n_runs self + 1) self) r
  | Assign attr (PData v) :: r =>
      after (if is_known attr then self
             else set_options (Dict.set (_options self) attr v) self) r
  | _ :: r => after self r
  end.

(** The events of the runs of a body, when the result list holds
    [results]. *)
Fixpoint body_events `{Env} (self : t) (results : list string)
    (body : list stmt) : list event :=
  match body with
  | [] => []
  | Run model params :: r =>
      (run_events (set_n_runs (n_runs self + 1) self) (n_runs self + 1)
         (problem_of model params) results
       ++ body_events (set_n_runs (n_runs self + 1) self) results r)%list
  | Assign attr (PData v) :: r =>
      body_events (if is_known attr then self
                   else set_options (Dict.set (_options self) attr v) self)
        results r
  | _ :: r => body_events self results r
  end.

(** The runs of a body, each with the option set that it sees. *)
Fixpoint runs_seen (body : list stmt) (options : dict)
  : list (dict * option string) :=
  match body with
  | [] => []
  | Run model params :: r => (options, problem_of model params) :: runs_seen r options
  | Assign attr (PData v) :: r =>
      runs_seen r (if is_known attr then options else Dict.set options attr v)
  | _ :: r => runs_seen r options
  end.

(** The number of [run] calls of a body. *)
Fixpoint count_runs (body : list stmt) : nat :=
  match body with
  | [] => O
  | Run _ _ :: r => S (count_runs r)
  | _ :: r => count_runs r
  end.

(** The fields that no plain statement touches. *)
Definition same_files (self self' : t) : Prop :=
  _results self' = _results self ∧ _command self' = _command self
  ∧ _mos self' = _mos self ∧ _run_log self' = _run_log self.

Definition is_run (s : stmt) : bool :=
  match s with
  | Run _ _ => true
  | _ => false
  end.

(** The problem text of a [run] statement. *)
Definition problem (s : stmt) : option string :=
  match s with
  | Run model params => problem_of model params
  | _ => None
  end.

(** The events with which [__exit__] ends a session. *)
Definition exit_events (self : t) : list event :=
  [EWrite (_mos self) exit_line;
   EClose (_mos self);
   EClose (_run_log self);
   EPrint "Finished writing the Dymola script."].

End Script.

(** ** Choices of the generator *)

(** [d] picks, key by key and in order, one candidate of [sp]. *)
Definition chosen (d : list (string * value)) (sp : Exps.space) : Prop :=
  Forall2 (fun kv kc => fst kv = fst kc ∧ snd kv ∈ Exps.values_of (snd kc)) d sp.

(** ** Further views of the trace and of texts *)

(** The texts printed, in order. *)
Definition printed (t : list event) : list string :=
  omap (fun e => match e with EPrint text => Some text | _ => None end) t.

(** An event that the calls of a writer add: a write on one of its
    two files, or a print. *)
Definition own_event (self : dymola_script.t) (e : event) : Prop :=
  match e with
  | EWrite h _ => h = dymola_script._mos self ∨ h = dymola_script._run_log self
  | EPrint _ => True
  | _ => False
  end.

(** [pat in s] *)
Fixpoint contains (pat s : string) : bool :=
  String.prefix pat s
  || match s with
     | EmptyString => false
     | String _ r => contains pat r
     end.

(** The [open] calls, in order: the handle given out and the path.
    Every [open] of the code is for writing, so each of these paths is
    emptied when it is opened. *)
Definition opened (t : list event) : list (handle * string) :=
  omap (fun e => match e with EOpen h path => Some (h, path) | _ => None end) t.

(** The text of [line] up to its first tab. *)
Fixpoint first_field (line : string) : string :=
  match line with
  | EmptyString => EmptyString
  | String c r => if Ascii.eqb c "009" then EmptyString else String c (first_field r)
  end.

(** The run number that a line of the log shows: its first field,
    read as a decimal number. *)
Definition run_number (line : string) : option Z :=
  option_map Z.of_int (NilZero.int_of_string (first_field line)).

(** Two option sets that differ at most in the value of their first
    entry named [problem]. *)
Inductive alike : dict → dict → Prop :=
| alike_nil : alike [] []
| alike_problem v v' r : alike (("problem", v) :: r) (("problem", v') :: r)
| alike_cons k v r r' :
    k ≠ "problem" → alike r r' → alike ((k, v) :: r) ((k, v) :: r').

(** ** The example script *)

(** The parts of [examples/ChuaCircuit/sim_and_plot.py] that do not
    depend on [write_script] and on the plotting library: the short
    names of the models, and the block that drives Dymola. *)
Module sim_and_plot.

(** [s.rfind(c)] for a single character [c]: the highest index at
    which [c] stands in [s], or -1. *)
Fixpoint rfind (c : ascii) (s : string) : Z :=
  match s with
  | EmptyString => -1
  | String a r =>
      let i := rfind c r in
      if 0 <=? i then i + 1
      else if Ascii.eqb a c then 0
      else -1
  end.

Fixpoint drop_chars (n : nat) (s : string) : string :=
  match n, s with
  | S k, String _ r => drop_chars k r
  | _, _ => s
  end.

(** [s[i:]]; a negative [i] counts from the end. *)
Definition slice_from (i : Z) (s : string) : string :=
  let start := if i <? 0 then Z.max 0 (Z.of_nat (String.length s) + i) else i in
  drop_chars (Z.to_nat start) s.

(** [model[model.rfind('.')+1:]] *)
Definition short_name (model : string) : string :=
  slice_from (rfind "." model + 1) model.

(** [[experiment.model[experiment.model.rfind('.')+1:]
      for experiment in EXPERIMENTS]] *)
Definition MODELS (experiments : list Exps.Experiment) : list string :=
  map (fun experiment => short_name (Exps.model experiment)) experiments.

(** How a call into the Dymola interface ends: it returns, it raises
    a [DymolaException], or it raises something else. *)
Inductive outcome (A : Type) : Type :=
| Returns (a : A)
| RaisesDymola (msg : string)
| RaisesOther (name : string).
Arguments Returns {A} a.
Arguments RaisesDymola {A} msg.
Arguments RaisesOther {A} name.

(** Whether a call ended with an exception that is not a
    [DymolaException]. *)
Definition is_other {A} (o : outcome A) : bool :=
  match o with
  | RaisesOther _ => true
  | _ => false
  end.

(** The interface library, which is not part of the repository: what
    each of its calls does is given from outside.  [execute n cmd] is
    the [n]-th call of [ExecuteCommand], counted from 0.  [as_posix]
    is [Path(p).as_posix()]. *)
Class Dymola : Type := {
  DymolaInterface : outcome unit;
  ExecuteCommand : nat -> string -> outcome bool;
  getLastErrorLog : outcome string;
  close : outcome unit;
  as_posix : string -> string;
}.

(** What the block does, in order. *)
Inductive action : Type :=
| Start
| Execute (cmd : string)
| AskLog
| Close
| Print (text : string).

(** The variable [dymola] ([false] for [None]) and the actions so
    far. *)
Record state : Type := State {
  dymola : bool;
  actions : list action;
}.

Definition E (A : Type) : Type := state -> outcome A * state.

Definition pure {A} (a : A) : E A := fun st => (Returns a, st).

Definition then_ {A B} (m : E A) (k : A -> E B) : E B :=
  fun st =>
    match m st with
    | (Returns a, st') => k a st'
    | (RaisesDymola msg, st') => (RaisesDymola msg, st')
    | (RaisesOther name, st') => (RaisesOther name, st')
    end.

(** A call of the interface: it is recorded, then it ends as the
    library decides. *)
Definition call {A} (a : action) (o : outcome A) : E A :=
  fun st => (o, State (dymola st) (actions st ++ [a])%list).

Definition print (text : string) : E unit :=
  fun st => (Returns tt, State (dymola st) (actions st ++ [Print text])%list).

Definition assign_dymola (b : bool) : E unit :=
  fun st => (Returns tt, State b (actions st)).

(** [try: body except DymolaException as ex: handler(str(ex))] *)
Definition try_except (body : E unit) (handler : string -> E unit) : E unit :=
  fun st =>
    match body st with
    | (RaisesDymola msg, st') => handler msg st'
    | other => other
    end.

(** [str(b)] *)
Definition str_bool (b : bool) : string := if b then "True" else "False".

Definition get_last_log `{Dymola} : E unit :=
  then_ (call AskLog getLastErrorLog) (fun log => print log).

Definition set_work_directory `{Dymola} (WORKING_DIR : string) : string :=
  Str.cat ["Modelica.Utilities.System.setWorkDirectory("; Str.dquote;
           as_posix WORKING_DIR; Str.dquote; ")"].

Definition run_script `{Env} `{Dymola} (FNAME : string) : string :=
  Str.cat ["RunScript("; Str.dquote; as_posix (path_join getcwd FNAME);
           Str.dquote; ", true)"].

(** Lines 63 to 95: start Dymola, run the script, report, close. *)
Definition drive `{Env} `{Dymola} (FNAME WORKING_DIR : string) : E unit :=
  then_ (assign_dymola false) (fun _ =>
  then_
    (try_except
       (then_ (call Start DymolaInterface) (fun _ =>
        then_ (assign_dymola true) (fun _ =>
        then_ (call (Execute (set_work_directory WORKING_DIR))
                 (ExecuteCommand 0 (set_work_directory WORKING_DIR)))
          (fun result =>
        then_ (print "DEBUG1") (fun _ =>
        then_ (call (Execute (run_script FNAME))
                 (ExecuteCommand 1 (run_script FNAME)))
          (fun result =>
        then_ (print ("result code = " +:+ str_bool result)) (fun _ =>
        if negb result then
          then_ (print "Simulation failed. Below is the translation log.")
            (fun _ => get_last_log)
        else pure tt)))))))
       (fun ex => print ("Error: " +:+ ex)))
    (fun _ =>
  then_ (fun st => (Returns (dymola st), st)) (fun opened =>
  if opened then
    then_ (call Close close) (fun _ => assign_dymola false)
  else pure tt))).

End sim_and_plot.

(** An interface library whose constructor ends with [start], whose
    first command ends with [first] and whose later commands end with
    [second]; the error log is at hand and closing succeeds. *)
Definition engine (start : sim_and_plot.outcome unit)
    (first second : sim_and_plot.outcome bool) : sim_and_plot.Dymola :=
  {| sim_and_plot.DymolaInterface := start;
     sim_and_plot.ExecuteCommand :=
       fun n _ => match n with O => first | S _ => second end;
     sim_and_plot.getLastErrorLog := sim_and_plot.Returns "translation log";
     sim_and_plot.close := sim_and_plot.Returns tt;
     sim_and_plot.as_posix := fun p => p |}.

(** * Properties *)

Import dymola_script.

(** ** Views of the trace *)

Arguments IO.closed : simpl never.
Arguments IO.written : simpl never.
Arguments IO.fresh : simpl never.

Section Trace.
Implicit Types (h : handle) (t : list event).

Lemma closed_app h t1 t2 :
  IO.closed h (t1 ++ t2)%list = IO.closed h t1 || IO.closed h t2.
Proof. unfold IO.closed. apply existsb_app. Qed.

Lemma written_app h t1 t2 :
  IO.written h (t1 ++ t2)%list = (IO.written h t1 ++ IO.written h t2)%list.
Proof. unfold IO.written. apply omap_app. Qed.

Lemma fresh_app t1 t2 : IO.fresh (t1 ++ t2)%list = (IO.fresh t1 + IO.fresh t2)%nat.
Proof. unfold IO.fresh. by rewrite filter_app, length_app. Qed.

Lemma closed_writes h h' (l : list string) : IO.closed h (map (EWrite h') l) = false.
Proof. unfold IO.closed. induction l; cbn; auto. Qed.

Lemma written_writes h (l : list string) : IO.written h (map (EWrite h) l) = l.
Proof.
  unfold IO.written. induction l as [|x l IH]; [done|].
  cbn. rewrite Nat.eqb_refl. cbn. f_equal. exact IH.
Qed.

Lemma written_writes_ne h h' (l : list string) :
  h ≠ h' → IO.written h (map (EWrite h') l) = [].
Proof.
  intros Hne. unfold IO.written. induction l as [|x l IH]; [done|]. cbn.
  destruct (Nat.eqb_spec h h'); [done|]. exact IH.
Qed.

Lemma fresh_writes h (l : list string) : IO.fresh (map (EWrite h) l) = O.
Proof. unfold IO.fresh. induction l; cbn; auto. Qed.

Lemma closed_snoc_write h h' text t :
  IO.closed h (t ++ [EWrite h' text])%list = IO.closed h t.
Proof. rewrite closed_app. unfold IO.closed at 2. cbn. apply orb_false_r. Qed.

Lemma closed_snoc_print h text t :
  IO.closed h (t ++ [EPrint text])%list = IO.closed h t.
Proof. rewrite closed_app. unfold IO.closed at 2. cbn. apply orb_false_r. Qed.

Lemma closed_snoc_open h h' path t :
  IO.closed h (t ++ [EOpen h' path])%list = IO.closed h t.
Proof. rewrite closed_app. unfold IO.closed at 2. cbn. apply orb_false_r. Qed.

Lemma closed_app_writes h h' (l : list string) t :
  IO.closed h (t ++ map (EWrite h') l)%list = IO.closed h t.
Proof. rewrite closed_app, closed_writes. apply orb_false_r. Qed.
End Trace.

Ltac still_open :=
  cbn [trace];
  repeat first
    [ rewrite closed_snoc_write | rewrite closed_snoc_print
    | rewrite closed_snoc_open | rewrite closed_app_writes ];
  assumption.


Lemma io_write self w h text :
  IO.closed h (trace w) = false →
  io (IO.write h text) (self, w)
  = (Ok tt, (self, World (trace w ++ [EWrite h text])%list (heap w))).
Proof. intros Hc. unfold io, IO.write. cbn. by rewrite Hc. Qed.

Lemma io_deref self w l :
  io (IO.deref l) (self, w) = (Ok (default [] (heap w !! l)), (self, w)).
Proof. reflexivity. Qed.

Lemma io_print self w text :
  io (IO.print text) (self, w)
  = (Ok tt, (self, World (trace w ++ [EPrint text])%list (heap w))).
Proof. reflexivity. Qed.

Lemma io_close self w h :
  io (IO.close h) (self, w)
  = (Ok tt, (self, World (trace w ++ [EClose h])%list (heap w))).
Proof. reflexivity. Qed.

Lemma write_lines {A} (f : A → string) self h (xs : list A) w :
  IO.closed h (trace w) = false →
  for_each xs (fun x => io (IO.write h (f x))) (self, w)
  = (Ok tt, (self, World (trace w ++ map (EWrite h) (map f xs))%list (heap w))).
Proof.
  revert w. induction xs as [|x xs IH]; intros w Hc.
  - cbn. rewrite app_nil_r. by destruct w.
  - cbn [for_each]. unfold bind. rewrite io_write by done.
    rewrite IH.
    + cbn. by rewrite <- app_assoc.
    + cbn [trace]. rewrite closed_app, Hc. done.
Qed.

Lemma run_spec `{Env} self w model params :
  IO.closed (_mos self) (trace w) = false →
  IO.closed (_run_log self) (trace w) = false →
  run model params (self, w)
  = (Ok tt,
     (set_n_runs (n_runs self + 1) self,
      World (trace w ++ Script.run_events (set_n_runs (n_runs self + 1) self)
                          (n_runs self + 1) (problem_of model params)
                          (default [] (heap w !! _results self)))%list
            (heap w))).
Proof.
  intros Hm Hl. unfold run, __setattr__, object_setattr, mbind, M_bind, bind, get_self,
    put_self.
  cbn -[Str.cat Str.of_int Str.nl call_of log_line dest_line copy_line io].
  do 6 (rewrite io_write by still_open).
  rewrite io_deref. cbn [heap].
  rewrite (write_lines copy_line) by still_open.
  do 3 (rewrite io_write by still_open).
  rewrite io_print. cbn [trace heap].
  do 3 f_equal.
  unfold Script.run_events, Script.run_block, dest_line.
  cbn [_mos _run_log _command _options set_n_runs].
  rewrite !map_app. cbn [map]. rewrite <- !app_assoc. reflexivity.
Qed.

(** ** The constructor *)
Lemma world_eta w : World (trace w) (heap w) = w.
Proof. by destruct w. Qed.

Lemma write_ok h text w :
  IO.closed h (trace w) = false →
  IO.write h text w = (Ok tt, World (trace w ++ [EWrite h text])%list (heap w)).
Proof. intros Hc. unfold IO.write. by rewrite Hc. Qed.

Section Substitute.
Context `{Env}.
Local Abbreviation f := (Str.replace "%x" exe).

Lemma substitute_loop (rs : list string) results (n a : nat) w :
  (a + n = length rs)%nat →
  heap w !! results = Some (map f (take a rs) ++ drop a rs)%list →
  for_each (seq a n)
    (fun i =>
       bind (IO.deref results) (fun cur =>
       match cur !! i with
       | Some result => IO.setitem results i (f result)
       | None => ret tt
       end)) w
  = (Ok tt, World (trace w) (<[results := map f rs]> (heap w))).
Proof.
  revert a w. induction n as [|n IH]; intros a w Hlen Hheap.
  - cbn. rewrite Nat.add_0_r in Hlen. subst a.
    rewrite firstn_all, drop_all, app_nil_r in Hheap.
    rewrite insert_id by done. unfold ret. by rewrite world_eta.
  - cbn [seq for_each]. unfold bind at 1. unfold bind at 1.
    unfold IO.deref at 1. rewrite Hheap. cbn [default].
    assert (Ha : (a < length rs)%nat) by lia.
    destruct (lookup_lt_is_Some_2 rs a Ha) as [x Hx].
    assert (Hcur : (map f (take a rs) ++ drop a rs)%list !! a = Some x).
    { rewrite lookup_app_r; rewrite length_map, length_take; [|lia].
      replace (a - a `min` length rs)%nat with 0%nat by lia.
      rewrite lookup_drop. by rewrite Nat.add_0_r. }
    unfold id. rewrite Hcur. unfold IO.setitem at 1. cbn [trace heap].
    rewrite Hheap. cbn [default from_option]. unfold id.
    rewrite (IH (S a)); cbn [trace heap].
    + by rewrite insert_insert_eq.
    + lia.
    + rewrite lookup_insert_eq. f_equal.
      rewrite (take_S_r rs a x Hx), map_app. cbn [map].
      rewrite <- app_assoc. cbn [app].
      rewrite insert_app_r_alt; rewrite length_map, length_take; [|lia].
      replace (a - a `min` length rs)%nat with 0%nat by lia.
      f_equal. rewrite (drop_S rs x a Hx). reflexivity.
Qed.

Lemma substitute_exe_spec results w :
  substitute_exe results w
  = (Ok tt, World (trace w) (Script.substituted results (heap w))).
Proof.
  unfold substitute_exe, Script.substituted.
  destruct (heap w !! results) as [rs|] eqn:Hrs; cbn [default from_option];
    unfold id.
  - apply (substitute_loop rs); [lia|]. by rewrite take_0, drop_0.
  - cbn. by rewrite world_eta.
Qed.
End Substitute.

Section Fresh.
Lemma fresh_snoc_open t h path : IO.fresh (t ++ [EOpen h path])%list = S (IO.fresh t).
Proof.
  rewrite fresh_app.
  assert (IO.fresh [EOpen h path] = 1%nat) as -> by reflexivity. lia.
Qed.

Lemma fresh_snoc_print t text : IO.fresh (t ++ [EPrint text])%list = IO.fresh t.
Proof.
  rewrite fresh_app.
  assert (IO.fresh [EPrint text] = 0%nat) as -> by reflexivity. lia.
Qed.

Lemma fresh_snoc_write t h text : IO.fresh (t ++ [EWrite h text])%list = IO.fresh t.
Proof.
  rewrite fresh_app.
  assert (IO.fresh [EWrite h text] = 0%nat) as -> by reflexivity. lia.
Qed.

Lemma fresh_app_writes t h (l : list string) :
  IO.fresh (t ++ map (EWrite h) l)%list = IO.fresh t.
Proof. rewrite fresh_app, fresh_writes. lia. Qed.
End Fresh.

Section Init.
Context `{Env}.

Lemma write_all h (lines : list string) w :
  IO.closed h (trace w) = false →
  for_each lines (IO.write h) w
  = (Ok tt, World (trace w ++ map (EWrite h) lines)%list (heap w)).
Proof.
  revert w. induction lines as [|x l IH]; intros w Hc.
  - cbn. unfold ret. by rewrite app_nil_r, world_eta.
  - cbn [for_each]. unfold bind. rewrite write_ok by done.
    rewrite IH by still_open. cbn [trace heap map].
    by rewrite <- app_assoc.
Qed.

Lemma write_package_spec mos working_dir package w :
  IO.closed mos (trace w) = false →
  write_package mos working_dir package w
  = (Ok tt, World (trace w ++ map (EWrite mos)
                                (Script.package_lines working_dir package))%list
                  (heap w)).
Proof.
  intros Hc. unfold write_package, Script.package_lines, mbind, M_bind, bind.
  destruct (Str.endswith package ".mos").
  - do 2 (rewrite write_ok by still_open). cbn [trace heap map].
    by rewrite <- app_assoc.
  - destruct (Str.endswith package ".mo");
      do 2 (rewrite write_ok by still_open); cbn [trace heap map];
      by rewrite <- app_assoc.
Qed.

Lemma write_packages_spec mos working_dir packages w :
  IO.closed mos (trace w) = false →
  for_each packages (write_package mos working_dir) w
  = (Ok tt, World (trace w ++ map (EWrite mos)
                     (flat_map (Script.package_lines working_dir) packages))%list
                  (heap w)).
Proof.
  revert w. induction packages as [|p l IH]; intros w Hc.
  - cbn. unfold ret. by rewrite app_nil_r, world_eta.
  - cbn [for_each flat_map]. unfold bind. rewrite write_package_spec by done.
    rewrite IH by still_open. cbn [trace heap].
    by rewrite map_app, <- app_assoc.
Qed.

Lemma init_spec fname command working_dir results packages options w :
  Script.wf (trace w) →
  __init__ fname command working_dir results packages options w
  = (Ok (Self results command options (IO.fresh (trace w))
           (S (IO.fresh (trace w))) 0),
     World (trace w ++ Script.init_events (IO.fresh (trace w)) fname
                         working_dir packages)%list
           (Script.substituted results (heap w))).
Proof.
  intros Hwf. destruct (Hwf (IO.fresh (trace w))) as [Hc _]; [lia|].
  destruct (Hwf (S (IO.fresh (trace w)))) as [Hc' _]; [lia|].
  unfold __init__, mbind, M_bind, bind, mret, M_ret, ret.
  rewrite substitute_exe_spec.
  unfold IO.print at 1, IO.emit. cbn [trace heap].
  unfold IO.open at 1. cbn [trace heap]. rewrite fresh_snoc_print.
  do 5 (rewrite write_ok by still_open). cbn [trace heap].
  rewrite write_packages_spec by still_open. cbn [trace heap].
  rewrite write_ok by still_open.
  unfold IO.open at 1. cbn [trace heap].
  repeat first
    [ rewrite fresh_snoc_write | rewrite fresh_app_writes
    | rewrite fresh_snoc_open | rewrite fresh_snoc_print ].
  rewrite write_ok by still_open. cbn [trace heap].
  do 2 f_equal.
  unfold Script.init_events, Script.header_lines, Script.destination_line.
  rewrite !map_app. cbn [map app]. rewrite <- !app_assoc. reflexivity.
Qed.
End Init.

Section Views.
Implicit Types (h k : handle) (t : list event).

Lemma written_cons_write_eq h text t :
  IO.written h (EWrite h text :: t) = text :: IO.written h t.
Proof. unfold IO.written. cbn. by rewrite Nat.eqb_refl. Qed.

Lemma written_cons_write_ne h h' text t :
  h ≠ h' → IO.written h (EWrite h' text :: t) = IO.written h t.
Proof. intros Hne. unfold IO.written. cbn. by destruct (Nat.eqb_spec h h'). Qed.

Lemma written_cons_print h text t : IO.written h (EPrint text :: t) = IO.written h t.
Proof. reflexivity. Qed.

Lemma written_cons_open h h' path t :
  IO.written h (EOpen h' path :: t) = IO.written h t.
Proof. reflexivity. Qed.

Lemma written_cons_close h h' t : IO.written h (EClose h' :: t) = IO.written h t.
Proof. reflexivity. Qed.

Lemma closed_cons_write h h' text t : IO.closed h (EWrite h' text :: t) = IO.closed h t.
Proof. reflexivity. Qed.

Lemma closed_cons_print h text t : IO.closed h (EPrint text :: t) = IO.closed h t.
Proof. reflexivity. Qed.

Lemma closed_cons_open h h' path t : IO.closed h (EOpen h' path :: t) = IO.closed h t.
Proof. reflexivity. Qed.

Lemma closed_cons_close_eq h t : IO.closed h (EClose h :: t) = true.
Proof. unfold IO.closed. cbn. by rewrite Nat.eqb_refl. Qed.

Lemma written_nil h : IO.written h [] = [].
Proof. reflexivity. Qed.

Lemma closed_nil h : IO.closed h [] = false.
Proof. reflexivity. Qed.
End Views.

Ltac view_written :=
  repeat first
    [ rewrite written_app | rewrite written_writes
    | rewrite written_cons_write_eq
    | rewrite written_cons_write_ne by (lia || congruence || done)
    | rewrite written_writes_ne by (lia || congruence || done)
    | rewrite written_cons_print | rewrite written_cons_open
    | rewrite written_cons_close | rewrite written_nil
    | rewrite app_nil_r | rewrite app_nil_l ].

Ltac view_closed :=
  repeat first
    [ rewrite closed_app | rewrite closed_writes
    | rewrite closed_cons_write | rewrite closed_cons_print
    | rewrite closed_cons_open | rewrite closed_nil ];
  cbn [orb].

Section InitViews.
Context `{Env}.
Variables (k : handle) (fname : string) (working_dir : option string)
          (packages : list string).

Local Abbreviation wd :=
  (match working_dir with None => getcwd | Some d => expand_path d end).

Lemma init_events_closed h :
  IO.closed h (Script.init_events k fname working_dir packages) = false.
Proof. unfold Script.init_events. by view_closed. Qed.

Lemma init_events_fresh :
  IO.fresh (Script.init_events k fname working_dir packages) = 2%nat.
Proof.
  unfold Script.init_events. rewrite !fresh_app, fresh_writes. reflexivity.
Qed.

Lemma init_events_written_mos :
  IO.written k (Script.init_events k fname working_dir packages)
  = (Script.header_lines wd
     ++ flat_map (Script.package_lines wd) packages
     ++ [Script.destination_line (path_dirname (expand_path fname))])%list.
Proof. unfold Script.init_events. by view_written. Qed.

Lemma init_events_written_log :
  IO.written (S k) (Script.init_events k fname working_dir packages) = [log_header].
Proof. unfold Script.init_events. by view_written. Qed.

Lemma init_events_written_other h :
  h ≠ k → h ≠ S k →
  IO.written h (Script.init_events k fname working_dir packages) = [].
Proof. intros. unfold Script.init_events. by view_written. Qed.
End InitViews.

Lemma wf_nil : Script.wf [].
Proof. intros h _. split; reflexivity. Qed.

Lemma wf_init `{Env} t fname working_dir packages :
  Script.wf t →
  Script.wf (t ++ Script.init_events (IO.fresh t) fname working_dir packages)%list.
Proof.
  intros Hwf h Hh. rewrite fresh_app, init_events_fresh in Hh.
  destruct (Hwf h) as [Hc Hw]; [lia|]. split.
  - by rewrite closed_app, Hc, init_events_closed.
  - rewrite written_app, Hw, init_events_written_other by lia. done.
Qed.

Section RunViews.
Context `{Env}.
Variables (self : t) (results : list string).
Hypothesis distinct : _mos self ≠ _run_log self.

Lemma run_events_closed h n problem :
  IO.closed h (Script.run_events self n problem results) = false.
Proof. unfold Script.run_events. by view_closed. Qed.

Lemma run_events_written_mos n problem :
  IO.written (_mos self) (Script.run_events self n problem results)
  = Script.run_block n (_command self) (_options self) problem results.
Proof. unfold Script.run_events. by view_written. Qed.

Lemma run_events_written_log n problem :
  IO.written (_run_log self) (Script.run_events self n problem results)
  = [log_line n (_command self) (_options self) problem].
Proof. unfold Script.run_events. by view_written. Qed.
End RunViews.

Lemma exit_spec self w exc_details :
  IO.closed (_mos self) (trace w) = false →
  __exit__ exc_details (self, w)
  = (Ok tt, (self, World (trace w ++ Script.exit_events self)%list (heap w))).
Proof.
  intros Hc. unfold __exit__, mbind, M_bind, bind, get_self.
  cbn -[Str.cat io].
  rewrite io_write by done. rewrite !io_close, io_print. cbn [trace heap].
  do 3 f_equal. unfold Script.exit_events, Script.exit_line.
  rewrite <- !app_assoc. reflexivity.
Qed.

Section Blocks.
Context `{Env}.

Lemma getattr_state attr st : snd (getattr attr st) = st.
Proof.
  destruct st as [self w].
  unfold getattr, __getattr__, mbind, M_bind, bind, get_self, mret, M_ret, ret,
    raise.
  cbn [fst snd].
  destruct (assoc attr (instance_dict self)); [reflexivity|].
  destruct (existsb (String.eqb attr) class_attrs); [reflexivity|].
  destruct (existsb (String.eqb attr) object_attrs); [reflexivity|].
  cbn [fst]. destruct (Dict.get (_options self) attr); reflexivity.
Qed.

Lemma setattr_option attr v self w :
  is_known attr = false →
  __setattr__ attr (PData v) (self, w)
  = (Ok tt, (set_options (Dict.set (_options self) attr v) self, w)).
Proof. intros Hk. unfold __setattr__. by rewrite Hk. Qed.

Lemma block_quiet body : ∀ self w,
  forallb quiet body = true →
  IO.closed (_mos self) (trace w) = false →
  IO.closed (_run_log self) (trace w) = false →
  block body (self, w)
  = (Ok tt,
     (Script.after self body,
      World (trace w ++ Script.body_events self
                          (default [] (heap w !! _results self)) body)%list
            (heap w))).
Proof.
  unfold block.
  induction body as [|s body IH]; intros self w Hq Hm Hl.
  - cbn. unfold ret. by rewrite app_nil_r, world_eta.
  - cbn [forallb] in Hq. apply andb_prop in Hq as [Hs Hq].
    cbn [for_each]. unfold bind.
    destruct s as [model params|attr x|attr|e]; try discriminate Hs.
    + cbn [exec]. rewrite run_spec by done.
      rewrite IH; [|done|cbn [_mos _run_log set_n_runs trace]..].
      * cbn [Script.after Script.body_events trace heap _results set_n_runs].
        by rewrite <- app_assoc.
      * by rewrite closed_app, Hm, run_events_closed.
      * by rewrite closed_app, Hl, run_events_closed.
    + destruct x as [v| | | |]; try discriminate Hs.
      cbn [quiet] in Hs. apply negb_true_iff in Hs.
      cbn [exec]. rewrite setattr_option by done.
      rewrite IH by done.
      cbn [Script.after Script.body_events]. rewrite Hs. reflexivity.
Qed.

Lemma exec_plain s self w :
  plain s = true →
  IO.closed (_mos self) (trace w) = false →
  IO.closed (_run_log self) (trace w) = false →
  ∃ r self' evs,
    exec s (self, w) = (r, (self', World (trace w ++ evs)%list (heap w)))
    ∧ Script.same_files self self'
    ∧ (∀ h, IO.closed h evs = false).
Proof.
  intros Hs Hm Hl.
  destruct s as [model params|attr x|attr|e]; cbn [exec].
  - rewrite run_spec by done. do 3 eexists. split; [reflexivity|].
    split; [done|]. intros h. apply run_events_closed.
  - destruct x as [v| | | |]; try discriminate Hs.
    cbn [plain] in Hs. apply negb_true_iff in Hs.
    rewrite setattr_option by done.
    exists (Ok tt), (set_options (Dict.set (_options self) attr v) self), [].
    rewrite app_nil_r, world_eta. done.
  - pose proof (getattr_state attr (self, w)) as Hst.
    unfold mbind, M_bind, bind. destruct (getattr attr (self, w)) as [[x|e] st];
      cbn [snd] in Hst; subst st.
    + exists (Ok tt), self, []. rewrite app_nil_r, world_eta. done.
    + exists (Raise e), self, []. rewrite app_nil_r, world_eta. done.
  - exists (Raise e), self, []. rewrite app_nil_r, world_eta. done.
Qed.

Lemma block_plain body : ∀ self w,
  forallb plain body = true →
  IO.closed (_mos self) (trace w) = false →
  IO.closed (_run_log self) (trace w) = false →
  ∃ r self' evs,
    block body (self, w) = (r, (self', World (trace w ++ evs)%list (heap w)))
    ∧ Script.same_files self self'
    ∧ (∀ h, IO.closed h evs = false).
Proof.
  unfold block.
  induction body as [|s body IH]; intros self w Hp Hm Hl.
  - exists (Ok tt), self, []. cbn. unfold ret. rewrite app_nil_r, world_eta. done.
  - cbn [forallb] in Hp. apply andb_prop in Hp as [Hs Hp].
    destruct (exec_plain s self w Hs Hm Hl) as (r & self1 & evs1 & He & Hf & Hc).
    cbn [for_each]. unfold bind. rewrite He.
    destruct r as [[]|e].
    + destruct Hf as (Hr & Hcmd & Hmos & Hlog).
      destruct (IH self1 (World (trace w ++ evs1)%list (heap w)) Hp)
        as (r2 & self2 & evs2 & He2 & Hf2 & Hc2).
      * cbn [trace]. by rewrite Hmos, closed_app, Hm, Hc.
      * cbn [trace]. by rewrite Hlog, closed_app, Hl, Hc.
      * cbn [trace heap] in He2. rewrite He2.
        exists r2, self2, (evs1 ++ evs2)%list. rewrite app_assoc.
        split; [reflexivity|]. split.
        -- destruct Hf2 as (? & ? & ? & ?). unfold Script.same_files. by repeat split; congruence.
        -- intros h. by rewrite closed_app, Hc, Hc2.
    + exists (Raise e), self1, evs1. done.
Qed.
End Blocks.

(** ** The body of a session *)

Section BodyViews.
Context `{Env}.
Variable results : list string.

Lemma after_files body : ∀ self, Script.same_files self (Script.after self body).
Proof.
  induction body as [|s body IH]; intros self; [done|].
  destruct s as [model params|attr x|attr|e]; cbn [Script.after]; try apply IH.
  - destruct (IH (set_n_runs (n_runs self + 1) self)) as (? & ? & ? & ?). done.
  - destruct x; try apply IH. destruct (is_known attr); [apply IH|].
    destruct (IH (set_options (Dict.set (_options self) attr v) self))
      as (? & ? & ? & ?). done.
Qed.

Lemma after_n_runs body : ∀ self,
  n_runs (Script.after self body) = n_runs self + Z.of_nat (Script.count_runs body).
Proof.
  induction body as [|s body IH]; intros self; [cbn; lia|].
  destruct s as [model params|attr x|attr|e];
    cbn [Script.after Script.count_runs]; rewrite ?IH; try lia.
  - cbn [n_runs set_n_runs]. lia.
  - destruct x; rewrite ?IH; try lia. by destruct (is_known attr).
Qed.

Lemma runs_seen_length body : ∀ options,
  length (Script.runs_seen body options) = Script.count_runs body.
Proof.
  induction body as [|s body IH]; intros options; [done|].
  destruct s as [model params|attr x|attr|e];
    cbn [Script.runs_seen Script.count_runs length]; rewrite ?IH; try done.
  destruct x; by rewrite ?IH.
Qed.

Lemma body_events_closed body : ∀ self h,
  IO.closed h (Script.body_events self results body) = false.
Proof.
  induction body as [|s body IH]; intros self h; [done|].
  destruct s as [model params|attr x|attr|e]; cbn [Script.body_events]; try apply IH.
  - by rewrite closed_app, run_events_closed, IH.
  - destruct x; apply IH.
Qed.

Lemma body_events_written_log body : ∀ self,
  _mos self ≠ _run_log self →
  IO.written (_run_log self) (Script.body_events self results body)
  = imap (fun i op => log_line (n_runs self + Z.of_nat (S i)) (_command self)
                        (fst op) (snd op))
      (Script.runs_seen body (_options self)).
Proof.
  induction body as [|s body IH]; intros self Hne; [done|].
  destruct s as [model params|attr x|attr|e];
    cbn [Script.body_events Script.runs_seen]; try by apply IH.
  - rewrite written_app.
    change (_run_log self) with (_run_log (set_n_runs (n_runs self + 1) self)) at 1.
    rewrite run_events_written_log by done.
    change (_run_log self) with (_run_log (set_n_runs (n_runs self + 1) self)).
    rewrite IH by done. cbn [imap app fst snd _command _options set_n_runs n_runs].
    f_equal. apply imap_ext. intros i op _. cbn. f_equal. lia.
  - destruct x; try by apply IH. destruct (is_known attr); [by apply IH|].
    change (_run_log self)
      with (_run_log (set_options (Dict.set (_options self) attr v) self)).
    by rewrite IH.
Qed.

Lemma body_events_written_mos body : ∀ self,
  _mos self ≠ _run_log self →
  IO.written (_mos self) (Script.body_events self results body)
  = concat (imap (fun i op => Script.run_block (n_runs self + Z.of_nat (S i))
                                (_command self) (fst op) (snd op) results)
              (Script.runs_seen body (_options self))).
Proof.
  induction body as [|s body IH]; intros self Hne; [done|].
  destruct s as [model params|attr x|attr|e];
    cbn [Script.body_events Script.runs_seen]; try by apply IH.
  - rewrite written_app.
    change (_mos self) with (_mos (set_n_runs (n_runs self + 1) self)) at 1.
    rewrite run_events_written_mos by done.
    change (_mos self) with (_mos (set_n_runs (n_runs self + 1) self)).
    rewrite IH by done.
    cbn [imap concat app fst snd _command _options set_n_runs n_runs].
    f_equal. f_equal. apply imap_ext. intros i op _. unfold compose.
    f_equal. lia.
  - destruct x; try by apply IH. destruct (is_known attr); [by apply IH|].
    change (_mos self)
      with (_mos (set_options (Dict.set (_options self) attr v) self)).
    by rewrite IH.
Qed.
End BodyViews.

(** ** Texts and run numbers *)

Lemma append_assoc (a b c : string) : (a +:+ b) +:+ c = a +:+ (b +:+ c).
Proof.
  induction a as [|x a IH]; [done|].
  change (String x ((a +:+ b) +:+ c) = String x (a +:+ (b +:+ c))). by rewrite IH.
Qed.

Lemma append_nil_r (a : string) : a +:+ EmptyString = a.
Proof.
  induction a as [|x a IH]; [done|].
  change (String x (a +:+ EmptyString) = String x a). by rewrite IH.
Qed.

Lemma first_field_digits d rest :
  first_field (NilEmpty.string_of_uint d +:+ String "009" rest)
  = NilEmpty.string_of_uint d.
Proof.
  induction d as [|d IH|d IH|d IH|d IH|d IH|d IH|d IH|d IH|d IH|d IH];
    [reflexivity|..];
    cbn [NilEmpty.string_of_uint];
    change (String ?c ?s +:+ ?t) with (String c (s +:+ t));
    cbn [first_field Ascii.eqb Bool.eqb]; by rewrite IH.
Qed.

Lemma first_field_of_int n rest :
  first_field (Str.of_int n +:+ String "009" rest) = Str.of_int n.
Proof.
  unfold Str.of_int. destruct n as [|p|p]; [reflexivity|..]; cbn [Z.to_int NilZero.string_of_int].
  - unfold NilZero.string_of_uint. destruct (Pos.to_uint p) eqn:Hp;
      try (rewrite <- Hp at 1; rewrite first_field_digits; by rewrite Hp); reflexivity.
  - change (String "-" ?s +:+ ?t) with (String "-" (s +:+ t)).
    cbn [first_field Ascii.eqb Bool.eqb]. f_equal.
    unfold NilZero.string_of_uint. destruct (Pos.to_uint p) eqn:Hp;
      try (rewrite <- Hp at 1; rewrite first_field_digits; by rewrite Hp); reflexivity.
Qed.

Lemma int_of_string_of_int n :
  option_map Z.of_int (NilZero.int_of_string (Str.of_int n)) = Some n.
Proof.
  unfold Str.of_int. rewrite NilZero.isi.
  - cbn [option_map]. by rewrite DecimalZ.of_to.
  - destruct n as [|p|p]; cbn [Z.to_int]; try discriminate.
    intros Hp. injection Hp as Hp. by apply Unsigned.to_uint_nonnil in Hp.
  - destruct n as [|p|p]; cbn [Z.to_int]; try discriminate.
    intros Hp. injection Hp as Hp. by apply Unsigned.to_uint_nonnil in Hp.
Qed.

Lemma run_number_log_line n command options problem :
  run_number (log_line n command options problem) = Some n.
Proof.
  unfold run_number, log_line, Str.join. cbn [String.concat].
  unfold Str.tab at 1, Str.of_char. rewrite append_assoc.
  change (String "009" EmptyString +:+ ?s) with (String "009" s).
  change (String "009" ?s +:+ ?t) with (String "009" (s +:+ t)).
  rewrite first_field_of_int. apply int_of_string_of_int.
Qed.

Lemma run_numbers_count {A} (f : nat → A → string) (l : list A) :
  (∀ i a, run_number (f i a) = Some (Z.of_nat (S i))) →
  map run_number (imap f l) = map (fun i => Some (Z.of_nat i)) (seq 1 (length l)).
Proof.
  intros Hf. apply list_eq. intros i.
  rewrite !list_lookup_fmap, list_lookup_imap.
  destruct (l !! i) as [a|] eqn:Hi; cbn.
  - rewrite lookup_seq_lt by (by eapply lookup_lt_Some). cbn. by rewrite Hf.
  - by rewrite lookup_seq_ge by (by apply lookup_ge_None).
Qed.

(** C1.  The run log of a session whose body makes [run] calls and
    assigns options.  The constructor writes the header and starts the
    counter at 0; every [run] call appends exactly one line: the run
    number in decimal, the command, the options and the model with its
    parameters, separated by tabs and ended by a newline.  Read back
    from the lines, the run numbers are 1, 2, ... up to the number of
    [run] calls, which is also where the counter ends. *)
Theorem run_log_numbers_runs `{Env} fname command working_dir results packages
    options body w :
  Script.wf (trace w) →
  forallb quiet body = true →
  ∃ self0 w0 self w',
    __init__ fname command working_dir results packages options w = (Ok self0, w0)
    ∧ n_runs self0 = 0
    ∧ block body (self0, w0) = (Ok tt, (self, w'))
    ∧ n_runs self = Z.of_nat (Script.count_runs body)
    ∧ length (Script.runs_seen body options) = Script.count_runs body
    ∧ IO.written (_run_log self) (trace w')
      = Str.cat ["Run #"; Str.tab; "Command"; Str.tab; "Options"; Str.tab;
                 "Model & parameters"; Str.nl]
        :: imap (fun i op =>
                   Str.join Str.tab
                     [Str.of_int (Z.of_nat (S i));
                      command;
                      Str.strip_ends (ParamDict.str (fst op));
                      match snd op with
                      | Some p => Str.strip_ends p
                      | None => EmptyString
                      end] +:+ Str.nl)
             (Script.runs_seen body options)
    ∧ map run_number (tail (IO.written (_run_log self) (trace w')))
      = map (fun i => Some (Z.of_nat i)) (seq 1 (Script.count_runs body)).
Proof.
  intros Hwf Hq.
  destruct (Hwf (IO.fresh (trace w))) as [Hc _]; [lia|].
  destruct (Hwf (S (IO.fresh (trace w)))) as [Hc' Hw']; [lia|].
  do 4 eexists. split; [by apply init_spec|]. split; [done|].
  split.
  { apply block_quiet; [done|cbn [_mos _run_log trace]..].
    - by rewrite closed_app, Hc, init_events_closed.
    - by rewrite closed_app, Hc', init_events_closed. }
  split; [by rewrite after_n_runs|].
  split; [apply runs_seen_length|].
  cbn [trace]. destruct (after_files body
    (Self results command options (IO.fresh (trace w)) (S (IO.fresh (trace w))) 0))
    as (_ & _ & _ & ->). cbn [_run_log].
  rewrite !written_app, Hw', init_events_written_log.
  change (S (IO.fresh (trace w))) with
    (_run_log (Self results command options (IO.fresh (trace w)) (S (IO.fresh (trace w))) 0)).
  rewrite body_events_written_log by (cbn; lia).
  cbn [app n_runs _command _options tail]. split; [reflexivity|].
  rewrite <- (runs_seen_length body options).
  apply run_numbers_count. intros i op. apply run_number_log_line.
Qed.

(** C2.  Leaving the scope.  Whatever the body did with the writer,
    and whether it ended normally or raised (a failing attribute read,
    or any other raising statement), [__exit__] writes the line
    [exit();] to the script, closes the script file, then closes the
    run log, in this order, for every description of the exception;
    the [with] statement ends with these events and lets the body's
    exception through. *)
Theorem exit_writes_then_closes `{Env} fname command working_dir results packages
    options body w :
  Script.wf (trace w) →
  forallb plain body = true →
  ∃ self0 w0 r self w',
    __init__ fname command working_dir results packages options w = (Ok self0, w0)
    ∧ block body (self0, w0) = (r, (self, w'))
    ∧ _mos self = IO.fresh (trace w)
    ∧ _run_log self = S (IO.fresh (trace w))
    ∧ (∀ exc_details,
         __exit__ exc_details (self, w')
         = (Ok tt,
            (self,
             World (trace w'
                    ++ [EWrite (_mos self) (Str.cat ["exit();"; Str.nl]);
                        EClose (_mos self);
                        EClose (_run_log self);
                        EPrint "Finished writing the Dymola script."])%list
                   (heap w'))))
    ∧ with_ (__init__ fname command working_dir results packages options)
        (block body) w
      = (r,
         World (trace w'
                ++ [EWrite (_mos self) (Str.cat ["exit();"; Str.nl]);
                    EClose (_mos self);
                    EClose (_run_log self);
                    EPrint "Finished writing the Dymola script."])%list
               (heap w')).
Proof.
  intros Hwf Hp.
  destruct (Hwf (IO.fresh (trace w))) as [Hc _]; [lia|].
  destruct (Hwf (S (IO.fresh (trace w)))) as [Hc' _]; [lia|].
  set (self0 := Self results command options (IO.fresh (trace w))
                  (S (IO.fresh (trace w))) 0).
  set (w0 := World (trace w ++ Script.init_events (IO.fresh (trace w)) fname
                                 working_dir packages)%list
                   (Script.substituted results (heap w))).
  assert (Hm0 : IO.closed (_mos self0) (trace w0) = false).
  { unfold self0, w0. cbn [_mos trace].
    by rewrite closed_app, Hc, init_events_closed. }
  assert (Hl0 : IO.closed (_run_log self0) (trace w0) = false).
  { unfold self0, w0. cbn [_run_log trace].
    by rewrite closed_app, Hc', init_events_closed. }
  destruct (block_plain body self0 w0 Hp Hm0 Hl0)
    as (r & self & evs & Hb & (_ & _ & Hmos & Hlog) & Hcl).
  assert (Hopen : IO.closed (_mos self) (trace w0 ++ evs)%list = false).
  { by rewrite Hmos, closed_app, Hm0, Hcl. }
  exists self0, w0, r, self, (World (trace w0 ++ evs)%list (heap w0)).
  split; [by apply init_spec|]. split; [exact Hb|].
  split; [exact Hmos|]. split; [exact Hlog|]. split.
  - intros exc. by rewrite exit_spec.
  - unfold with_. rewrite init_spec by done. fold self0 w0.
    unfold __enter__, get_self. cbn [fst snd]. rewrite Hb.
    destruct r as [[]|e]; by rewrite exit_spec.
Qed.

(** C4.  A session without any [run] call.  The script holds the
    header (the dated comment, the two imports, the translation-log
    setting, the change of working directory, the lines of the
    packages, the destination) followed by [exit();]; the run log
    holds its header line and nothing else; both files end closed. *)
Theorem empty_session_files `{Env} fname command working_dir results packages
    options w :
  Script.wf (trace w) →
  let wd := match working_dir with None => getcwd | Some d => expand_path d end in
  ∃ w',
    with_ (__init__ fname command working_dir results packages options)
      (block []) w = (Ok tt, w')
    ∧ IO.written (IO.fresh (trace w)) (trace w')
      = ([Str.cat ["// Dymola script written by ModelicaRes "; today_isoformat;
                   Str.nl];
          Str.cat ["import Modelica.Utilities.Files.copy;"; Str.nl];
          Str.cat ["import Modelica.Utilities.Files.createDirectory;"; Str.nl];
          Str.cat ["Advanced.TranslationInCommandLog = true ";
                   Str.quoted "Also include translation log in command log";
                   ";"; Str.nl];
          Str.cat ["cd("; Str.quoted wd; ");"; Str.nl]]
         ++ flat_map (Script.package_lines wd) packages
         ++ [Str.cat ["destination = ";
                      Str.quoted (path_normpath (path_dirname (expand_path fname))
                                  +:+ path_sep);
                      ";"; Str.nl; Str.nl];
             Str.cat ["exit();"; Str.nl]])%list
    ∧ IO.written (S (IO.fresh (trace w))) (trace w')
      = [Str.cat ["Run #"; Str.tab; "Command"; Str.tab; "Options"; Str.tab;
                  "Model & parameters"; Str.nl]]
    ∧ IO.closed (IO.fresh (trace w)) (trace w') = true
    ∧ IO.closed (S (IO.fresh (trace w))) (trace w') = true.
Proof.
  intros Hwf wd.
  destruct (Hwf (IO.fresh (trace w))) as [Hc Hw]; [lia|].
  destruct (Hwf (S (IO.fresh (trace w)))) as [Hc' Hw']; [lia|].
  eexists. split.
  { unfold with_. rewrite init_spec by done.
    unfold __enter__, get_self, block. cbn [for_each fst snd].
    unfold ret. rewrite exit_spec; [reflexivity|].
    cbn [_mos trace]. by rewrite closed_app, Hc, init_events_closed. }
  cbn [snd trace]. unfold Script.exit_events. cbn [_mos _run_log].
  repeat split.
  - rewrite !written_app, Hw, init_events_written_mos. view_written.
    unfold Script.header_lines, Script.destination_line, Script.exit_line.
    fold wd. cbn [app]. by rewrite <- !app_assoc.
  - rewrite !written_app, Hw', init_events_written_log.
    by rewrite written_cons_write_ne by lia.
  - rewrite !closed_app. unfold IO.closed at 3. cbn. rewrite Nat.eqb_refl.
    by rewrite !orb_true_r.
  - rewrite !closed_app. unfold IO.closed at 3. cbn. rewrite Nat.eqb_refl.
    by rewrite !orb_true_r.
Qed.

Section RunsOnly.
Context `{Env}.

Lemma runs_only_quiet body : forallb Script.is_run body = true → forallb quiet body = true.
Proof.
  induction body as [|s body IH]; [done|]. cbn [forallb]. intros Hb.
  apply andb_prop in Hb as [Hs Hb]. rewrite IH by done.
  by destruct s.
Qed.

Lemma runs_only_seen body options :
  forallb Script.is_run body = true →
  Script.runs_seen body options = map (fun s => (options, Script.problem s)) body.
Proof.
  induction body as [|s body IH]; [done|]. cbn [forallb]. intros Hb.
  apply andb_prop in Hb as [Hs Hb]. destruct s; try discriminate Hs.
  cbn [Script.runs_seen map Script.problem]. by rewrite IH.
Qed.

Lemma runs_only_after body : ∀ self,
  forallb Script.is_run body = true →
  _options (Script.after self body) = _options self.
Proof.
  induction body as [|s body IH]; intros self; [done|]. cbn [forallb]. intros Hb.
  apply andb_prop in Hb as [Hs Hb]. destruct s; try discriminate Hs.
  cbn [Script.after]. by rewrite IH.
Qed.
End RunsOnly.

(** C3, amended.  A [run] call with run number [n] appends to the
    script, in order: the comment naming run [n], the assignment of
    the command's result to [ok], and the block that saves the log,
    sets [dest] to [destination] followed by [n] and the path
    separator of the host, creates that directory and copies each
    file of the result list into it, then the call that clears the
    log; it appends one line to the run log.  A second call appends
    the same for [n + 1].  The separator is a slash on every host but
    Windows. *)
Theorem run_appends_numbered_block `{Env} self w model params model2 params2 :
  IO.closed (_mos self) (trace w) = false →
  IO.closed (_run_log self) (trace w) = false →
  _mos self ≠ _run_log self →
  let results := default [] (heap w !! _results self) in
  let blk := fun (n : Z) (problem : option string) =>
    ([Str.cat ["// Run "; Str.of_int n; Str.nl];
      Str.cat ["ok = ";
               _command self
               +:+ ParamDict.str (Dict.set (_options self) "problem"
                                    (value_of problem));
               ";"; Str.nl];
      Str.cat ["if ok then"; Str.nl];
      Str.cat ["    savelog();"; Str.nl];
      Str.cat ["    dest = destination + "; Str.quoted (Str.of_int n +:+ path_sep);
               ";"; Str.nl];
      Str.cat ["    createDirectory(dest);"; Str.nl]]
     ++ map (fun result =>
               Str.cat ["    copy("; Str.quoted result; ", dest + ";
                        Str.quoted result; ", true);"; Str.nl]) results
     ++ [Str.cat ["end if;"; Str.nl];
         Str.cat ["clearlog();"; Str.nl; Str.nl]])%list in
  let line := fun (n : Z) (problem : option string) =>
    log_line n (_command self) (_options self) problem in
  let n := n_runs self + 1 in
  ∃ w1 w2,
    run model params (self, w) = (Ok tt, (set_n_runs n self, w1))
    ∧ IO.written (_mos self) (trace w1)
      = (IO.written (_mos self) (trace w) ++ blk n (problem_of model params))%list
    ∧ IO.written (_run_log self) (trace w1)
      = (IO.written (_run_log self) (trace w)
         ++ [line n (problem_of model params)])%list
    ∧ run model2 params2 (set_n_runs n self, w1)
      = (Ok tt, (set_n_runs (n + 1) self, w2))
    ∧ IO.written (_mos self) (trace w2)
      = (IO.written (_mos self) (trace w) ++ blk n (problem_of model params)
         ++ blk (n + 1) (problem_of model2 params2))%list
    ∧ IO.written (_run_log self) (trace w2)
      = (IO.written (_run_log self) (trace w)
         ++ [line n (problem_of model params);
             line (n + 1) (problem_of model2 params2)])%list
    ∧ heap w2 = heap w
    ∧ (String.eqb os_name "nt" = false → path_sep = "/").
Proof.
  intros Hm Hl Hne results blk line n.
  set (self1 := set_n_runs n self).
  set (e1 := Script.run_events self1 n (problem_of model params) results).
  set (w1 := World (trace w ++ e1)%list (heap w)).
  assert (Hm1 : IO.closed (_mos self1) (trace w1) = false).
  { unfold w1, e1. cbn [trace _mos self1 set_n_runs].
    by rewrite closed_app, Hm, run_events_closed. }
  assert (Hl1 : IO.closed (_run_log self1) (trace w1) = false).
  { unfold w1, e1. cbn [trace _run_log self1 set_n_runs].
    by rewrite closed_app, Hl, run_events_closed. }
  assert (Hblk : ∀ k problem,
            Script.run_block k (_command self) (_options self) problem results
            = blk k problem) by reflexivity.
  exists w1, (World (trace w1 ++ Script.run_events (set_n_runs (n + 1) self) (n + 1)
                                  (problem_of model2 params2) results)%list
                    (heap w)).
  split; [by apply run_spec|].
  split.
  { unfold w1, e1. cbn [trace].  rewrite written_app.
    change (_mos self) with (_mos self1) at 2.
    rewrite run_events_written_mos by done. by rewrite <- Hblk. }
  split.
  { unfold w1, e1. cbn [trace]. rewrite written_app.
    change (_run_log self) with (_run_log self1) at 2.
    by rewrite run_events_written_log. }
  split.
  { rewrite (run_spec self1 w1) by done. reflexivity. }
  split.
  { unfold w1, e1. cbn [trace]. rewrite !written_app.
    change (_mos self) with (_mos self1) at 2.
    rewrite run_events_written_mos by done.
    change (_mos self) with (_mos (set_n_runs (n + 1) self)) at 2.
    rewrite run_events_written_mos by done.
    by rewrite <- !Hblk, <- app_assoc. }
  split.
  { unfold w1, e1. cbn [trace]. rewrite !written_app.
    change (_run_log self) with (_run_log self1) at 2.
    rewrite run_events_written_log by done.
    change (_run_log self) with (_run_log (set_n_runs (n + 1) self)) at 2.
    rewrite run_events_written_log by done.
    by rewrite <- app_assoc. }
  split; [done|].
  intros Hos. unfold path_sep. by rewrite Hos.
Qed.

(** C5, amended.  Assigning an attribute that is not one of the six
    internal fields stores the value in the option set; every [run]
    call after it builds its command and its log line from the
    updated option set; reading the attribute gives the stored value
    back when the name is not one that the class or [object] already
    resolves. *)
Theorem option_assignment_feeds_runs `{Env} self w attr v :
  is_known attr = false →
  let options' := Dict.set (_options self) attr v in
  let self' := set_options options' self in
  __setattr__ attr (PData v) (self, w) = (Ok tt, (self', w))
  ∧ Dict.get options' attr = Some v
  ∧ (∀ body w1,
       forallb Script.is_run body = true →
       IO.closed (_mos self) (trace w1) = false →
       IO.closed (_run_log self) (trace w1) = false →
       _mos self ≠ _run_log self →
       ∃ self2 w2,
         block body (self', w1) = (Ok tt, (self2, w2))
         ∧ _options self2 = options'
         ∧ IO.written (_mos self) (trace w2)
           = (IO.written (_mos self) (trace w1)
              ++ concat (imap (fun i s =>
                           Script.run_block (n_runs self + Z.of_nat (S i))
                             (_command self) options' (Script.problem s)
                             (default [] (heap w1 !! _results self)))
                         body))%list
         ∧ IO.written (_run_log self) (trace w2)
           = (IO.written (_run_log self) (trace w1)
              ++ imap (fun i s =>
                         log_line (n_runs self + Z.of_nat (S i)) (_command self)
                           options' (Script.problem s))
                   body)%list)
  ∧ (existsb (String.eqb attr) class_attrs = false →
     existsb (String.eqb attr) object_attrs = false →
     getattr attr (self', w) = (Ok (PData v), (self', w))).
Proof.
  intros Hk options' self'. split; [by apply setattr_option|].
  split.
  { unfold options'. generalize (_options self) as d.
    induction d as [|[k' v'] d IH]; cbn [Dict.set Dict.get].
    - by rewrite String.eqb_refl.
    - destruct (String.eqb k' attr) eqn:He; cbn [Dict.get]; by rewrite He. }
  split.
  { intros body w1 Hr Hm Hl Hne.
    exists (Script.after self' body),
      (World (trace w1 ++ Script.body_events self'
                            (default [] (heap w1 !! _results self)) body)%list
             (heap w1)).
    split.
    { rewrite (block_quiet body self' w1);
        [reflexivity|by apply runs_only_quiet|done|done]. }
    split; [by rewrite runs_only_after|].
    cbn [trace]. rewrite !written_app.
    change (_mos self) with (_mos self') at 2.
    change (_run_log self) with (_run_log self') at 2.
    rewrite body_events_written_mos, body_events_written_log by done.
    rewrite runs_only_seen by done.
    rewrite !imap_fmap. done. }
  intros Hc Ho. unfold getattr, __getattr__, mbind, M_bind, bind, get_self, mret,
    M_ret, ret. cbn [fst].
  assert (Hi : assoc attr (instance_dict self') = None).
  { unfold is_known, known in Hk. cbn [existsb] in Hk.
    repeat (apply orb_false_elim in Hk as [? Hk]).
    unfold instance_dict. cbn [assoc].
    repeat match goal with
           | Hx : String.eqb attr ?k = false |- context [String.eqb ?k attr] =>
               rewrite (String.eqb_sym k attr), Hx
           end.
    reflexivity. }
  rewrite Hi, Hc, Ho. cbn [fst].
  assert (Hg : Dict.get (_options self') attr = Some v).
  { unfold self', options'. cbn [_options set_options].
    generalize (_options self) as d.
    induction d as [|[k' v'] d IH]; cbn [Dict.set Dict.get].
    - by rewrite String.eqb_refl.
    - destruct (String.eqb k' attr) eqn:He; cbn [Dict.get]; by rewrite He. }
  by rewrite Hg.
Qed.

(** C10, amended.  Reading an attribute that is neither an internal
    field, nor a name that the class or [object] resolves, nor a key
    of the option set raises [KeyError] for that name, not
    [AttributeError]. *)
Theorem unknown_attribute_raises_KeyError `{Env} self w attr :
  is_known attr = false →
  Dict.get (_options self) attr = None →
  existsb (String.eqb attr) class_attrs = false →
  existsb (String.eqb attr) object_attrs = false →
  getattr attr (self, w) = (Raise (KeyError attr), (self, w))
  ∧ getattr attr (self, w) ≠ (Raise AttributeError, (self, w)).
Proof.
  intros Hk Hg Hc Ho.
  assert (Hi : assoc attr (instance_dict self) = None).
  { unfold is_known, known in Hk. cbn [existsb] in Hk.
    repeat (apply orb_false_elim in Hk as [? Hk]).
    unfold instance_dict. cbn [assoc].
    repeat match goal with
           | Hx : String.eqb attr ?k = false |- context [String.eqb ?k attr] =>
               rewrite (String.eqb_sym k attr), Hx
           end.
    reflexivity. }
  assert (He : getattr attr (self, w) = (Raise (KeyError attr), (self, w))).
  { unfold getattr, __getattr__, mbind, M_bind, bind, get_self, mret, M_ret, ret,
      raise. cbn [fst]. rewrite Hi, Hc, Ho. cbn [fst]. by rewrite Hg. }
  split; [exact He|]. rewrite He. discriminate.
Qed.

(** ** Absent entries *)

Section Serialization.

Lemma flatten_VDict name items :
  ParamDict.flatten name (VDict items)
  = flat_map (fun kv => ParamDict.flatten (ParamDict.dotted name (fst kv)) (snd kv))
      items.
Proof.
  cbn [ParamDict.flatten]. induction items as [|[k v] r IH]; [done|].
  cbn [flat_map fst snd]. by rewrite <- IH.
Qed.

Lemma drop_None_VDict items :
  ParamDict.drop_None_value (VDict items) = VDict (ParamDict.drop_None items).
Proof. reflexivity. Qed.

Lemma drop_None_cons k v r :
  ParamDict.drop_None ((k, v) :: r)
  = match v with
    | VNone => ParamDict.drop_None r
    | _ => (k, ParamDict.drop_None_value v) :: ParamDict.drop_None r
    end.
Proof. by destruct v. Qed.

Lemma flatten_drop_None v : ∀ name,
  ParamDict.flatten name (ParamDict.drop_None_value v) = ParamDict.flatten name v.
Proof.
  induction v as [|n|s|items IH] using value_nested_ind; intros name; try done.
  rewrite drop_None_VDict, !flatten_VDict.
  induction IH as [|[k v] r Hv Hr IHr]; [done|].
  rewrite drop_None_cons. cbn [snd] in Hv.
  destruct v; cbn [flat_map fst snd] in *; rewrite <- ?IHr; try done.
  by rewrite Hv.
Qed.

Lemma flatten_dict_drop_None d :
  ParamDict.flatten_dict (ParamDict.drop_None d) = ParamDict.flatten_dict d.
Proof.
  unfold ParamDict.flatten_dict.
  induction d as [|[k v] r IH]; [done|].
  rewrite drop_None_cons.
  destruct v; cbn [flat_map fst snd]; rewrite <- ?IH; try done.
  by rewrite (flatten_drop_None (VDict items)).
Qed.

Lemma str_drop_None d : ParamDict.str (ParamDict.drop_None d) = ParamDict.str d.
Proof. unfold ParamDict.str, ParamDict.elements. by rewrite flatten_dict_drop_None. Qed.

Lemma flatten_dict_set_drop_None d k v :
  Dict.get d k ≠ Some VNone →
  ParamDict.flatten_dict (Dict.set (ParamDict.drop_None d) k v)
  = ParamDict.flatten_dict (Dict.set d k v).
Proof.
  unfold ParamDict.flatten_dict.
  induction d as [|[k' v'] r IH]; intros Hg; [done|].
  rewrite drop_None_cons. cbn [Dict.get] in Hg. cbn [Dict.set].
  destruct (String.eqb k' k) eqn:He.
  - destruct v'; [done|..]; cbn [Dict.set]; rewrite He; cbn [flat_map fst snd];
      f_equal; apply flatten_dict_drop_None.
  - destruct v'; cbn [Dict.set flat_map fst snd]; rewrite ?He;
      cbn [flat_map fst snd]; rewrite ?IH by done; try done.
    by rewrite (flatten_drop_None (VDict items)).
Qed.

Lemma call_of_drop_None command options problem :
  Dict.get options "problem" ≠ Some VNone →
  call_of command (ParamDict.drop_None options) problem
  = call_of command options problem.
Proof.
  intros Hg. unfold call_of, ParamDict.str, ParamDict.elements.
  by rewrite flatten_dict_set_drop_None.
Qed.

Lemma problem_of_drop_None model params :
  problem_of model (ParamDict.drop_None params) = problem_of model params.
Proof. unfold problem_of. by rewrite str_drop_None. Qed.

Lemma log_line_drop_None n command options problem :
  log_line n command (ParamDict.drop_None options) problem
  = log_line n command options problem.
Proof. unfold log_line. by rewrite str_drop_None. Qed.
End Serialization.

Section RunOnClosedFiles.
Context `{Env}.

Lemma io_write_closed self w h text :
  IO.closed h (trace w) = true →
  io (IO.write h text) (self, w)
  = (Raise (ValueError "I/O operation on closed file"), (self, w)).
Proof. intros Hc. unfold io, IO.write. cbn. by rewrite Hc. Qed.

Lemma run_closed_script self w model params :
  IO.closed (_mos self) (trace w) = true →
  run model params (self, w)
  = (Raise (ValueError "I/O operation on closed file"),
     (set_n_runs (n_runs self + 1) self, w)).
Proof.
  intros Hm. unfold run, __setattr__, object_setattr, mbind, M_bind, bind, get_self,
    put_self.
  cbn -[Str.cat Str.of_int Str.nl call_of log_line dest_line copy_line io].
  by rewrite io_write_closed.
Qed.

Lemma run_closed_log self w model params :
  IO.closed (_mos self) (trace w) = false →
  IO.closed (_run_log self) (trace w) = true →
  run model params (self, w)
  = (Raise (ValueError "I/O operation on closed file"),
     (set_n_runs (n_runs self + 1) self,
      World (trace w
             ++ map (EWrite (_mos self))
                  (Script.run_block (n_runs self + 1) (_command self)
                     (_options self) (problem_of model params)
                     (default [] (heap w !! _results self))))%list
            (heap w))).
Proof.
  intros Hm Hl. unfold run, __setattr__, object_setattr, mbind, M_bind, bind, get_self,
    put_self.
  cbn -[Str.cat Str.of_int Str.nl call_of log_line dest_line copy_line io].
  do 6 (rewrite io_write by still_open).
  rewrite io_deref. cbn [heap].
  rewrite (write_lines copy_line) by still_open.
  do 2 (rewrite io_write by still_open).
  rewrite io_write_closed.
  - cbn [trace heap]. do 3 f_equal. unfold Script.run_block, dest_line.
    rewrite !map_app. cbn [map]. rewrite <- !app_assoc. reflexivity.
  - cbn [trace].
    repeat first [ rewrite closed_snoc_write | rewrite closed_app_writes ].
    exact Hl.
Qed.
End RunOnClosedFiles.

(** C7.  Entries whose value is [None] leave no mark: the text of a
    dictionary is the text of the dictionary without them, for the
    parameters, for the options in the log line and for the options
    completed with [problem] in the command; and a [run] call writes
    the same script lines and the same log line, and ends the same
    way, as the call made without the absent entries of the
    parameters and of the options.  The option named [problem] is the
    one that [run] fills in itself: an absent entry of that name is
    overwritten, not dropped, hence the condition for the last part. *)
Theorem absent_entries_are_omitted `{Env} self w model params :
  let clean := set_options (ParamDict.drop_None (_options self)) self in
  ParamDict.str (ParamDict.drop_None params) = ParamDict.str params
  ∧ ParamDict.str (ParamDict.drop_None (_options self)) = ParamDict.str (_options self)
  ∧ call_of (_command self) (_options self) (problem_of model params)
    = _command self
      +:+ ParamDict.str
            (ParamDict.drop_None
               (Dict.set (_options self) "problem"
                  (value_of (problem_of model (ParamDict.drop_None params)))))
  ∧ (Dict.get (_options self) "problem" ≠ Some VNone →
     fst (run model params (self, w))
     = fst (run model (ParamDict.drop_None params) (clean, w))
     ∧ snd (snd (run model params (self, w)))
       = snd (snd (run model (ParamDict.drop_None params) (clean, w)))).
Proof.
  intros clean. split; [apply str_drop_None|]. split; [apply str_drop_None|].
  split; [unfold call_of; by rewrite str_drop_None, problem_of_drop_None|].
  intros Hg.
  destruct (IO.closed (_mos self) (trace w)) eqn:Hm.
  { rewrite !run_closed_script by done. done. }
  destruct (IO.closed (_run_log self) (trace w)) eqn:Hl.
  { rewrite !run_closed_log by done. cbn [fst snd]. split; [done|].
    unfold Script.run_block. cbn [_mos _command _options _results n_runs clean
                                    set_options].
    by rewrite call_of_drop_None, problem_of_drop_None. }
  rewrite !run_spec by done. cbn [fst snd]. split; [done|].
  unfold Script.run_events, Script.run_block.
  cbn [_mos _run_log _command _options _results n_runs clean set_options
         set_n_runs].
  by rewrite call_of_drop_None, problem_of_drop_None, log_line_drop_None.
Qed.

(** ** Stubs, the shared result list and the generator *)

Lemma dymosim_init_with_results_dir `{Env} working_dir d results options w :
  dymosim.__init__ working_dir (Some d) results options w
  = (Raise (NotImplementedError
              "The dymosim context manager has not yet been implemented."),
     World (trace w) (Script.substituted results (heap w))).
Proof.
  unfold dymosim.__init__, dymosim.dirname_opt, mbind, M_bind, bind, mret, M_ret, ret.
  by rewrite substitute_exe_spec.
Qed.

Lemma fmi_init_not_implemented args kwargs w :
  fmi.__init__ args kwargs w
  = (Raise (NotImplementedError
              "The FMI context manager hasn't been implemented yet."), w).
Proof. reflexivity. Qed.

(** C8.  With its default [results_dir], [dymosim.__init__] fails in
    [os.path.dirname] before it reaches its [raise]: the error is not
    [NotImplementedError]. *)
Theorem dymosim_init_without_results_dir `{Env} working_dir results options w :
  dymosim.__init__ working_dir None results options w
  = (Raise (if dirname_None_TypeError then TypeError else AttributeError), w)
  ∧ ∀ msg, fst (dymosim.__init__ working_dir None results options w)
           ≠ Raise (NotImplementedError msg).
Proof.
  split; [reflexivity|]. intros msg. cbn. by destruct dirname_None_TypeError.
Qed.

(** C9.  The constructor substitutes the executable suffix in the
    list object that it is given and keeps that very object: after a
    construction the object holds the substituted names, and a second
    construction on the same object (the shared default, or a list of
    the caller) works on what the first one left. *)
Theorem init_substitutes_in_place `{Env} fname command working_dir packages options
    fname' command' working_dir' packages' options' results rs w :
  Script.wf (trace w) →
  heap w !! results = Some rs →
  ∃ self w1 self' w2,
    __init__ fname command working_dir results packages options w = (Ok self, w1)
    ∧ _results self = results
    ∧ heap w1 = <[results := map (Str.replace "%x" exe) rs]> (heap w)
    ∧ __init__ fname' command' working_dir' results packages' options' w1
      = (Ok self', w2)
    ∧ _results self' = _results self
    ∧ heap w2
      = <[results := map (Str.replace "%x" exe) (map (Str.replace "%x" exe) rs)]>
          (heap w).
Proof.
  intros Hwf Hrs. do 4 eexists.
  split; [by apply init_spec|]. split; [done|]. cbn [heap].
  split; [unfold Script.substituted; by rewrite Hrs|].
  split; [apply init_spec; cbn [trace]; by apply wf_init|].
  split; [done|]. cbn [heap]. unfold Script.substituted. rewrite Hrs.
  rewrite lookup_insert_eq. by rewrite insert_insert_eq.
Qed.

Section Product.
Import Exps.

Lemma length_flat_map_const {A B} (f : A → list B) (n : nat) (l : list A) :
  (∀ a, length (f a) = n) → length (flat_map f l) = (length l * n)%nat.
Proof.
  intros Hf. induction l as [|a l IH]; [done|].
  cbn [flat_map length]. rewrite length_app, Hf, IH. lia.
Qed.

Lemma lookup_flat_map_const {A B} (f : A → list B) (n : nat) (l : list A) i j x y :
  (∀ a, length (f a) = n) →
  l !! i = Some x → f x !! j = Some y →
  flat_map f l !! (i * n + j)%nat = Some y.
Proof.
  intros Hf. revert i. induction l as [|a l IH]; intros i Hi Hj; [done|].
  cbn [flat_map]. destruct i as [|i].
  - cbn in Hi. injection Hi as ->. cbn [Nat.mul Nat.add].
    by apply lookup_app_l_Some.
  - cbn in Hi. rewrite lookup_app_r; rewrite Hf; [|lia].
    replace (S i * n + j - n)%nat with (i * n + j)%nat by lia.
    by apply IH.
Qed.

Lemma elem_of_flat_map {A B} (f : A → list B) (l : list A) (y : B) :
  y ∈ flat_map f l ↔ ∃ x, x ∈ l ∧ y ∈ f x.
Proof.
  rewrite list_elem_of_In, in_flat_map.
  split; intros (x & Hx & Hy); exists x; by rewrite ?list_elem_of_In in *.
Qed.

Lemma length_product sp : length (product sp) = combinations sp.
Proof.
  induction sp as [|[k c] r IH]; [done|].
  cbn [product combinations foldr snd].
  rewrite (length_flat_map_const _ (length (product r))).
  - by rewrite IH.
  - intros v. by rewrite length_map.
Qed.

Lemma elem_of_product sp : ∀ d, d ∈ product sp ↔ chosen d sp.
Proof.
  unfold chosen.
  induction sp as [|[k c] r IH]; intros d.
  - cbn [product]. rewrite list_elem_of_singleton. split.
    + intros ->. constructor.
    + intros Hd. by inversion Hd.
  - cbn [product]. rewrite elem_of_flat_map. split.
    + intros (v & Hv & Hd). apply list_elem_of_fmap in Hd as (d' & -> & Hd').
      constructor; [done|]. by apply IH.
    + intros Hd. inversion Hd as [|[k' v] kc d' r' [Hk Hv] Hr]; subst.
      cbn [fst snd] in *. subst k'. exists v. split; [done|].
      apply list_elem_of_fmap. exists d'. split; [done|]. by apply IH.
Qed.

Lemma product_order key c r i j v p :
  values_of c !! i = Some v →
  product r !! j = Some p →
  product ((key, c) :: r) !! (i * combinations r + j)%nat = Some ((key, v) :: p).
Proof.
  intros Hi Hj. cbn [product]. rewrite <- length_product.
  apply (lookup_flat_map_const _ _ _ _ _ v); [|done|].
  - intros a. by rewrite length_map.
  - by rewrite list_lookup_fmap, Hj.
Qed.
End Product.

(** C6, amended.  A parameter with an empty sequence of candidates
    makes [gen_experiments] fail, whatever the models and the options.
    When no parameter has one, [gen_experiments] yields one experiment
    per model, per choice of a candidate for each parameter and per
    choice of a candidate for each option: their number is the number
    of models times the numbers of candidates of the parameters times
    those of the options (so the number of models times those of the
    parameters when every option has one candidate).  The experiments
    come in the order of nested loops, the models outermost, then the
    keys of the parameters and of the options in the order of the
    mappings. *)
Theorem gen_experiments_full_factorial models params args :
  (Exps.has_empty params = true ↔ ∃ key, (key, Exps.Listed []) ∈ params)
  ∧ (Exps.has_empty params = true →
     Exps.gen_experiments models params args = None)
  ∧ (Exps.has_empty params = false →
     ∃ exps,
       Exps.gen_experiments models params args = Some exps
       ∧ length exps
         = (length models * Exps.combinations params * Exps.combinations args)%nat
       ∧ (Exps.combinations args = 1%nat →
          length exps = (length models * Exps.combinations params)%nat)
       ∧ (∀ e, e ∈ exps ↔
               Exps.model e ∈ models
               ∧ chosen (Exps.params e) params
               ∧ chosen (Exps.args e) args)
       ∧ (∀ i j k m p a,
            models !! i = Some m →
            Exps.product params !! j = Some p →
            Exps.product args !! k = Some a →
            exps !! ((i * Exps.combinations params + j) * Exps.combinations args
                     + k)%nat
            = Some (Exps.mkExperiment m p a))
       ∧ (∀ key c r i j v p,
            Exps.values_of c !! i = Some v →
            Exps.product r !! j = Some p →
            Exps.product ((key, c) :: r) !! (i * Exps.combinations r + j)%nat
            = Some ((key, v) :: p))).
Proof.
  split.
  { unfold Exps.has_empty. rewrite existsb_exists. split.
    - intros ([key c] & Hin & Hc). exists key. cbn [snd] in Hc.
      destruct c as [v|[|v vs]]; try discriminate Hc. by apply list_elem_of_In.
    - intros (key & Hin). exists (key, Exps.Listed []).
      split; [by apply list_elem_of_In|reflexivity]. }
  split; [intros He; unfold Exps.gen_experiments; by rewrite He|].
  intros Hne. unfold Exps.gen_experiments. rewrite Hne. eexists.
  split; [reflexivity|].
  set (P := Exps.combinations params). set (A := Exps.combinations args).
  assert (Hin : ∀ m p, length (map (fun a => Exps.mkExperiment m p a)
                                  (Exps.product args)) = A).
  { intros. by rewrite length_map, length_product. }
  assert (Hmid : ∀ m,
            length (flat_map (fun p => map (fun a => Exps.mkExperiment m p a)
                                          (Exps.product args))
                      (Exps.product params)) = (P * A)%nat).
  { intros m. rewrite (length_flat_map_const _ A) by (intros; apply Hin).
    by rewrite length_product. }
  assert (Hlen : length (flat_map (fun m =>
                   flat_map (fun p => map (fun a => Exps.mkExperiment m p a)
                                         (Exps.product args))
                     (Exps.product params)) models)
                 = (length models * P * A)%nat).
  { rewrite (length_flat_map_const _ (P * A)) by exact Hmid. lia. }
  split; [exact Hlen|].
  split; [intros HA; rewrite Hlen, HA; lia|].
  split.
  { intros [m p a]. cbn [Exps.model Exps.params Exps.args].
    rewrite elem_of_flat_map. split.
    - intros (m' & Hm & He). apply elem_of_flat_map in He as (p' & Hp & He).
      apply list_elem_of_fmap in He as (a' & He & Ha). injection He as -> -> ->.
      by rewrite <- !elem_of_product.
    - intros (Hm & Hp & Ha). exists m. split; [done|].
      apply elem_of_flat_map. exists p. split; [by apply elem_of_product|].
      apply list_elem_of_fmap. exists a. split; [done|]. by apply elem_of_product. }
  split; [|intros; by apply product_order].
  intros i j k m p a Hi Hj Hk.
  replace ((i * P + j) * A + k)%nat with (i * (P * A) + (j * A + k))%nat by lia.
  apply (lookup_flat_map_const _ _ _ _ _ m); [exact Hmid|done|].
  apply (lookup_flat_map_const _ _ _ _ _ p); [apply Hin|done|].
  by rewrite list_lookup_fmap, Hk.
Qed.

(** ** Evaluations *)

(** C3 as stated fails on a Windows host: the first run of a session
    writes no line that sets [dest] to [destination + "1/"]; the line
    it writes ends the directory name with a backslash. *)
Lemma run_directory_on_windows :
  ∃ self w w',
    @__init__ Host.nt default_fname default_command None default_results [] []
      loaded = (Ok self, w)
    ∧ @run Host.nt (Some "ModelX") [("L.L", VInt 21)] (self, w)
      = (Ok tt, (set_n_runs 1 self, w'))
    ∧ (Str.cat ["    dest = destination + "; Str.quoted "1/"; ";"; Str.nl]
       ∉ IO.written (_mos self) (trace w'))
    ∧ (Str.cat ["    dest = destination + "; Str.quoted ("1" +:+ Str.backslash);
                ";"; Str.nl]
       ∈ IO.written (_mos self) (trace w')).
Proof.
  do 3 eexists. split; [vm_compute; reflexivity|].
  split; [vm_compute; reflexivity|].
  split; apply (bool_decide_unpack _); vm_compute; reflexivity.
Qed.

(** C5 as stated fails for the name [run]: the assignment stores 5 in
    the option set, and reading [run] still gives the method. *)
Lemma assigned_run_reads_the_method :
  ∃ self w self',
    @__init__ Host.posix default_fname default_command None default_results [] []
      loaded = (Ok self, w)
    ∧ is_known "run" = false
    ∧ __setattr__ "run" (PData (VInt 5)) (self, w) = (Ok tt, (self', w))
    ∧ Dict.get (_options self') "run" = Some (VInt 5)
    ∧ @getattr Host.posix "run" (self', w) = (Ok (PMethod "run"), (self', w))
    ∧ @getattr Host.posix "run" (self', w) ≠ (Ok (PData (VInt 5)), (self', w)).
Proof.
  do 3 eexists. split; [vm_compute; reflexivity|].
  split; [reflexivity|]. split; [vm_compute; reflexivity|].
  split; [reflexivity|]. split; [reflexivity|]. discriminate.
Qed.

(** C10 as stated fails for the name [run]: it is no internal field
    and no key of the option set, and reading it raises nothing. *)
Lemma reading_run_does_not_raise :
  ∃ self w,
    @__init__ Host.posix default_fname default_command None default_results [] []
      loaded = (Ok self, w)
    ∧ is_known "run" = false
    ∧ Dict.get (_options self) "run" = None
    ∧ @getattr Host.posix "run" (self, w) = (Ok (PMethod "run"), (self, w))
    ∧ @getattr Host.posix "run" (self, w) ≠ (Raise (KeyError "run"), (self, w)).
Proof.
  do 2 eexists. split; [vm_compute; reflexivity|].
  split; [reflexivity|]. split; [reflexivity|]. split; [reflexivity|]. discriminate.
Qed.

(** C6 as stated fails twice: two candidates for an option double the
    number of experiments, and an empty sequence of candidates makes
    the generator fail instead of yielding no experiment. *)
Lemma gen_experiments_other_counts :
  (∃ exps,
     Exps.gen_experiments ["ModelX"]
       [("L.L", Exps.Listed [VInt 15; VInt 21])]
       [("stopTime", Exps.Listed [VInt 250; VInt 2500])] = Some exps
     ∧ length exps = 4%nat
     ∧ (length ["ModelX"]
        * Exps.combinations [("L.L", Exps.Listed [VInt 15; VInt 21])])%nat = 2%nat)
  ∧ Exps.gen_experiments ["ModelX"] [("L.L", Exps.Listed [])] [] = None.
Proof.
  split; [|reflexivity]. eexists. split; [reflexivity|]. split; reflexivity.
Qed.

(** On the POSIX host the constructor with its defaults, in a freshly
    loaded module, returns [started]. *)
Example started_is_constructed :
  @__init__ Host.posix default_fname default_command None default_results [] []
    loaded = (Ok (fst (@started Host.posix)), snd (@started Host.posix)).
Proof. vm_compute. reflexivity. Qed.

(** The run log of the two example runs with [stopTime=2500], on the
    POSIX host. *)
Lemma run_log_numbers_runs_witness :
  Script.wf (trace loaded)
  ∧ forallb quiet two_runs = true
  ∧ ∃ self0 w0 self w',
      @__init__ Host.posix default_fname default_command None default_results []
        [("stopTime", VInt 2500)] loaded = (Ok self0, w0)
      ∧ @block Host.posix two_runs (self0, w0) = (Ok tt, (self, w'))
      ∧ n_runs self = 2
      ∧ IO.written (_run_log self) (trace w')
        = [Str.cat ["Run #"; Str.tab; "Command"; Str.tab; "Options"; Str.tab;
                    "Model & parameters"; Str.nl];
           Str.cat ["1"; Str.tab; "simulateModel"; Str.tab; "stopTime=2500"; Str.tab;
                    "ModelX(L.L=21)"; Str.nl];
           Str.cat ["2"; Str.tab; "simulateModel"; Str.tab; "stopTime=2500"; Str.tab;
                    "ModelX(L.L=15)"; Str.nl]]
      ∧ map run_number (tail (IO.written (_run_log self) (trace w')))
        = [Some 1; Some 2].
Proof.
  assert (Hwf : Script.wf (trace loaded)) by (intros h _; split; reflexivity).
  split; [exact Hwf|]. split; [reflexivity|].
  destruct (@run_log_numbers_runs Host.posix default_fname default_command None
              default_results [] [("stopTime", VInt 2500)] two_runs loaded
              Hwf eq_refl)
    as (self0 & w0 & self & w' & Hi & _ & Hb & Hn & _ & Hlog & Hnum).
  exists self0, w0, self, w'. split; [exact Hi|]. split; [exact Hb|].
  split; [exact Hn|]. split; [rewrite Hlog; reflexivity|exact Hnum].
Defined.

(** A session whose body raises between two runs: it still ends with
    the exit line and the two closes. *)
Lemma exit_writes_then_closes_witness :
  Script.wf (trace loaded)
  ∧ forallb plain [Run (Some "ModelX") []; Read "stopTime"; Run (Some "ModelX") []]
    = true
  ∧ ∃ r self w',
      _mos self = 0%nat
      ∧ _run_log self = 1%nat
      ∧ @block Host.posix
          [Run (Some "ModelX") []; Read "stopTime"; Run (Some "ModelX") []]
          (@started Host.posix) = (r, (self, w'))
      ∧ with_ (@__init__ Host.posix default_fname default_command None
                 default_results [] [])
          (@block Host.posix
             [Run (Some "ModelX") []; Read "stopTime"; Run (Some "ModelX") []])
          loaded
        = (r,
           World (trace w'
                  ++ [EWrite 0%nat (Str.cat ["exit();"; Str.nl]);
                      EClose 0%nat;
                      EClose 1%nat;
                      EPrint "Finished writing the Dymola script."])%list
                 (heap w')).
Proof.
  assert (Hwf : Script.wf (trace loaded)) by (intros h _; split; reflexivity).
  split; [exact Hwf|]. split; [reflexivity|].
  destruct (@exit_writes_then_closes Host.posix default_fname default_command None
              default_results [] []
              [Run (Some "ModelX") []; Read "stopTime"; Run (Some "ModelX") []]
              loaded Hwf eq_refl)
    as (self0 & w0 & r & self & w' & Hi & Hb & Hm & Hl & _ & Hw).
  rewrite started_is_constructed in Hi. injection Hi as <- <-.
  exists r, self, w'. rewrite Hm, Hl in Hw.
  split; [exact Hm|]. split; [exact Hl|]. split; [exact Hb|]. exact Hw.
Defined.

(** The run log of the second example of the class documentation:
    the option [stopTime] is set to 250 and to 2500 between two runs. *)
Example documented_run_log :
  IO.written 1%nat
    (trace (snd (@session Host.posix []
                   [Assign "stopTime" (PData (VInt 250)); Run (Some chua) [];
                    Assign "stopTime" (PData (VInt 2500)); Run (Some chua) []]
                   loaded)))
  = [Str.cat ["Run #"; Str.tab; "Command"; Str.tab; "Options"; Str.tab;
              "Model & parameters"; Str.nl];
     Str.cat ["1"; Str.tab; "simulateModel"; Str.tab; "stopTime=250"; Str.tab;
              chua; Str.nl];
     Str.cat ["2"; Str.tab; "simulateModel"; Str.tab; "stopTime=2500"; Str.tab;
              chua; Str.nl]].
Proof. vm_compute. reflexivity. Qed.

(** A body whose read of an option that was never set raises: the
    session ends with that [KeyError]. *)
Example session_with_failing_read :
  fst (@session Host.posix []
         [Run (Some "ModelX") []; Read "stopTime"; Run (Some "ModelX") []] loaded)
  = Raise (KeyError "stopTime").
Proof. vm_compute. reflexivity. Qed.

(** The two example runs right after construction on the POSIX host:
    blocks 1 and 2, each with the five result files, into [1/] and
    [2/], and two log lines. *)
Lemma run_appends_numbered_block_witness :
  IO.closed (_mos fresh_writer) (trace (snd (@started Host.posix))) = false
  ∧ IO.closed (_run_log fresh_writer) (trace (snd (@started Host.posix))) = false
  ∧ _mos fresh_writer ≠ _run_log fresh_writer
  ∧ ∃ w1 w2,
      @run Host.posix (Some "ModelX") [("L.L", VInt 21)] (@started Host.posix)
      = (Ok tt, (set_n_runs 1 fresh_writer, w1))
      ∧ @run Host.posix (Some "ModelX") [("L.L", VInt 15)]
          (set_n_runs 1 fresh_writer, w1)
        = (Ok tt, (set_n_runs 2 fresh_writer, w2))
      ∧ skipn 6 (IO.written 0%nat (trace w2))
        = [Str.cat ["// Run 1"; Str.nl];
           Str.cat ["ok = simulateModel(problem="; Str.quoted "ModelX(L.L=21)"; ");";
                    Str.nl];
           Str.cat ["if ok then"; Str.nl];
           Str.cat ["    savelog();"; Str.nl];
           Str.cat ["    dest = destination + "; Str.quoted "1/"; ";"; Str.nl];
           Str.cat ["    createDirectory(dest);"; Str.nl];
           copy_line "dsin.txt"; copy_line "dslog.txt"; copy_line "dsres.mat";
           copy_line "dymolalg.txt"; copy_line "dymosim";
           Str.cat ["end if;"; Str.nl];
           Str.cat ["clearlog();"; Str.nl; Str.nl];
           Str.cat ["// Run 2"; Str.nl];
           Str.cat ["ok = simulateModel(problem="; Str.quoted "ModelX(L.L=15)"; ");";
                    Str.nl];
           Str.cat ["if ok then"; Str.nl];
           Str.cat ["    savelog();"; Str.nl];
           Str.cat ["    dest = destination + "; Str.quoted "2/"; ";"; Str.nl];
           Str.cat ["    createDirectory(dest);"; Str.nl];
           copy_line "dsin.txt"; copy_line "dslog.txt"; copy_line "dsres.mat";
           copy_line "dymolalg.txt"; copy_line "dymosim";
           Str.cat ["end if;"; Str.nl];
           Str.cat ["clearlog();"; Str.nl; Str.nl]]
      ∧ IO.written 1%nat (trace w2)
        = [log_header;
           Str.cat ["1"; Str.tab; "simulateModel"; Str.tab; Str.tab;
                    "ModelX(L.L=21)"; Str.nl];
           Str.cat ["2"; Str.tab; "simulateModel"; Str.tab; Str.tab;
                    "ModelX(L.L=15)"; Str.nl]].
Proof.
  split; [reflexivity|]. split; [reflexivity|]. split; [discriminate|].
  destruct (@run_appends_numbered_block Host.posix fresh_writer
              (snd (@started Host.posix)) (Some "ModelX") [("L.L", VInt 21)]
              (Some "ModelX") [("L.L", VInt 15)] eq_refl eq_refl)
    as (w1 & w2 & Hr1 & _ & _ & Hr2 & Hm & Hl & _ & _); [discriminate|].
  exists w1, w2. split; [exact Hr1|]. split; [exact Hr2|].
  split.
  - change (_mos fresh_writer) with 0%nat in Hm. rewrite Hm. reflexivity.
  - change (_run_log fresh_writer) with 1%nat in Hl. rewrite Hl. reflexivity.
Defined.

(** The files of a session without runs, on the POSIX host. *)
Lemma empty_session_files_witness :
  Script.wf (trace loaded)
  ∧ ∃ w',
      @session Host.posix [] [] loaded = (Ok tt, w')
      ∧ IO.written 0%nat (trace w')
        = [Str.cat ["// Dymola script written by ModelicaRes 2012-10-11"; Str.nl];
           Str.cat ["import Modelica.Utilities.Files.copy;"; Str.nl];
           Str.cat ["import Modelica.Utilities.Files.createDirectory;"; Str.nl];
           Str.cat ["Advanced.TranslationInCommandLog = true ";
                    Str.quoted "Also include translation log in command log";
                    ";"; Str.nl];
           Str.cat ["cd("; Str.quoted "/home/user"; ");"; Str.nl];
           Str.cat ["destination = "; Str.quoted "/home/user/"; ";"; Str.nl; Str.nl];
           Str.cat ["exit();"; Str.nl]]
      ∧ IO.written 1%nat (trace w')
        = [Str.cat ["Run #"; Str.tab; "Command"; Str.tab; "Options"; Str.tab;
                    "Model & parameters"; Str.nl]].
Proof.
  assert (Hwf : Script.wf (trace loaded)) by (intros h _; split; reflexivity).
  split; [exact Hwf|].
  destruct (@empty_session_files Host.posix default_fname default_command None
              default_results [] [] loaded Hwf)
    as (w' & Hs & Hm & Hl & _ & _).
  exists w'. split; [exact Hs|]. split.
  - change (IO.fresh (trace loaded)) with 0%nat in Hm. rewrite Hm. reflexivity.
  - change (S (IO.fresh (trace loaded))) with 1%nat in Hl. rewrite Hl. reflexivity.
Defined.

(** Setting [stopTime] after construction: it is read back, and the
    next run passes it to the command. *)
Lemma option_assignment_feeds_runs_witness :
  is_known "stopTime" = false
  ∧ ∃ self' w2,
      __setattr__ "stopTime" (PData (VInt 250)) (@started Host.posix)
      = (Ok tt, (self', snd (@started Host.posix)))
      ∧ @getattr Host.posix "stopTime" (self', snd (@started Host.posix))
        = (Ok (PData (VInt 250)), (self', snd (@started Host.posix)))
      ∧ snd (snd (@block Host.posix [Run (Some "ModelX") []]
                    (self', snd (@started Host.posix)))) = w2
      ∧ IO.written 0%nat (trace w2) !! 7%nat
        = Some (Str.cat ["ok = simulateModel(stopTime=250, problem=";
                         Str.quoted "ModelX"; ");"; Str.nl]).
Proof.
  split; [reflexivity|].
  destruct (@option_assignment_feeds_runs Host.posix fresh_writer
              (snd (@started Host.posix)) "stopTime" (VInt 250) eq_refl)
    as (Hs & _ & Hruns & Hread).
  destruct (Hruns [Run (Some "ModelX") []] (snd (@started Host.posix))
              eq_refl eq_refl eq_refl)
    as (self2 & w2 & Hb & _ & Hm & _); [discriminate|].
  exists (set_options (Dict.set (_options fresh_writer) "stopTime" (VInt 250))
            fresh_writer), w2.
  split; [exact Hs|]. split; [exact (Hread eq_refl eq_refl)|].
  split; [by rewrite Hb|].
  change (_mos fresh_writer) with 0%nat in Hm. rewrite Hm. reflexivity.
Defined.

(** Reading [stopTime] when no such option was given. *)
Lemma unknown_attribute_raises_KeyError_witness :
  is_known "stopTime" = false
  ∧ Dict.get (_options fresh_writer) "stopTime" = None
  ∧ existsb (String.eqb "stopTime") class_attrs = false
  ∧ existsb (String.eqb "stopTime") (@object_attrs Host.posix) = false
  ∧ @getattr Host.posix "stopTime" (@started Host.posix)
    = (Raise (KeyError "stopTime"), @started Host.posix).
Proof.
  split; [reflexivity|]. split; [reflexivity|]. split; [reflexivity|].
  split; [reflexivity|].
  exact (proj1 (@unknown_attribute_raises_KeyError Host.posix fresh_writer
                  (snd (@started Host.posix)) "stopTime"
                  eq_refl eq_refl eq_refl eq_refl)).
Defined.

(** The experiments of the Chua circuit example, in order; and the
    same call with no candidate for [L.L]. *)
Lemma gen_experiments_full_factorial_witness :
  Exps.has_empty [("L.L", Exps.Listed [VInt 15; VInt 21])] = false
  ∧ (∃ exps,
       Exps.gen_experiments [chua] [("L.L", Exps.Listed [VInt 15; VInt 21])]
         [("stopTime", Exps.Listed [VInt 2500])] = Some exps
       ∧ length exps = 2%nat
       ∧ exps !! 0%nat
         = Some (Exps.mkExperiment chua [("L.L", VInt 15)] [("stopTime", VInt 2500)])
       ∧ exps !! 1%nat
         = Some (Exps.mkExperiment chua [("L.L", VInt 21)]
                   [("stopTime", VInt 2500)]))
  ∧ Exps.has_empty [("L.L", Exps.Listed [])] = true
  ∧ Exps.gen_experiments [chua] [("L.L", Exps.Listed [])]
      [("stopTime", Exps.Listed [VInt 2500])] = None.
Proof.
  split; [reflexivity|]. split.
  - destruct (proj2 (proj2 (gen_experiments_full_factorial [chua]
                              [("L.L", Exps.Listed [VInt 15; VInt 21])]
                              [("stopTime", Exps.Listed [VInt 2500])])) eq_refl)
      as (exps & Hg & Hlen & _ & _ & Hidx & _).
    exists exps. split; [exact Hg|]. split; [exact Hlen|]. split.
    + exact (Hidx 0%nat 0%nat 0%nat chua [("L.L", VInt 15)] [("stopTime", VInt 2500)]
               eq_refl eq_refl eq_refl).
    + exact (Hidx 0%nat 1%nat 0%nat chua [("L.L", VInt 21)] [("stopTime", VInt 2500)]
               eq_refl eq_refl eq_refl).
  - split; [reflexivity|].
    exact (proj1 (proj2 (gen_experiments_full_factorial [chua]
                           [("L.L", Exps.Listed [])]
                           [("stopTime", Exps.Listed [VInt 2500])])) eq_refl).
Defined.

(** A run with an absent parameter and an absent option writes what
    the run without them writes. *)
Lemma absent_entries_are_omitted_witness :
  Dict.get [("stopTime", VNone); ("tolerance", VInt 1)] "problem" ≠ Some VNone
  ∧ ParamDict.str [("L.L", VNone); ("C1.C", VInt 8)] = "(C1.C=8)"
  ∧ snd (snd (@run Host.posix (Some "ModelX") [("L.L", VNone); ("C1.C", VInt 8)]
                (set_options [("stopTime", VNone); ("tolerance", VInt 1)]
                   fresh_writer, snd (@started Host.posix))))
    = snd (snd (@run Host.posix (Some "ModelX") [("C1.C", VInt 8)]
                  (set_options [("tolerance", VInt 1)] fresh_writer,
                   snd (@started Host.posix)))).
Proof.
  split; [discriminate|].
  destruct (@absent_entries_are_omitted Host.posix
              (set_options [("stopTime", VNone); ("tolerance", VInt 1)] fresh_writer)
              (snd (@started Host.posix)) (Some "ModelX")
              [("L.L", VNone); ("C1.C", VInt 8)])
    as (Hp & _ & _ & Hrun).
  split; [rewrite <- Hp; reflexivity|].
  destruct Hrun as [_ Hw]; [discriminate|]. exact Hw.
Defined.

(** Two constructions with the default result list on the Windows
    host: both hold the one default object, which names
    [dymosim.exe] from the first construction on. *)
Lemma init_substitutes_in_place_witness :
  Script.wf (trace loaded)
  ∧ heap loaded !! default_results = Some default_results_value
  ∧ ∃ self w1 self' w2,
      @__init__ Host.nt default_fname default_command None default_results [] []
        loaded = (Ok self, w1)
      ∧ @__init__ Host.nt "other.mos" "linearizeModel" None default_results [] []
          w1 = (Ok self', w2)
      ∧ _results self = default_results
      ∧ _results self' = default_results
      ∧ heap w1 !! default_results
        = Some ["dsin.txt"; "dslog.txt"; "dsres.mat"; "dymolalg.txt"; "dymosim.exe"]
      ∧ heap w2 !! default_results
        = Some ["dsin.txt"; "dslog.txt"; "dsres.mat"; "dymolalg.txt"; "dymosim.exe"].
Proof.
  assert (Hwf : Script.wf (trace loaded)) by (intros h _; split; reflexivity).
  split; [exact Hwf|]. split; [reflexivity|].
  destruct (@init_substitutes_in_place Host.nt default_fname default_command None
              [] [] "other.mos" "linearizeModel" None [] [] default_results
              default_results_value loaded Hwf eq_refl)
    as (self & w1 & self' & w2 & H1 & Hr & Hh1 & H2 & Hr' & Hh2).
  exists self, w1, self', w2.
  split; [exact H1|]. split; [exact H2|]. split; [exact Hr|].
  split; [by rewrite Hr'|].
  split; [rewrite Hh1|rewrite Hh2]; by rewrite lookup_insert_eq.
Defined.

(** * Further properties of the code *)

(** ** Whole sessions *)

Section Sessions.
Context `{Env}.

Lemma substituted_lookup results (hp : gmap loc (list string)) :
  default [] (Script.substituted results hp !! results)
  = map (Str.replace "%x" exe) (default [] (hp !! results)).
Proof.
  unfold Script.substituted. destruct (hp !! results) as [rs|] eqn:Hrs.
  - by rewrite lookup_insert_eq.
  - by rewrite Hrs.
Qed.

Lemma session_quiet fname command working_dir results packages options body w :
  Script.wf (trace w) →
  forallb quiet body = true →
  let self0 := Self results command options (IO.fresh (trace w))
                 (S (IO.fresh (trace w))) 0 in
  let rs := map (Str.replace "%x" exe) (default [] (heap w !! results)) in
  with_ (__init__ fname command working_dir results packages options)
    (block body) w
  = (Ok tt,
     World (trace w
            ++ Script.init_events (IO.fresh (trace w)) fname working_dir packages
            ++ Script.body_events self0 rs body
            ++ Script.exit_events self0)%list
           (Script.substituted results (heap w))).
Proof.
  intros Hwf Hq self0 rs.
  destruct (Hwf (IO.fresh (trace w))) as [Hc _]; [lia|].
  destruct (Hwf (S (IO.fresh (trace w)))) as [Hc' _]; [lia|].
  unfold with_. rewrite init_spec by done. fold self0.
  unfold __enter__, get_self. cbn [fst snd].
  rewrite block_quiet; [|done|cbn [_mos _run_log self0 trace]..].
  - cbn [trace heap _results self0]. rewrite substituted_lookup. fold rs.
    rewrite exit_spec.
    + cbn [trace heap snd]. do 2 f_equal. rewrite <- !app_assoc. do 3 f_equal.
      unfold Script.exit_events.
      destruct (after_files body self0) as (_ & _ & -> & ->). reflexivity.
    + cbn [trace]. destruct (after_files body self0) as (_ & _ & -> & _).
      cbn [_mos self0].
      by rewrite !closed_app, Hc, init_events_closed, body_events_closed.
  - by rewrite closed_app, Hc, init_events_closed.
  - by rewrite closed_app, Hc', init_events_closed.
Qed.
End Sessions.

Section Printed.
Context `{Env}.

Lemma printed_app t1 t2 : printed (t1 ++ t2)%list = (printed t1 ++ printed t2)%list.
Proof. unfold printed. apply omap_app. Qed.

Lemma printed_writes h (l : list string) : printed (map (EWrite h) l) = [].
Proof. induction l as [|x l IH]; [done|]. exact IH. Qed.

Lemma printed_init_events k fname working_dir packages :
  printed (Script.init_events k fname working_dir packages)
  = ["Starting to write the Dymola script..."].
Proof.
  unfold Script.init_events. rewrite !printed_app, printed_writes. reflexivity.
Qed.

Lemma printed_run_events self n problem results :
  printed (Script.run_events self n problem results)
  = [Str.cat ["Run "; Str.of_int n; ":  ";
              call_of (_command self) (_options self) problem]].
Proof.
  unfold Script.run_events. rewrite printed_app, printed_writes. reflexivity.
Qed.

Lemma printed_body_events results body : ∀ self,
  printed (Script.body_events self results body)
  = imap (fun i op => Str.cat ["Run "; Str.of_int (n_runs self + Z.of_nat (S i));
                               ":  "; call_of (_command self) (fst op) (snd op)])
      (Script.runs_seen body (_options self)).
Proof.
  induction body as [|s body IH]; intros self; [done|].
  destruct s as [model params|attr x|attr|e];
    cbn [Script.body_events Script.runs_seen]; try by apply IH.
  - rewrite printed_app, printed_run_events, IH.
    cbn [imap app fst snd _command _options set_n_runs n_runs].
    f_equal. apply imap_ext. intros i op _. unfold compose.
    replace (n_runs self + 1 + Z.of_nat (S i)) with (n_runs self + Z.of_nat (S (S i)))
      by lia.
    reflexivity.
  - destruct x; try by apply IH. destruct (is_known attr); [by apply IH|].
    by rewrite IH.
Qed.
End Printed.

Lemma session_quiet_script `{Env} fname command working_dir results packages
    options body w :
  Script.wf (trace w) →
  let wd := match working_dir with None => getcwd | Some d => expand_path d end in
  let rs := map (Str.replace "%x" exe) (default [] (heap w !! results)) in
  let self0 := Self results command options (IO.fresh (trace w))
                 (S (IO.fresh (trace w))) 0 in
  IO.written (IO.fresh (trace w))
    (trace w
     ++ Script.init_events (IO.fresh (trace w)) fname working_dir packages
     ++ Script.body_events self0 rs body
     ++ Script.exit_events self0)%list
  = (Script.header_lines wd
     ++ flat_map (Script.package_lines wd) packages
     ++ [Script.destination_line (path_dirname (expand_path fname))]
     ++ concat (imap (fun i op =>
                  Script.run_block (Z.of_nat (S i)) command (fst op) (snd op) rs)
                (Script.runs_seen body options))
     ++ [Script.exit_line])%list.
Proof.
  intros Hwf wd rs self0.
  destruct (Hwf (IO.fresh (trace w))) as [_ Hw]; [lia|].
  rewrite !written_app, Hw, init_events_written_mos.
  pose proof (body_events_written_mos rs body self0) as Hb.
  cbn [_mos _run_log n_runs _command _options self0] in Hb.
  rewrite Hb by lia.
  unfold Script.exit_events. cbn [_mos _run_log self0].
  rewrite written_cons_write_eq, written_cons_close, written_cons_close,
    written_cons_print, written_nil.
  cbn [app n_runs _command _options]. rewrite <- !app_assoc. reflexivity.
Qed.


(** X2.  Such a session prints the start message, one line
    [Run i:  call] per [run] call and the end message, in this order
    after what was printed before; the call text of each printed line
    is the one that the script assigns to [ok]. *)
Theorem session_prints_each_call `{Env} fname command working_dir results packages
    options body w :
  Script.wf (trace w) →
  forallb quiet body = true →
  ∃ w',
    with_ (__init__ fname command working_dir results packages options)
      (block body) w = (Ok tt, w')
    ∧ printed (trace w')
      = (printed (trace w)
         ++ ["Starting to write the Dymola script..."]
         ++ imap (fun i op =>
                    Str.cat ["Run "; Str.of_int (Z.of_nat (S i)); ":  ";
                             command
                             +:+ ParamDict.str (Dict.set (fst op) "problem"
                                                  (value_of (snd op)))])
              (Script.runs_seen body options)
         ++ ["Finished writing the Dymola script."])%list
    ∧ (∀ i op,
         Script.runs_seen body options !! i = Some op →
         Str.cat ["ok = ";
                  command
                  +:+ ParamDict.str (Dict.set (fst op) "problem" (value_of (snd op)));
                  ";"; Str.nl]
         ∈ IO.written (IO.fresh (trace w)) (trace w')).
Proof.
  intros Hwf Hq.
  eexists. split; [by apply session_quiet|]. cbn [trace]. split.
  - rewrite !printed_app, printed_init_events, printed_body_events.
    reflexivity.
  - intros i op Hop. rewrite session_quiet_script by done.
    rewrite !elem_of_app. right. right. right. left.
    apply list_elem_of_In, in_concat. eexists. split.
    { apply list_elem_of_In, list_elem_of_lookup. exists i.
      rewrite list_lookup_imap, Hop. reflexivity. }
    unfold Script.run_block, call_of. cbn [app In]. tauto.
Qed.

(** ** What a session leaves alone *)

Section Own.
Context `{Env}.

Lemma own_event_same self self' e :
  Script.same_files self self' → own_event self e → own_event self' e.
Proof. intros (_ & _ & Hm & Hl). destruct e; cbn; rewrite ?Hm, ?Hl; done. Qed.

Lemma own_writes self (l : list string) :
  Forall (own_event self) (map (EWrite (_mos self)) l).
Proof. induction l; constructor; [by left|done]. Qed.

Lemma own_run_events self n problem results :
  Forall (own_event self) (Script.run_events self n problem results).
Proof.
  unfold Script.run_events. apply Forall_app. split; [apply own_writes|].
  constructor; [by right|]. constructor; [done|]. constructor.
Qed.

Lemma own_fresh self evs : Forall (own_event self) evs → IO.fresh evs = O.
Proof.
  induction 1 as [|e evs He _ IH]; [done|].
  change (e :: evs) with ([e] ++ evs)%list. rewrite fresh_app, IH.
  by destruct e.
Qed.

Lemma own_closed self evs h : Forall (own_event self) evs → IO.closed h evs = false.
Proof.
  induction 1 as [|e evs He _ IH]; [done|].
  change (e :: evs) with ([e] ++ evs)%list. rewrite closed_app, IH.
  by destruct e.
Qed.

Lemma own_written self evs h :
  Forall (own_event self) evs → h ≠ _mos self → h ≠ _run_log self →
  IO.written h evs = [].
Proof.
  intros Hown Hm Hl. induction Hown as [|e evs He _ IH]; [done|].
  change (e :: evs) with ([e] ++ evs)%list. rewrite written_app, IH, app_nil_r.
  destruct e; try done. unfold IO.written. cbn.
  destruct (Nat.eqb_spec h h0); [|done]. subst. by destruct He.
Qed.

Lemma exec_plain_own s self w :
  plain s = true →
  IO.closed (_mos self) (trace w) = false →
  IO.closed (_run_log self) (trace w) = false →
  ∃ r self' evs,
    exec s (self, w) = (r, (self', World (trace w ++ evs)%list (heap w)))
    ∧ Script.same_files self self'
    ∧ Forall (own_event self) evs.
Proof.
  intros Hs Hm Hl.
  destruct s as [model params|attr x|attr|e]; cbn [exec].
  - rewrite run_spec by done. do 3 eexists. split; [reflexivity|].
    split; [done|].
    apply (Forall_impl _ _ _ (own_run_events _ _ _ _)).
    intros e. by destruct e.
  - destruct x as [v| | | |]; try discriminate Hs.
    cbn [plain] in Hs. apply negb_true_iff in Hs.
    rewrite setattr_option by done.
    exists (Ok tt), (set_options (Dict.set (_options self) attr v) self), [].
    rewrite app_nil_r, world_eta. done.
  - pose proof (getattr_state attr (self, w)) as Hst.
    unfold mbind, M_bind, bind. destruct (getattr attr (self, w)) as [[x|e] st];
      cbn [snd] in Hst; subst st.
    + exists (Ok tt), self, []. rewrite app_nil_r, world_eta. done.
    + exists (Raise e), self, []. rewrite app_nil_r, world_eta. done.
  - exists (Raise e), self, []. rewrite app_nil_r, world_eta. done.
Qed.

Lemma block_plain_own body : ∀ self w,
  forallb plain body = true →
  IO.closed (_mos self) (trace w) = false →
  IO.closed (_run_log self) (trace w) = false →
  ∃ r self' evs,
    block body (self, w) = (r, (self', World (trace w ++ evs)%list (heap w)))
    ∧ Script.same_files self self'
    ∧ Forall (own_event self) evs.
Proof.
  unfold block.
  induction body as [|s body IH]; intros self w Hp Hm Hl.
  - exists (Ok tt), self, []. cbn. unfold ret. rewrite app_nil_r, world_eta. done.
  - cbn [forallb] in Hp. apply andb_prop in Hp as [Hs Hp].
    destruct (exec_plain_own s self w Hs Hm Hl) as (r & self1 & evs1 & He & Hf & Ho).
    cbn [for_each]. unfold bind. rewrite He.
    destruct r as [[]|e].
    + pose proof Hf as (Hr & Hcmd & Hmos & Hlog).
      destruct (IH self1 (World (trace w ++ evs1)%list (heap w)) Hp)
        as (r2 & self2 & evs2 & He2 & Hf2 & Ho2).
      * cbn [trace]. by rewrite Hmos, closed_app, Hm, (own_closed self).
      * cbn [trace]. by rewrite Hlog, closed_app, Hl, (own_closed self).
      * cbn [trace heap] in He2. rewrite He2.
        exists r2, self2, (evs1 ++ evs2)%list. rewrite app_assoc.
        split; [reflexivity|]. split.
        -- destruct Hf2 as (? & ? & ? & ?). unfold Script.same_files.
           by repeat split; congruence.
        -- apply Forall_app. split; [done|].
           apply (Forall_impl _ _ _ Ho2). intros e.
           apply own_event_same. destruct Hf as (? & ? & ? & ?).
           unfold Script.same_files. by repeat split.
    + exists (Raise e), self1, evs1. done.
Qed.
End Own.

Section Opened.
Context `{Env}.

Lemma opened_app t1 t2 : opened (t1 ++ t2)%list = (opened t1 ++ opened t2)%list.
Proof. apply omap_app. Qed.

Lemma opened_writes h (l : list string) : opened (map (EWrite h) l) = [].
Proof. by induction l. Qed.

Lemma opened_init_events k fname working_dir packages :
  opened (Script.init_events k fname working_dir packages)
  = [(k, expand_path fname);
     (S k, path_join (path_dirname (expand_path fname)) "runs.tsv")].
Proof.
  unfold Script.init_events. rewrite !opened_app, opened_writes. reflexivity.
Qed.

Lemma own_opened self evs : Forall (own_event self) evs → opened evs = [].
Proof.
  induction 1 as [|e evs He _ IH]; [done|]. destruct e; try done.
Qed.

Lemma init_events_writes k fname working_dir packages h text :
  EWrite h text ∈ Script.init_events k fname working_dir packages →
  h = k ∨ h = S k.
Proof.
  unfold Script.init_events. rewrite !elem_of_app, !elem_of_cons, list_elem_of_fmap.
  intros [[?|[?|?]]|[(y & Hy & _)|[?|[Hw|?]]]]; try discriminate;
    try (by exfalso; eapply not_elem_of_nil).
  - injection Hy as -> _. by left.
  - injection Hw as -> _. by right.
Qed.

Lemma init_events_closes k fname working_dir packages h :
  EClose h ∉ Script.init_events k fname working_dir packages.
Proof.
  unfold Script.init_events. rewrite !elem_of_app, !elem_of_cons, list_elem_of_fmap.
  intros [[?|[?|?]]|[(y & Hy & _)|[?|[Hw|?]]]]; try discriminate;
    by eapply not_elem_of_nil.
Qed.
End Opened.

(** X3.  What a session does to files, whether its body succeeded
    or raised.  It opens two paths for writing, the script and
    [runs.tsv] in the script's directory, and so empties whatever they
    held; it writes through these two handles only; it closes both,
    and no other; handles given out before it stay as open or closed
    as they were; no list other than the result list changes, and the
    trace stays well formed. *)
Theorem session_closes_what_it_opens `{Env} fname command working_dir results
    packages options body w :
  Script.wf (trace w) →
  forallb plain body = true →
  ∃ r w' new,
    with_ (__init__ fname command working_dir results packages options)
      (block body) w = (r, w')
    ∧ trace w' = (trace w ++ new)%list
    ∧ opened new
      = [(IO.fresh (trace w), expand_path fname);
         (S (IO.fresh (trace w)),
          path_join (path_dirname (expand_path fname)) "runs.tsv")]
    ∧ IO.fresh (trace w') = S (S (IO.fresh (trace w)))
    ∧ (∀ h text, EWrite h text ∈ new →
                 h = IO.fresh (trace w) ∨ h = S (IO.fresh (trace w)))
    ∧ (∀ h, EClose h ∈ new ↔ h = IO.fresh (trace w) ∨ h = S (IO.fresh (trace w)))
    ∧ IO.closed (IO.fresh (trace w)) (trace w') = true
    ∧ IO.closed (S (IO.fresh (trace w))) (trace w') = true
    ∧ (∀ h, (h < IO.fresh (trace w))%nat →
            IO.closed h (trace w') = IO.closed h (trace w))
    ∧ (∀ l, l ≠ results → heap w' !! l = heap w !! l)
    ∧ Script.wf (trace w').
Proof.
  intros Hwf Hp.
  destruct (Hwf (IO.fresh (trace w))) as [Hc _]; [lia|].
  destruct (Hwf (S (IO.fresh (trace w)))) as [Hc' _]; [lia|].
  set (k := IO.fresh (trace w)) in *.
  set (self0 := Self results command options k (S k) 0).
  set (ie := Script.init_events k fname working_dir packages).
  set (w0 := World (trace w ++ ie)%list (Script.substituted results (heap w))).
  assert (Hm0 : IO.closed (_mos self0) (trace w0) = false).
  { unfold self0, w0, ie. cbn [_mos trace].
    by rewrite closed_app, Hc, init_events_closed. }
  assert (Hl0 : IO.closed (_run_log self0) (trace w0) = false).
  { unfold self0, w0, ie. cbn [_run_log trace].
    by rewrite closed_app, Hc', init_events_closed. }
  destruct (block_plain_own body self0 w0 Hp Hm0 Hl0)
    as (r & self & evs & Hb & (_ & _ & Hmos & Hlog) & Hown).
  assert (Hopen : IO.closed (_mos self) (trace w0 ++ evs)%list = false).
  { by rewrite Hmos, closed_app, Hm0, (own_closed self0). }
  assert (Hw : with_ (__init__ fname command working_dir results packages options)
                 (block body) w
               = (r, World ((trace w0 ++ evs) ++ Script.exit_events self)%list
                           (heap w0))).
  { unfold with_. rewrite init_spec by done. fold k self0 ie w0.
    unfold __enter__, get_self. cbn [fst snd]. rewrite Hb.
    destruct r as [[]|e]; by rewrite exit_spec. }
  exists r, (World ((trace w0 ++ evs) ++ Script.exit_events self)%list (heap w0)),
    (ie ++ evs ++ Script.exit_events self)%list.
  split; [exact Hw|]. cbn [trace heap]. unfold w0. cbn [trace heap].
  split; [by rewrite <- !app_assoc|].
  unfold Script.exit_events. rewrite Hmos, Hlog. cbn [_mos _run_log self0].
  split.
  { rewrite !opened_app. unfold ie.
    by rewrite opened_init_events, (own_opened self0 evs Hown). }
  assert (Hfresh : IO.fresh (((trace w ++ ie) ++ evs)
                             ++ [EWrite k Script.exit_line; EClose k; EClose (S k);
                                 EPrint "Finished writing the Dymola script."])%list
                   = S (S k)).
  { rewrite !fresh_app. unfold ie. rewrite init_events_fresh, (own_fresh self0 evs Hown).
    fold k. assert (IO.fresh [EWrite k Script.exit_line; EClose k; EClose (S k);
                             EPrint "Finished writing the Dymola script."] = O)
      as -> by reflexivity. lia. }
  split; [exact Hfresh|].
  split.
  { intros h text. rewrite !elem_of_app. intros [Hi|[He|Hx]].
    - by apply init_events_writes in Hi.
    - rewrite Forall_forall in Hown. exact (Hown _ He).
    - rewrite !elem_of_cons in Hx.
      destruct Hx as [Hx|[?|[?|[?|Hx]]]]; try discriminate.
      + injection Hx as -> _. by left.
      + by apply not_elem_of_nil in Hx. }
  split.
  { intros h. rewrite !elem_of_app. split.
    - intros [Hi|[He|Hx]].
      + by apply init_events_closes in Hi.
      + rewrite Forall_forall in Hown. destruct (Hown _ He).
      + rewrite !elem_of_cons in Hx.
        destruct Hx as [?|[Hx|[Hx|[?|Hx]]]]; try discriminate.
        * injection Hx as ->. by left.
        * injection Hx as ->. by right.
        * by apply not_elem_of_nil in Hx.
    - intros [-> | ->]; right; right; rewrite !elem_of_cons; auto. }
  split.
  { rewrite !closed_app. unfold IO.closed at 4. cbn. rewrite Nat.eqb_refl.
    by rewrite !orb_true_r. }
  split.
  { rewrite !closed_app. unfold IO.closed at 4. cbn. rewrite Nat.eqb_refl.
    by rewrite !orb_true_r. }
  split.
  { intros h Hh.
    rewrite !closed_app. unfold ie. rewrite init_events_closed, (own_closed self0 evs _ Hown).
    unfold IO.closed at 2. cbn.
    destruct (Nat.eqb_spec h k); [lia|]. destruct (Nat.eqb_spec h (S k)); [lia|].
    by rewrite !orb_false_r. }
  split.
  { intros l Hl. unfold Script.substituted.
    destruct (heap w !! results); [|done]. by rewrite lookup_insert_ne. }
  intros h Hh. rewrite Hfresh in Hh.
  destruct (Hwf h) as [Hch Hwh]; [fold k; lia|]. split.
  - rewrite !closed_app, Hch. unfold ie.
    rewrite init_events_closed, (own_closed self0 evs _ Hown).
    unfold IO.closed. cbn.
    destruct (Nat.eqb_spec h k); [lia|]. destruct (Nat.eqb_spec h (S k)); [lia|].
    done.
  - rewrite !written_app, Hwh. unfold ie.
    rewrite init_events_written_other by lia.
    rewrite (own_written self0 evs h Hown) by (cbn; lia).
    by rewrite written_cons_write_ne by lia.
Qed.

(** ** After the exit, and assignments between runs *)

Lemma exit_closes_script self w :
  IO.closed (_mos self) (trace w ++ Script.exit_events self)%list = true.
Proof.
  rewrite closed_app. unfold Script.exit_events, IO.closed at 2. cbn.
  rewrite Nat.eqb_refl. apply orb_true_r.
Qed.

(** X4.  After [__exit__] a [run] call raises the [ValueError] of a
    write to a closed file; nothing is written, and the run counter
    has been incremented all the same. *)
Theorem run_after_exit_raises `{Env} self w exc_details model params :
  IO.closed (_mos self) (trace w) = false →
  ∃ w1,
    __exit__ exc_details (self, w) = (Ok tt, (self, w1))
    ∧ run model params (self, w1)
      = (Raise (ValueError "I/O operation on closed file"),
         (set_n_runs (n_runs self + 1) self, w1)).
Proof.
  intros Hc. eexists. split; [by apply exit_spec|].
  apply run_closed_script. cbn [trace]. apply exit_closes_script.
Qed.

(** X5.  [__exit__] closes both files, and a second [__exit__]
    raises the [ValueError] of a write to a closed file and changes
    nothing. *)
Theorem exit_twice_raises self w exc_details exc_details' :
  IO.closed (_mos self) (trace w) = false →
  ∃ w1,
    __exit__ exc_details (self, w) = (Ok tt, (self, w1))
    ∧ IO.closed (_mos self) (trace w1) = true
    ∧ IO.closed (_run_log self) (trace w1) = true
    ∧ __exit__ exc_details' (self, w1)
      = (Raise (ValueError "I/O operation on closed file"), (self, w1)).
Proof.
  intros Hc. eexists. split; [by apply exit_spec|]. cbn [trace].
  split; [apply exit_closes_script|]. split.
  { rewrite closed_app. unfold Script.exit_events, IO.closed at 2. cbn.
    rewrite Nat.eqb_refl. by rewrite !orb_true_r. }
  unfold __exit__, mbind, M_bind, bind, get_self. cbn -[Str.cat io].
  rewrite io_write_closed; [reflexivity|]. cbn [trace]. apply exit_closes_script.
Qed.

(** X6.  Without a model, [None] or the empty name, [run] ignores
    its parameters: it does what [run(None)] does with any other
    parameters, the command gets no problem text, and the last field
    of the log line is empty. *)
Theorem run_without_model_ignores_params `{Env} self w model params params' :
  model = None ∨ model = Some EmptyString →
  run model params (self, w) = run None params' (self, w)
  ∧ call_of (_command self) (_options self) (problem_of model params)
    = _command self +:+ ParamDict.str (Dict.set (_options self) "problem" VNone)
  ∧ log_line (n_runs self + 1) (_command self) (_options self)
      (problem_of model params)
    = Str.cat [Str.of_int (n_runs self + 1); Str.tab; _command self; Str.tab;
               Str.strip_ends (ParamDict.str (_options self)); Str.tab; Str.nl].
Proof.
  intros [-> | ->]; (split; [reflexivity|]); (split; [reflexivity|]);
    unfold log_line, Str.join, Str.cat; cbn [problem_of String.concat];
    rewrite ?append_assoc; reflexivity.
Qed.

Section DictLaws.
Lemma dict_get_set_eq d k v : Dict.get (Dict.set d k v) k = Some v.
Proof.
  induction d as [|[k' v'] d IH]; cbn [Dict.set Dict.get].
  - by rewrite String.eqb_refl.
  - destruct (String.eqb k' k) eqn:He; cbn [Dict.get]; by rewrite He.
Qed.

Lemma dict_get_set_ne d k k' v : k ≠ k' → Dict.get (Dict.set d k v) k' = Dict.get d k'.
Proof.
  intros Hne. induction d as [|[k0 v0] d IH]; cbn [Dict.set Dict.get].
  - destruct (String.eqb_spec k k'); done.
  - destruct (String.eqb_spec k0 k) as [->|Hk]; cbn [Dict.get].
    + destruct (String.eqb_spec k k'); done.
    + by rewrite IH.
Qed.

Lemma dict_set_set d k v v' : Dict.set (Dict.set d k v) k v' = Dict.set d k v'.
Proof.
  induction d as [|[k0 v0] d IH]; cbn [Dict.set].
  - by rewrite String.eqb_refl.
  - destruct (String.eqb k0 k) eqn:He; cbn [Dict.set]; rewrite He; [done|].
    by rewrite IH.
Qed.
End DictLaws.

Section Alike.

Lemma alike_set_problem d v v' :
  alike (Dict.set d "problem" v) (Dict.set d "problem" v').
Proof.
  induction d as [|[k u] d IH]; cbn [Dict.set]; [constructor|].
  destruct (String.eqb_spec k "problem") as [->|Hk]; by constructor.
Qed.

Lemma alike_set d d' k u : alike d d' → alike (Dict.set d k u) (Dict.set d' k u).
Proof.
  induction 1 as [|v v' r|k0 v r r' Hk0 Hr IH]; cbn [Dict.set].
  - destruct (String.eqb_spec k "problem") as [->|Hk].
    + apply alike_problem.
    + apply alike_cons; [done|apply alike_nil].
  - destruct (String.eqb_spec "problem" k); apply alike_problem.
  - destruct (String.eqb_spec k0 k); by constructor.
Qed.

Lemma alike_overridden d d' x :
  alike d d' → Dict.set d "problem" x = Dict.set d' "problem" x.
Proof.
  induction 1 as [|v v' r|k0 v r r' Hk0 _ IH]; cbn [Dict.set]; [done|done|].
  destruct (String.eqb_spec k0 "problem"); [done|]. by rewrite IH.
Qed.

Lemma runs_seen_alike body : ∀ d d',
  alike d d' →
  Forall2 (fun a b => alike (fst a) (fst b) ∧ snd a = snd b)
    (Script.runs_seen body d) (Script.runs_seen body d').
Proof.
  induction body as [|s body IH]; intros d d' Hd; [constructor|].
  destruct s as [model params|attr x|attr|e]; cbn [Script.runs_seen]; try by apply IH.
  - constructor; [done|by apply IH].
  - destruct x; try by apply IH. destruct (is_known attr); apply IH; [done|].
    by apply alike_set.
Qed.

Lemma imap_Forall2 {A B} (R : A → A → Prop) (l l' : list A) :
  Forall2 R l l' →
  ∀ f : nat → A → B, (∀ i a b, R a b → f i a = f i b) → imap f l = imap f l'.
Proof.
  induction 1 as [|a b l l' Hab _ IH]; intros f Hf; [done|].
  cbn [imap]. rewrite (Hf 0%nat a b Hab). f_equal. apply IH.
  intros i x y Hxy. by apply Hf.
Qed.

Lemma body_events_alike `{Env} rs body self self' :
  _mos self' = _mos self → _run_log self' = _run_log self →
  _command self' = _command self → n_runs self' = n_runs self →
  _mos self ≠ _run_log self →
  alike (_options self) (_options self') →
  IO.written (_mos self) (Script.body_events self rs body)
  = IO.written (_mos self) (Script.body_events self' rs body)
  ∧ printed (Script.body_events self rs body)
    = printed (Script.body_events self' rs body).
Proof.
  intros Hm Hl Hc Hn Hne Hd. split.
  - rewrite <- Hm at 2. rewrite !body_events_written_mos by congruence.
    rewrite Hc, Hn. f_equal.
    apply (imap_Forall2 _ _ _ (runs_seen_alike body _ _ Hd)).
    intros i [d p] [d' p'] [Ha Hp]. cbn [fst snd] in *. subst p'.
    unfold Script.run_block, call_of. by rewrite (alike_overridden d d').
  - rewrite !printed_body_events. rewrite Hc, Hn.
    apply (imap_Forall2 _ _ _ (runs_seen_alike body _ _ Hd)).
    intros i [d p] [d' p'] [Ha Hp]. cbn [fst snd] in *. subst p'.
    unfold call_of. by rewrite (alike_overridden d d').
Qed.
End Alike.

(** X7.  The value of an option named [problem] never reaches a
    command.  The assignment stores it, but [run] puts its own problem
    text in its place: whatever value was assigned, the runs and
    option assignments that follow write the same script and print the
    same calls.  (The entry keeps its place among the options, and the
    options column of the log is not part of this.) *)
Theorem problem_option_never_reaches_command `{Env} self w v v' body :
  IO.closed (_mos self) (trace w) = false →
  IO.closed (_run_log self) (trace w) = false →
  _mos self ≠ _run_log self →
  forallb quiet body = true →
  ∃ self1 w1 self2 w2,
    block (Assign "problem" (PData v) :: body) (self, w) = (Ok tt, (self1, w1))
    ∧ block (Assign "problem" (PData v') :: body) (self, w) = (Ok tt, (self2, w2))
    ∧ Dict.get (_options (set_options (Dict.set (_options self) "problem" v) self))
        "problem" = Some v
    ∧ IO.written (_mos self) (trace w1) = IO.written (_mos self) (trace w2)
    ∧ printed (trace w1) = printed (trace w2).
Proof.
  intros Hm Hl Hne Hq.
  set (s1 := set_options (Dict.set (_options self) "problem" v) self).
  set (s2 := set_options (Dict.set (_options self) "problem" v') self).
  assert (Hb : ∀ u, block (Assign "problem" (PData u) :: body) (self, w)
                    = block body (set_options (Dict.set (_options self) "problem" u)
                                    self, w)).
  { intros u. unfold block. cbn [for_each exec]. unfold bind.
    by rewrite setattr_option. }
  do 4 eexists.
  split; [rewrite Hb; by apply block_quiet|].
  split; [rewrite Hb; by apply block_quiet|].
  split.
  { destruct self. cbn [_options set_options]. apply dict_get_set_eq. }
  cbn [trace _results set_options]. rewrite !written_app, !printed_app.
  destruct (body_events_alike (default [] (heap w !! _results self)) body s1 s2)
    as [Hw Hp]; try done.
  { unfold s1, s2. destruct self. cbn [_options set_options]. apply alike_set_problem. }
  unfold s1, s2 in *. destruct self. cbn [_mos _results set_options] in *.
  by rewrite Hw, Hp.
Qed.

(** X8.  Assigning an option changes the options only: the files,
    the command, the result list and the run counter stay, and reading
    any other attribute, [_options] apart, gives what it gave
    before. *)
Theorem option_assignment_frame `{Env} self w attr v other :
  is_known attr = false →
  other ≠ attr →
  other ≠ "_options" →
  let self' := set_options (Dict.set (_options self) attr v) self in
  __setattr__ attr (PData v) (self, w) = (Ok tt, (self', w))
  ∧ Script.same_files self self'
  ∧ n_runs self' = n_runs self
  ∧ fst (getattr other (self', w)) = fst (getattr other (self, w)).
Proof.
  intros Hk Hne Ho self'. split; [by apply setattr_option|].
  split; [done|]. split; [done|].
  unfold getattr, __getattr__, mbind, M_bind, bind, get_self, mret, M_ret, ret,
    raise. cbn [fst].
  assert (Hi : assoc other (instance_dict self') = assoc other (instance_dict self)).
  { unfold instance_dict. cbn [assoc _results _command _options _mos _run_log
                                 n_runs self' set_options].
    destruct (String.eqb_spec "_options" other) as [E|_]; [by subst|]. done. }
  rewrite Hi. destruct (assoc other (instance_dict self)); [done|].
  destruct (existsb (String.eqb other) class_attrs); [done|].
  destruct (existsb (String.eqb other) object_attrs); [done|].
  cbn [fst _options self' set_options].
  rewrite dict_get_set_ne by done.
  by destruct (Dict.get (_options self) other).
Qed.


(** ** The placeholder of the result list, and the header *)


Lemma prefix_cons a s1 b s2 :
  String.prefix (String a s1) (String b s2)
  = if Ascii.eqb a b then String.prefix s1 s2 else false.
Proof.
  cbn. destruct (ascii_dec a b) as [->|Hne].
  - by rewrite Ascii.eqb_refl.
  - by destruct (Ascii.eqb_spec a b).
Qed.

Lemma prefix_nil s : String.prefix EmptyString s = true.
Proof. by destruct s. Qed.

Lemma contains_cons pat c r :
  contains pat (String c r) = String.prefix pat (String c r) || contains pat r.
Proof. reflexivity. Qed.

Lemma replace_cons new c r :
  Str.replace "%x" new (String c r)
  = if String.prefix "%x" (String c r)
    then new +:+ Str.replace_from 1 "%x" new r
    else String c (Str.replace "%x" new r).
Proof. reflexivity. Qed.

Lemma replace_skip new r : Str.replace_from 1 "%x" new (String "x" r) = Str.replace "%x" new r.
Proof. reflexivity. Qed.

(** A name without the placeholder is left as it is. *)
Lemma replace_absent new s : contains "%x" s = false → Str.replace "%x" new s = s.
Proof.
  induction s as [|c r IH]; [done|]. rewrite contains_cons. intros Hc.
  apply orb_false_elim in Hc as [Hp Hr]. rewrite replace_cons, Hp. by rewrite IH.
Qed.

Lemma replace_exe_clean_bounded (n : nat) : ∀ s,
  (String.length s ≤ n)%nat →
  contains "%x" (Str.replace "%x" ".exe" s) = false
  ∧ (String.prefix "x" (Str.replace "%x" ".exe" s) = true → String.prefix "x" s = true).
Proof.
  induction n as [|n IH]; intros s Hlen.
  { destruct s; [done|cbn in Hlen; lia]. }
  destruct s as [|c r]; [done|]. cbn [String.length] in Hlen.
  rewrite replace_cons. destruct (String.prefix "%x" (String c r)) eqn:Hp.
  - rewrite prefix_cons in Hp. destruct (Ascii.eqb_spec "%" c) as [<-|]; [|done].
    destruct r as [|c' r']; [done|]. rewrite prefix_cons in Hp.
    destruct (Ascii.eqb_spec "x" c') as [<-|]; [|done].
    rewrite replace_skip. cbn [String.length] in Hlen.
    destruct (IH r') as [Hc _]; [lia|]. split; [|done].
    change (".exe" +:+ Str.replace "%x" ".exe" r')
      with (String "." (String "e" (String "x" (String "e"
              (Str.replace "%x" ".exe" r'))))).
    rewrite !contains_cons, !prefix_cons. cbn [Ascii.eqb Bool.eqb orb].
    destruct (Str.replace "%x" ".exe" r') as [|c0 r0]; [done|].
    rewrite contains_cons in Hc. exact Hc.
  - destruct (IH r) as [Hc Hx]; [lia|]. split.
    + rewrite contains_cons, Hc, orb_false_r, prefix_cons.
      destruct (Ascii.eqb_spec "%" c) as [<-|]; [|done].
      destruct (String.prefix "x" (Str.replace "%x" ".exe" r)) eqn:Hpx; [|done].
      rewrite prefix_cons, Ascii.eqb_refl in Hp. by rewrite Hx in Hp.
    + rewrite !prefix_cons. destruct (Ascii.eqb "x" c); [by rewrite !prefix_nil|done].
Qed.

Lemma replace_exe_clean s : contains "%x" (Str.replace "%x" ".exe" s) = false.
Proof. by apply (replace_exe_clean_bounded (String.length s)). Qed.

Lemma map_replace_absent new (rs : list string) :
  forallb (fun r => negb (contains "%x" r)) rs = true →
  map (Str.replace "%x" new) rs = rs.
Proof.
  induction rs as [|r rs IH]; [done|]. cbn [forallb map]. intros Hb.
  apply andb_prop in Hb as [Hr Hrs]. apply negb_true_iff in Hr.
  by rewrite replace_absent, IH.
Qed.

(** X12.  When no name of the result list holds the placeholder
    [%x], constructing a writer leaves every list as it is. *)
Theorem init_leaves_names_without_placeholder `{Env} fname command working_dir
    results packages options rs w :
  Script.wf (trace w) →
  heap w !! results = Some rs →
  forallb (fun r => negb (contains "%x" r)) rs = true →
  ∃ self w',
    __init__ fname command working_dir results packages options w = (Ok self, w')
    ∧ heap w' = heap w.
Proof.
  intros Hwf Hrs Hclean. do 2 eexists. split; [by apply init_spec|].
  cbn [heap]. unfold Script.substituted. rewrite Hrs, map_replace_absent by done.
  by apply insert_id.
Qed.

(** X13.  On Windows the replacement of [%x] is stable: a second
    writer on the same list, whatever its other arguments, finds
    nothing to replace, so the list is as the first one left it. *)
Theorem windows_substitution_is_stable `{Env} fname command working_dir packages
    options fname' command' working_dir' packages' options' results rs w :
  os_name = "nt" →
  Script.wf (trace w) →
  heap w !! results = Some rs →
  ∃ self w1 self' w2,
    __init__ fname command working_dir results packages options w = (Ok self, w1)
    ∧ __init__ fname' command' working_dir' results packages' options' w1
      = (Ok self', w2)
    ∧ heap w1 !! results = Some (map (Str.replace "%x" ".exe") rs)
    ∧ heap w2 = heap w1.
Proof.
  intros Hos Hwf Hrs.
  assert (Hexe : exe = ".exe") by (unfold exe; by rewrite Hos).
  do 4 eexists. split; [by apply init_spec|].
  split; [apply init_spec; cbn [trace]; by apply wf_init|]. cbn [heap].
  unfold Script.substituted. rewrite Hrs, Hexe, lookup_insert_eq.
  split; [done|]. rewrite insert_insert_eq. f_equal.
  apply map_replace_absent. rewrite forallb_forall. intros r Hr.
  apply in_map_iff in Hr as (r0 & <- & _). by rewrite replace_exe_clean.
Qed.

(** X11.  [dymosim.__init__] always raises and opens no file.
    Without a results directory nothing has changed; with one the
    error is [NotImplementedError], and the placeholder in the result
    list has been replaced before it is raised. *)
Theorem dymosim_init_always_raises `{Env} working_dir results_dir results options w :
  ∃ e w',
    dymosim.__init__ working_dir results_dir results options w = (Raise e, w')
    ∧ trace w' = trace w
    ∧ match results_dir with
      | None =>
          w' = w ∧ e = (if dirname_None_TypeError then TypeError else AttributeError)
      | Some _ =>
          e = NotImplementedError
                "The dymosim context manager has not yet been implemented."
          ∧ heap w' = Script.substituted results (heap w)
      end.
Proof.
  destruct results_dir as [d|].
  - do 2 eexists. split; [apply dymosim_init_with_results_dir|]. by cbn [trace heap].
  - by exists (if dirname_None_TypeError then TypeError else AttributeError), w.
Qed.

(** X10.  The script of a new writer has six lines and two more
    per package, and ends with the destination line.  The line before
    it restores the working directory, unless the last package is a
    [.mos] script: then it is that script's [RunScript] line, and the
    directory of the script stays the current one. *)
Theorem header_with_packages `{Env} fname command working_dir results packages
    options w :
  Script.wf (trace w) →
  let wd := match working_dir with None => getcwd | Some d => expand_path d end in
  ∃ self w',
    __init__ fname command working_dir results packages options w = (Ok self, w')
    ∧ length (IO.written (_mos self) (trace w')) = (6 + 2 * length packages)%nat
    ∧ IO.written (_mos self) (trace w') !! (4 + 2 * length packages)%nat
      = Some (match last packages with
              | Some package =>
                  if Str.endswith package ".mos"
                  then Str.cat ["RunScript("; Str.quoted (path_basename package);
                                ");"; Str.nl]
                  else Str.cat ["cd("; Str.quoted wd; ");"; Str.nl]
              | None => Str.cat ["cd("; Str.quoted wd; ");"; Str.nl]
              end)
    ∧ IO.written (_mos self) (trace w') !! (5 + 2 * length packages)%nat
      = Some (Script.destination_line (path_dirname (expand_path fname))).
Proof.
  intros Hwf wd.
  destruct (Hwf (IO.fresh (trace w))) as [_ Hw]; [lia|].
  do 2 eexists. split; [by apply init_spec|]. cbn [_mos trace].
  rewrite written_app, Hw, init_events_written_mos. cbn [app]. fold wd.
  assert (Hlen : ∀ p, length (Script.package_lines wd p) = 2%nat).
  { intros p. unfold Script.package_lines. by destruct (Str.endswith p ".mos"). }
  split.
  { rewrite !length_app, (length_flat_map_const _ 2) by done. cbn. lia. }
  split; cycle 1.
  { rewrite lookup_app_r; cbn [length Script.header_lines]; [|lia].
    rewrite lookup_app_r; rewrite (length_flat_map_const _ 2) by done; [|lia].
    by replace (5 + 2 * length packages - 5 - length packages * 2)%nat with O by lia. }
  destruct (decide (packages = [])) as [->|Hne]; [reflexivity|].
  rewrite last_lookup. destruct (lookup_lt_is_Some_2 packages (pred (length packages)))
    as [p Hp]; [destruct packages; cbn; [done|]; apply Nat.lt_succ_diag_r|].
  rewrite Hp.
  assert (Hpos : (0 < length packages)%nat) by (destruct packages; cbn; [done|lia]).
  rewrite lookup_app_r; cbn [length Script.header_lines]; [|lia].
  rewrite lookup_app_l; [|rewrite (length_flat_map_const _ 2) by done; lia].
  replace (4 + 2 * length packages - 5)%nat
    with (pred (length packages) * 2 + 1)%nat by lia.
  apply (lookup_flat_map_const _ _ _ _ _ p); [done|done|].
  unfold Script.package_lines. by destruct (Str.endswith p ".mos").
Qed.

(** ** The run log and the short model names *)

Lemma drop_last_snoc s c : Str.drop_last (s +:+ String c EmptyString) = s.
Proof.
  induction s as [|a r IH]; [done|].
  change (String a r +:+ String c EmptyString) with (String a (r +:+ String c EmptyString)).
  cbn [Str.drop_last]. rewrite IH. by destruct r.
Qed.

Lemma strip_ends_quoted s : Str.strip_ends (Str.quoted s) = s.
Proof.
  unfold Str.quoted, Str.cat, Str.dquote, Str.of_char. cbn [String.concat].
  cbn [Str.strip_ends String.append]. apply drop_last_snoc.
Qed.

(** X14.  For a named model the run log shows the model and its
    parameters without the quotes that the script puts around them:
    the last field of the log line is the model name followed by the
    parameter text, and the script passes the quoted text as
    [problem]. *)
Theorem log_names_model_without_quotes `{Env} self w model params :
  _mos self ≠ _run_log self →
  IO.closed (_mos self) (trace w) = false →
  IO.closed (_run_log self) (trace w) = false →
  model ≠ EmptyString →
  ∃ self' w',
    run (Some model) params (self, w) = (Ok tt, (self', w'))
    ∧ IO.written (_run_log self) (trace w')
      = (IO.written (_run_log self) (trace w)
         ++ [Str.join Str.tab
               [Str.of_int (n_runs self + 1);
                _command self;
                Str.strip_ends (ParamDict.str (_options self));
                model +:+ ParamDict.str params] +:+ Str.nl])%list
    ∧ Str.cat ["ok = ";
               _command self
               +:+ ParamDict.str
                     (Dict.set (_options self) "problem"
                        (VStr (Str.quoted (model +:+ ParamDict.str params))));
               ";"; Str.nl]
      ∈ IO.written (_mos self) (trace w').
Proof.
  intros Hne Hm Hl Hmodel. destruct model as [|c m]; [done|].
  do 2 eexists. split; [by apply run_spec|]. cbn [trace]. split.
  - rewrite written_app. f_equal.
    rewrite (run_events_written_log (set_n_runs (n_runs self + 1) self)); [|done].
    cbn [_command _options set_n_runs _run_log]. unfold log_line, problem_of.
    by rewrite strip_ends_quoted.
  - rewrite written_app, elem_of_app. right.
    rewrite (run_events_written_mos (set_n_runs (n_runs self + 1) self)); [|done].
    unfold Script.run_block. cbn [_command _options set_n_runs].
    apply elem_of_app. left. apply list_elem_of_further, list_elem_of_here.
Qed.


Lemma rfind_lower c s : -1 ≤ sim_and_plot.rfind c s.
Proof.
  induction s as [|a r IH]; [done|]. cbn [sim_and_plot.rfind].
  destruct (Z.leb_spec 0 (sim_and_plot.rfind c r)); [lia|]. destruct (Ascii.eqb a c); lia.
Qed.

Lemma short_name_no_dot s : sim_and_plot.rfind "." s = -1 → sim_and_plot.short_name s = s.
Proof. intros Hs. unfold sim_and_plot.short_name. by rewrite Hs. Qed.

Lemma slice_from_succ i a r :
  0 ≤ i → sim_and_plot.slice_from (i + 1) (String a r) = sim_and_plot.slice_from i r.
Proof.
  intros Hi. unfold sim_and_plot.slice_from.
  destruct (Z.ltb_spec (i + 1) 0); [lia|]. destruct (Z.ltb_spec i 0); [lia|].
  replace (Z.to_nat (i + 1)) with (S (Z.to_nat i)) by lia. reflexivity.
Qed.

Lemma short_name_cons a r :
  sim_and_plot.short_name (String a r)
  = if (0 <=? sim_and_plot.rfind "." r) || Ascii.eqb a "." then sim_and_plot.short_name r
    else String a r.
Proof.
  unfold sim_and_plot.short_name at 1. cbn [sim_and_plot.rfind].
  pose proof (rfind_lower "." r) as Hlow.
  destruct (Z.leb_spec 0 (sim_and_plot.rfind "." r)) as [Hi|Hi]; cbn [orb].
  - rewrite slice_from_succ by lia. reflexivity.
  - assert (Hr : sim_and_plot.rfind "." r = -1) by lia.
    destruct (Ascii.eqb a "."); [|reflexivity].
    by rewrite (short_name_no_dot r Hr).
Qed.

(** X15.  The short name of a model has no dot; it is the model
    name itself when that has none, and otherwise what follows the
    last dot. *)
Theorem short_name_is_last_component (model : string) :
  sim_and_plot.rfind "." (sim_and_plot.short_name model) = -1
  ∧ (sim_and_plot.rfind "." model = -1 ∧ sim_and_plot.short_name model = model
     ∨ ∃ head, model = head +:+ "." +:+ sim_and_plot.short_name model).
Proof.
  induction model as [|a r [IHdot IH]]; [by split; [|left]|].
  rewrite short_name_cons. pose proof (rfind_lower "." r) as Hlow.
  destruct (Z.leb_spec 0 (sim_and_plot.rfind "." r)) as [Hi|Hi]; cbn [orb].
  - split; [done|]. right. destruct IH as [[Hr _]|[head Hhead]]; [lia|].
    exists (String a head).
    change (String a head +:+ "." +:+ sim_and_plot.short_name r)
      with (String a (head +:+ "." +:+ sim_and_plot.short_name r)).
    by rewrite <- Hhead.
  - assert (Hr : sim_and_plot.rfind "." r = -1) by lia.
    destruct (Ascii.eqb_spec a ".") as [->|Hne].
    + split; [done|]. right. exists EmptyString. cbn [String.append].
      by rewrite (short_name_no_dot r Hr).
    + assert (Hs : sim_and_plot.rfind "." (String a r) = -1).
      { cbn [sim_and_plot.rfind]. rewrite Hr. cbn. by destruct (Ascii.eqb_spec a "."). }
      split; [done|]. by left.
Qed.

(** ** Driving Dymola *)

Section Drive.
Import sim_and_plot.
Context `{Env} `{Dymola}.
Variables FNAME WORKING_DIR : string.

Local Ltac drive_cases :=
  unfold drive, get_last_log; unfold try_except, then_, call, print, assign_dymola, pure;
  cbn [dymola actions];
  generalize (set_work_directory WORKING_DIR) (run_script FNAME); intros c0 c1;
  destruct DymolaInterface as [[]|msg|name] eqn:Hstart;
  [destruct (ExecuteCommand 0 c0) as [r0|msg0|name0] eqn:Hfirst;
   [destruct (ExecuteCommand 1 c1) as [[]|msg1|name1] eqn:Hsecond;
    [|destruct getLastErrorLog as [log|msgl|namel] eqn:Hlog| |]| |]| |];
  cbn [dymola actions negb]; try destruct close as [[]|msgc|namec] eqn:Hclose;
  cbn [dymola actions fst snd]; rewrite <- ?app_assoc; cbn [app].

Local Ltac not_in :=
  repeat (rewrite not_elem_of_cons; split; [discriminate|]); apply not_elem_of_nil.

(** X16.  When no call raises anything but a [DymolaException],
    the block closes Dymola exactly when the interface was created,
    as its last action, and no exception of the interface leaves it
    other than one of [close]; when the interface was not created the
    block ends normally and [close] is not called. *)
Theorem drive_closes_what_it_starts d acts :
  is_other DymolaInterface = false →
  is_other (ExecuteCommand 0 (set_work_directory WORKING_DIR)) = false →
  is_other (ExecuteCommand 1 (run_script FNAME)) = false →
  is_other getLastErrorLog = false →
  ∃ o d' new,
    drive FNAME WORKING_DIR (State d acts) = (o, State d' (acts ++ new)%list)
    ∧ match DymolaInterface with
      | Returns _ =>
          (∃ mid, new = (Start :: mid ++ [Close])%list ∧ (Close ∉ mid) ∧ (Start ∉ mid))
          ∧ o = close
          ∧ d' = match close with Returns _ => false | _ => true end
      | _ => (Close ∉ new) ∧ o = Returns tt ∧ d' = false
      end.
Proof.
  drive_cases; cbn [is_other]; intros; try discriminate;
    (do 3 eexists; split; [reflexivity|]);
    first [ split; [not_in|done]
          | split; [|done];
            match goal with
            | |- ∃ mid, (Start :: ?l)%list = _ ∧ _ =>
                exists (removelast l); split; [reflexivity|split; cbn; not_in]
            end ].
Qed.

(** X17.  The error log is asked for exactly when the interface
    was created, the first command returned, whatever its result, and
    [RunScript] returned [False]. *)
Theorem error_log_is_asked_after_failed_script d acts :
  ∃ o d' new,
    drive FNAME WORKING_DIR (State d acts) = (o, State d' (acts ++ new)%list)
    ∧ (AskLog ∈ new
       ↔ DymolaInterface = Returns tt
         ∧ (∃ r0, ExecuteCommand 0 (set_work_directory WORKING_DIR) = Returns r0)
         ∧ ExecuteCommand 1 (run_script FNAME) = Returns false).
Proof.
  drive_cases; (do 3 eexists; split; [reflexivity|]);
    (split;
     [ first [ intros _; by eauto
             | intros Hin; exfalso; revert Hin;
               match goal with |- ?X → False => change (¬ X) end; not_in ]
     | first [ intros _; by repeat constructor
             | intros (? & [? ?] & ?); discriminate ] ]).
Qed.

(** X18.  An exception other than a [DymolaException] leaves the
    block uncaught, and then [close] has not been called: if the
    interface was created, [dymola] still holds it. *)
Theorem other_exception_skips_close d acts raised st' :
  is_other close = false →
  drive FNAME WORKING_DIR (State d acts) = (RaisesOther raised, st') →
  ∃ new,
    actions st' = (acts ++ new)%list
    ∧ (Close ∉ new)
    ∧ (DymolaInterface = Returns tt → dymola st' = true).
Proof.
  drive_cases; cbn [is_other]; intros Hc Hd; try discriminate;
    injection Hd as <- <-; eexists; cbn [actions dymola];
    (split; [reflexivity|]); (split; [not_in|done]).
Qed.
End Drive.

(** ** Reading an option back *)


Lemma instance_dict_known attr self :
  is_known attr = false → assoc attr (instance_dict self) = None.
Proof.
  unfold is_known, known, instance_dict. cbn [existsb assoc]. intros Hk.
  repeat (apply orb_false_elim in Hk as [? Hk]).
  rewrite !(String.eqb_sym _ attr).
  by repeat match goal with Heq : (attr =? _)%string = false |- _ => rewrite Heq; clear Heq end.
Qed.

(** X19.  An option that is assigned is read back, where the name
    is not one the class or [object] defines; a second assignment
    replaces the value and keeps the option's place. *)
Theorem option_reads_back `{Env} self w attr v v' :
  is_known attr = false →
  existsb (String.eqb attr) class_attrs = false →
  existsb (String.eqb attr) object_attrs = false →
  ∃ self1 self2,
    __setattr__ attr (PData v) (self, w) = (Ok tt, (self1, w))
    ∧ getattr attr (self1, w) = (Ok (PData v), (self1, w))
    ∧ __setattr__ attr (PData v') (self1, w) = (Ok tt, (self2, w))
    ∧ getattr attr (self2, w) = (Ok (PData v'), (self2, w))
    ∧ _options self2 = Dict.set (_options self) attr v'.
Proof.
  intros Hk Hc Ho. do 2 eexists.
  split; [by apply setattr_option|].
  assert (Hget : ∀ s x, Dict.get (_options s) attr = Some x →
                        getattr attr (s, w) = (Ok (PData x), (s, w))).
  { intros s x Hx.
    unfold getattr, __getattr__, mbind, M_bind, bind, get_self, mret, M_ret, ret.
    cbn [fst snd]. rewrite (instance_dict_known attr s Hk), Hc, Ho.
    cbn [fst snd]. by rewrite Hx. }
  split; [apply Hget; destruct self; apply dict_get_set_eq|].
  split; [by apply setattr_option|].
  split; [apply Hget; destruct self; apply dict_get_set_eq|].
  destruct self. cbn [_options set_options]. apply dict_set_set.
Qed.

(** ** The further properties at work *)


Lemma session_prints_each_call_witness :
  Script.wf (trace loaded)
  ∧ forallb quiet two_runs = true
  ∧ ∃ w',
      @session Host.posix [("stopTime", VInt 2500)] two_runs loaded = (Ok tt, w')
      ∧ printed (trace w')
        = ["Starting to write the Dymola script...";
           Str.cat ["Run 1:  simulateModel(stopTime=2500, problem=";
                    Str.quoted "ModelX(L.L=21)"; ")"];
           Str.cat ["Run 2:  simulateModel(stopTime=2500, problem=";
                    Str.quoted "ModelX(L.L=15)"; ")"];
           "Finished writing the Dymola script."].
Proof.
  assert (Hwf : Script.wf (trace loaded)) by (intros h _; split; reflexivity).
  split; [exact Hwf|]. split; [reflexivity|].
  destruct (@session_prints_each_call Host.posix default_fname default_command None
              default_results [] [("stopTime", VInt 2500)] two_runs loaded
              Hwf eq_refl) as (w' & Hs & Hp & _).
  exists w'. split; [exact Hs|]. rewrite Hp. reflexivity.
Defined.

(** A session whose body raises between two runs has opened the
    script and the log, and closed both. *)
Lemma session_closes_what_it_opens_witness :
  Script.wf (trace loaded)
  ∧ forallb plain [Run (Some "ModelX") []; Read "stopTime"; Run (Some "ModelX") []]
    = true
  ∧ ∃ r w',
      @session Host.posix []
        [Run (Some "ModelX") []; Read "stopTime"; Run (Some "ModelX") []] loaded
      = (r, w')
      ∧ opened (trace w')
        = [(0%nat, "/home/user/run_sims.mos"); (1%nat, "/home/user/runs.tsv")]
      ∧ IO.closed 0%nat (trace w') = true
      ∧ IO.closed 1%nat (trace w') = true
      ∧ heap w' !! dymosim.default_results = Some dymosim.default_results_value.
Proof.
  assert (Hwf : Script.wf (trace loaded)) by (intros h _; split; reflexivity).
  split; [exact Hwf|]. split; [reflexivity|].
  destruct (@session_closes_what_it_opens Host.posix default_fname default_command
              None default_results [] []
              [Run (Some "ModelX") []; Read "stopTime"; Run (Some "ModelX") []]
              loaded Hwf eq_refl)
    as (r & w' & new & Hs & Ht & Ho & _ & _ & _ & Hc0 & Hc1 & _ & Hheap & _).
  exists r, w'. split; [exact Hs|].
  split; [rewrite Ht; cbn [trace loaded app]; rewrite Ho; reflexivity|].
  split; [exact Hc0|]. split; [exact Hc1|].
  rewrite Hheap; [reflexivity|discriminate].
Defined.

(** A run after the exit of the freshly constructed writer. *)
Lemma run_after_exit_raises_witness :
  IO.closed (_mos fresh_writer) (trace (snd (@started Host.posix))) = false
  ∧ ∃ w1,
      __exit__ None (@started Host.posix) = (Ok tt, (fresh_writer, w1))
      ∧ @run Host.posix (Some "ModelX") [] (fresh_writer, w1)
        = (Raise (ValueError "I/O operation on closed file"),
           (set_n_runs 1 fresh_writer, w1)).
Proof.
  split; [reflexivity|].
  destruct (@run_after_exit_raises Host.posix fresh_writer
              (snd (@started Host.posix)) None (Some "ModelX") [] eq_refl)
    as (w1 & He & Hr).
  exists w1. split; [exact He|exact Hr].
Defined.

Lemma exit_twice_raises_witness :
  IO.closed (_mos fresh_writer) (trace (snd (@started Host.posix))) = false
  ∧ ∃ w1,
      __exit__ None (@started Host.posix) = (Ok tt, (fresh_writer, w1))
      ∧ __exit__ None (fresh_writer, w1)
        = (Raise (ValueError "I/O operation on closed file"), (fresh_writer, w1)).
Proof.
  split; [reflexivity|].
  destruct (exit_twice_raises fresh_writer (snd (@started Host.posix)) None None
              eq_refl)
    as (w1 & He & _ & _ & He').
  exists w1. split; [exact He|exact He'].
Defined.

(** A run with the empty model name and a parameter is the run
    without model and parameters. *)
Lemma run_without_model_ignores_params_witness :
  (Some EmptyString = None ∨ Some EmptyString = Some EmptyString)
  ∧ @run Host.posix (Some EmptyString) [("L.L", VInt 21)] (@started Host.posix)
    = @run Host.posix None [] (@started Host.posix).
Proof.
  split; [right; reflexivity|].
  exact (proj1 (@run_without_model_ignores_params Host.posix fresh_writer
                  (snd (@started Host.posix)) (Some EmptyString)
                  [("L.L", VInt 21)] [] (or_intror eq_refl))).
Defined.

(** An option [problem] given by hand, then [stopTime], then a run:
    the command carries the model, in the place of the option. *)
Lemma problem_option_never_reaches_command_witness :
  IO.closed (_mos fresh_writer) (trace (snd (@started Host.posix))) = false
  ∧ IO.closed (_run_log fresh_writer) (trace (snd (@started Host.posix))) = false
  ∧ _mos fresh_writer ≠ _run_log fresh_writer
  ∧ forallb quiet [Assign "stopTime" (PData (VInt 5)); Run (Some "ModelX") []] = true
  ∧ ∃ self1 w1 self2 w2,
      @block Host.posix
        [Assign "problem" (PData (VStr "Other")); Assign "stopTime" (PData (VInt 5));
         Run (Some "ModelX") []] (@started Host.posix) = (Ok tt, (self1, w1))
      ∧ @block Host.posix
          [Assign "problem" (PData (VInt 1)); Assign "stopTime" (PData (VInt 5));
           Run (Some "ModelX") []] (@started Host.posix) = (Ok tt, (self2, w2))
      ∧ IO.written 0%nat (trace w1) = IO.written 0%nat (trace w2)
      ∧ printed (trace w1) = printed (trace w2)
      ∧ IO.written 0%nat (trace w1) !! 7%nat
        = Some (Str.cat ["ok = simulateModel(problem="; Str.quoted "ModelX";
                         ", stopTime=5);"; Str.nl]).
Proof.
  split; [reflexivity|]. split; [reflexivity|]. split; [discriminate|].
  split; [reflexivity|].
  destruct (@problem_option_never_reaches_command Host.posix fresh_writer
              (snd (@started Host.posix)) (VStr "Other") (VInt 1)
              [Assign "stopTime" (PData (VInt 5)); Run (Some "ModelX") []]
              eq_refl eq_refl)
    as (self1 & w1 & self2 & w2 & H1 & H2 & _ & Hw & Hp);
    [discriminate|reflexivity|].
  exists self1, w1, self2, w2. split; [exact H1|]. split; [exact H2|].
  split; [exact Hw|]. split; [exact Hp|].
  assert (Hw1 : w1 = snd (snd (@block Host.posix
            [Assign "problem" (PData (VStr "Other"));
             Assign "stopTime" (PData (VInt 5)); Run (Some "ModelX") []]
            (fresh_writer, snd (@started Host.posix))))) by (by rewrite H1).
  rewrite Hw1. reflexivity.
Defined.

(** Setting [stopTime] leaves the reading of [n_runs] as it was. *)
Lemma option_assignment_frame_witness :
  is_known "stopTime" = false
  ∧ "n_runs" ≠ "stopTime"
  ∧ "n_runs" ≠ "_options"
  ∧ __setattr__ "stopTime" (PData (VInt 250)) (@started Host.posix)
    = (Ok tt, (set_options [("stopTime", VInt 250)] fresh_writer,
               snd (@started Host.posix)))
  ∧ fst (@getattr Host.posix "n_runs"
           (set_options [("stopTime", VInt 250)] fresh_writer,
            snd (@started Host.posix)))
    = fst (@getattr Host.posix "n_runs" (@started Host.posix)).
Proof.
  split; [reflexivity|]. split; [discriminate|]. split; [discriminate|].
  pose proof (@option_assignment_frame Host.posix fresh_writer
                (snd (@started Host.posix)) "stopTime" (VInt 250) "n_runs"
                eq_refl) as Hx.
  cbv zeta in Hx. destruct Hx as (Hs & _ & _ & Hg); [discriminate|discriminate|].
  split; [exact Hs|exact Hg].
Defined.


(** A package directory followed by a [.mos] script: ten lines, and
    the line before the destination runs the script. *)
Lemma header_with_packages_witness :
  Script.wf (trace loaded)
  ∧ ∃ self w',
      @__init__ Host.posix default_fname default_command None default_results
        ["/opt/lib/Pkg"; "/opt/lib/setup.mos"] [] loaded = (Ok self, w')
      ∧ length (IO.written (_mos self) (trace w')) = 10%nat
      ∧ IO.written (_mos self) (trace w') !! 8%nat
        = Some (Str.cat ["RunScript("; Str.quoted "setup.mos"; ");"; Str.nl]).
Proof.
  assert (Hwf : Script.wf (trace loaded)) by (intros h _; split; reflexivity).
  split; [exact Hwf|].
  pose proof (@header_with_packages Host.posix default_fname default_command None
                default_results ["/opt/lib/Pkg"; "/opt/lib/setup.mos"] [] loaded
                Hwf) as Hx.
  cbv zeta in Hx. destruct Hx as (self & w' & Hi & Hlen & Hline & _).
  exists self, w'. split; [exact Hi|]. split; [exact Hlen|]. exact Hline.
Defined.

(** A result list of the caller that names no executable. *)
Lemma init_leaves_names_without_placeholder_witness :
  Script.wf (trace (World [] {[2%nat := ["dsres.mat"; "dslog.txt"]]}))
  ∧ heap (World [] {[2%nat := ["dsres.mat"; "dslog.txt"]]}) !! 2%nat
    = Some ["dsres.mat"; "dslog.txt"]
  ∧ forallb (fun r => negb (contains "%x" r)) ["dsres.mat"; "dslog.txt"] = true
  ∧ ∃ self w',
      @__init__ Host.nt default_fname default_command None 2%nat [] []
        (World [] {[2%nat := ["dsres.mat"; "dslog.txt"]]}) = (Ok self, w')
      ∧ heap w' = {[2%nat := ["dsres.mat"; "dslog.txt"]]}.
Proof.
  assert (Hwf : Script.wf (trace (World [] {[2%nat := ["dsres.mat"; "dslog.txt"]]})))
    by (intros h _; split; reflexivity).
  split; [exact Hwf|]. split; [reflexivity|]. split; [reflexivity|].
  exact (@init_leaves_names_without_placeholder Host.nt default_fname default_command
           None 2%nat [] [] ["dsres.mat"; "dslog.txt"]
           (World [] {[2%nat := ["dsres.mat"; "dslog.txt"]]}) Hwf eq_refl eq_refl).
Defined.

(** Two writers on the default list, on the Windows host. *)
Lemma windows_substitution_is_stable_witness :
  @os_name Host.nt = "nt"
  ∧ Script.wf (trace loaded)
  ∧ heap loaded !! default_results = Some default_results_value
  ∧ ∃ self w1 self' w2,
      @__init__ Host.nt default_fname default_command None default_results [] []
        loaded = (Ok self, w1)
      ∧ @__init__ Host.nt "other.mos" "linearizeModel" None default_results [] []
          w1 = (Ok self', w2)
      ∧ heap w1 !! default_results
        = Some ["dsin.txt"; "dslog.txt"; "dsres.mat"; "dymolalg.txt"; "dymosim.exe"]
      ∧ heap w2 = heap w1.
Proof.
  assert (Hwf : Script.wf (trace loaded)) by (intros h _; split; reflexivity).
  split; [reflexivity|]. split; [exact Hwf|]. split; [reflexivity|].
  exact (@windows_substitution_is_stable Host.nt default_fname default_command None
           [] [] "other.mos" "linearizeModel" None [] [] default_results
           default_results_value loaded eq_refl Hwf eq_refl).
Defined.

(** The log of one run of [ModelX] with a parameter. *)
Lemma log_names_model_without_quotes_witness :
  _mos fresh_writer ≠ _run_log fresh_writer
  ∧ IO.closed (_mos fresh_writer) (trace (snd (@started Host.posix))) = false
  ∧ IO.closed (_run_log fresh_writer) (trace (snd (@started Host.posix))) = false
  ∧ "ModelX" ≠ EmptyString
  ∧ ∃ self' w',
      @run Host.posix (Some "ModelX") [("L.L", VInt 21)] (@started Host.posix)
      = (Ok tt, (self', w'))
      ∧ IO.written 1%nat (trace w')
        = [log_header;
           Str.cat ["1"; Str.tab; "simulateModel"; Str.tab; Str.tab;
                    "ModelX(L.L=21)"; Str.nl]].
Proof.
  split; [discriminate|]. split; [reflexivity|]. split; [reflexivity|].
  split; [discriminate|].
  destruct (@log_names_model_without_quotes Host.posix fresh_writer
              (snd (@started Host.posix)) "ModelX" [("L.L", VInt 21)])
    as (self' & w' & Hr & Hl & _);
    [discriminate|reflexivity|reflexivity|discriminate|].
  exists self', w'. split; [exact Hr|].
  change (_run_log fresh_writer) with 1%nat in Hl. rewrite Hl. reflexivity.
Defined.

(** Dymola starts, the script fails: the block ends with [close]. *)
Lemma drive_closes_what_it_starts_witness :
  sim_and_plot.is_other
    (@sim_and_plot.DymolaInterface
       (engine (sim_and_plot.Returns tt) (sim_and_plot.Returns true)
          (sim_and_plot.Returns false))) = false
  ∧ sim_and_plot.is_other
      (@sim_and_plot.ExecuteCommand
         (engine (sim_and_plot.Returns tt) (sim_and_plot.Returns true)
            (sim_and_plot.Returns false))
         0 (@sim_and_plot.set_work_directory
              (engine (sim_and_plot.Returns tt) (sim_and_plot.Returns true)
                 (sim_and_plot.Returns false)) "/home/user")) = false
  ∧ sim_and_plot.is_other
      (@sim_and_plot.ExecuteCommand
         (engine (sim_and_plot.Returns tt) (sim_and_plot.Returns true)
            (sim_and_plot.Returns false))
         1 (@sim_and_plot.run_script Host.posix
              (engine (sim_and_plot.Returns tt) (sim_and_plot.Returns true)
                 (sim_and_plot.Returns false)) "run_sims.mos")) = false
  ∧ sim_and_plot.is_other
      (@sim_and_plot.getLastErrorLog
         (engine (sim_and_plot.Returns tt) (sim_and_plot.Returns true)
            (sim_and_plot.Returns false))) = false
  ∧ ∃ d' mid,
      @sim_and_plot.drive Host.posix
        (engine (sim_and_plot.Returns tt) (sim_and_plot.Returns true)
           (sim_and_plot.Returns false))
        "run_sims.mos" "/home/user" (sim_and_plot.State false [])
      = (sim_and_plot.Returns tt,
         sim_and_plot.State d'
           (sim_and_plot.Start :: mid ++ [sim_and_plot.Close])%list)
      ∧ d' = false.
Proof.
  split; [reflexivity|]. split; [reflexivity|]. split; [reflexivity|].
  split; [reflexivity|].
  destruct (@drive_closes_what_it_starts Host.posix
              (engine (sim_and_plot.Returns tt) (sim_and_plot.Returns true)
                 (sim_and_plot.Returns false))
              "run_sims.mos" "/home/user" false [] eq_refl eq_refl eq_refl eq_refl)
    as (o & d' & new & Hd & Hrest).
  cbn [sim_and_plot.DymolaInterface sim_and_plot.close engine] in Hrest.
  destruct Hrest as ((mid & Hnew & _) & Ho & Hd').
  exists d', mid. rewrite Hd, Hnew, Ho. split; [reflexivity|exact Hd'].
Defined.

(** The script is interrupted: Dymola is left open. *)
Lemma other_exception_skips_close_witness :
  sim_and_plot.is_other
    (@sim_and_plot.close
       (engine (sim_and_plot.Returns tt) (sim_and_plot.Returns true)
          (sim_and_plot.RaisesOther "KeyboardInterrupt"))) = false
  ∧ ∃ st' new,
      @sim_and_plot.drive Host.posix
        (engine (sim_and_plot.Returns tt) (sim_and_plot.Returns true)
           (sim_and_plot.RaisesOther "KeyboardInterrupt"))
        "run_sims.mos" "/home/user" (sim_and_plot.State false [])
      = (sim_and_plot.RaisesOther "KeyboardInterrupt", st')
      ∧ sim_and_plot.actions st' = new
      ∧ (sim_and_plot.Close ∉ new)
      ∧ sim_and_plot.dymola st' = true.
Proof.
  split; [reflexivity|].
  eexists.
  destruct (@other_exception_skips_close Host.posix
              (engine (sim_and_plot.Returns tt) (sim_and_plot.Returns true)
                 (sim_and_plot.RaisesOther "KeyboardInterrupt"))
              "run_sims.mos" "/home/user" false [] "KeyboardInterrupt" _
              eq_refl eq_refl)
    as (new & Ha & Hc & Hd).
  exists new. split; [reflexivity|]. split; [exact Ha|]. split; [exact Hc|].
  exact (Hd eq_refl).
Defined.

(** [stopTime] is set twice and read back each time. *)
Lemma option_reads_back_witness :
  is_known "stopTime" = false
  ∧ existsb (String.eqb "stopTime") class_attrs = false
  ∧ existsb (String.eqb "stopTime") (@object_attrs Host.posix) = false
  ∧ ∃ self1 self2,
      __setattr__ "stopTime" (PData (VInt 250)) (@started Host.posix)
      = (Ok tt, (self1, snd (@started Host.posix)))
      ∧ @getattr Host.posix "stopTime" (self1, snd (@started Host.posix))
        = (Ok (PData (VInt 250)), (self1, snd (@started Host.posix)))
      ∧ __setattr__ "stopTime" (PData (VInt 2500)) (self1, snd (@started Host.posix))
        = (Ok tt, (self2, snd (@started Host.posix)))
      ∧ @getattr Host.posix "stopTime" (self2, snd (@started Host.posix))
        = (Ok (PData (VInt 2500)), (self2, snd (@started Host.posix)))
      ∧ _options self2 = [("stopTime", VInt 2500)].
Proof.
  split; [reflexivity|]. split; [reflexivity|]. split; [reflexivity|].
  exact (@option_reads_back Host.posix fresh_writer (snd (@started Host.posix))
           "stopTime" (VInt 250) (VInt 2500) eq_refl eq_refl eq_refl).
Defined.
